(** * Task_Agent: the task / workflow state machine

    A shallow embedding of [src/task_agent/task.py] (Task, Workflow and
    their persistence), [src/task_agent/agent.py] (the routing executor
    and the workflow runner), [src/task_agent/paper.py] (the paper store)
    and the [generate] wrapper of [src/task_agent/gemini_client.py],
    followed by the properties of the specification that concern them.
    A second part adds the planning methods of the agent, the records and
    the metadata file of the papers and the line parsers of
    [src/task_agent/document.py], with properties read off that code.

    Conventions.
    - Python [str] is [string] (bytes; [lower]/[upper] act on ASCII letters).
    - Python [int] is [Z]; list lengths and call counters are [nat].
    - A [dict] with string keys is a [gmap string _].
    - Mutable objects are threaded explicitly: a function that mutates its
      argument returns the argument's new contents next to its result.
    - An exception is a value of [outcome]: [Raises e] instead of a result.
    - Calls to the [logging] module are left out: they do not raise and
      nothing reads what they write. *)

From Stdlib Require Import ZArith Ascii String List.
From stdpp Require Import gmap strings list pretty.

Import ListNotations.

(** ** Results of fallible code *)

Inductive outcome (E A : Type) : Type :=
| Returns (a : A)
| Raises (e : E).
Arguments Returns {E A} a.
Arguments Raises {E A} e.

(** A computation over a mutable store [S] that may raise an [E]. The
    store survives a raise, as the fields of a Python object do. *)
Definition SE (S E A : Type) : Type := S -> outcome E A * S.

Definition se_ret {S E A} (a : A) : SE S E A := fun s => (Returns a, s).

Definition se_raise {S E A} (e : E) : SE S E A := fun s => (Raises e, s).

Definition se_bind {S E A B} (c : SE S E A) (k : A -> SE S E B) : SE S E B :=
  fun s =>
    match c s with
    | (Returns a, s') => k a s'
    | (Raises e, s') => (Raises e, s')
    end.

Definition se_get {S E} : SE S E S := fun s => (Returns s, s).

Definition se_modify {S E} (f : S -> S) : SE S E unit := fun s => (Returns tt, f s).

(** [try: c except Exception as e: h e] *)
Definition se_try {S E E' A} (c : SE S E A) (h : E -> SE S E' A) : SE S E' A :=
  fun s =>
    match c s with
    | (Returns a, s') => (Returns a, s')
    | (Raises e, s') => h e s'
    end.

Notation "x <~ c ;; k" := (se_bind c (fun x => k))
  (at level 100, c at next level, right associativity).
Notation "c ;;; k" := (se_bind c (fun _ => k))
  (at level 100, right associativity).

(** ** Python string primitives used by the sources *)

Module PyStr.

Definition nl : string := String (ascii_of_nat 10) EmptyString.

Definition is_upper (c : ascii) : bool :=
  (65 <=? nat_of_ascii c) && (nat_of_ascii c <=? 90).

Definition is_lower (c : ascii) : bool :=
  (97 <=? nat_of_ascii c) && (nat_of_ascii c <=? 122).

Definition lower_char (c : ascii) : ascii :=
  if is_upper c then ascii_of_nat (nat_of_ascii c + 32) else c.

Definition upper_char (c : ascii) : ascii :=
  if is_lower c then ascii_of_nat (nat_of_ascii c - 32) else c.

Fixpoint map_chars (f : ascii -> ascii) (s : string) : string :=
  match s with
  | EmptyString => EmptyString
  | String c r => String (f c) (map_chars f r)
  end.

(** [s.lower()] and [s.upper()] on ASCII text; the bytes of other
    characters are left as they are. *)
Definition lower : string -> string := map_chars lower_char.
Definition upper : string -> string := map_chars upper_char.

(** [s.startswith(p)] *)
Definition startswith (p s : string) : bool := String.prefix p s.

(** [sub in s] *)
Fixpoint contains (sub s : string) : bool :=
  String.prefix sub s ||
  match s with
  | EmptyString => false
  | String _ r => contains sub r
  end.

(** [sep.join(l)] *)
Fixpoint join (sep : string) (l : list string) : string :=
  match l with
  | [] => EmptyString
  | [x] => x
  | x :: r => x +:+ sep +:+ join sep r
  end.

(** [s[:n]] *)
Definition take (n : nat) (s : string) : string := String.substring 0 n s.

(** [c * n] for a one-character string [c] *)
Fixpoint repeat (c : ascii) (n : nat) : string :=
  match n with
  | O => EmptyString
  | S m => String c (repeat c m)
  end.

(** [s.split(sep)] for a one-character separator *)
Fixpoint split (sep : ascii) (s : string) : list string :=
  match s with
  | EmptyString => [EmptyString]
  | String c r =>
      if Ascii.eqb c sep then EmptyString :: split sep r
      else match split sep r with
           | h :: t => String c h :: t
           | [] => [String c EmptyString]
           end
  end.

(** [str.isspace] on the ASCII range *)
Definition isspace (c : ascii) : bool :=
  let n := nat_of_ascii c in
  ((9 <=? n) && (n <=? 13)) || ((28 <=? n) && (n <=? 32)).

Fixpoint lstrip_by (p : ascii -> bool) (s : string) : string :=
  match s with
  | EmptyString => EmptyString
  | String c r => if p c then lstrip_by p r else s
  end.

Definition reverse (s : string) : string :=
  string_of_list_ascii (rev (list_ascii_of_string s)).

Definition rstrip_by (p : ascii -> bool) (s : string) : string :=
  reverse (lstrip_by p (reverse s)).

Definition strip_by (p : ascii -> bool) (s : string) : string :=
  rstrip_by p (lstrip_by p s).

(** [s.strip()], for the white space of the ASCII range *)
Definition strip : string -> string := strip_by isspace.

(** [s.strip(chars)] *)
Definition strip_chars (chars : string) : string -> string :=
  strip_by (fun c => existsb (Ascii.eqb c) (list_ascii_of_string chars)).

(** Truth value of a string: [if s:] *)
Definition nonempty (s : string) : bool :=
  match s with EmptyString => false | String _ _ => true end.

End PyStr.

(** ** The datetime library

    [datetime] belongs to Python's standard library, not to the
    repository: the sources only use [isoformat], [fromisoformat],
    [strftime] with one fixed pattern and [now]. The development is
    parametric in an implementation that parses back what it prints, as
    the library documents ([NaiveDatetime] below is one). *)

Class Datetime : Type := {
  datetime : Type;
  (** [d.isoformat()] *)
  isoformat : datetime -> string;
  (** [datetime.fromisoformat(s)], [None] when it raises ValueError *)
  fromisoformat : string -> option datetime;
  (** [d.strftime('%Y%m%d_%H%M%S')] *)
  strftime_compact : datetime -> string;
  fromisoformat_isoformat : forall d, fromisoformat (isoformat d) = Some d;
  isoformat_nonempty : forall d, PyStr.nonempty (isoformat d) = true;
}.

(** ** Exceptions raised by the persistence code *)

Inductive exn : Type :=
| KeyError (key : string)
| ValueError
| JSONDecodeError      (* a subclass of ValueError *)
| UnicodeDecodeError   (* a subclass of ValueError *)
| TypeError
| OSError           (* IOError is an alias of OSError *)
| EOFError.

(** ** TaskStatus *)

Module TaskStatus.

Inductive t : Type :=
| PENDING
| IN_PROGRESS
| COMPLETED
| FAILED
| WAITING_USER.

#[global] Instance eq_dec : EqDecision t.
Proof. solve_decision. Defined.

(** [status.value] *)
Definition value (s : t) : string :=
  match s with
  | PENDING => "pending"
  | IN_PROGRESS => "in_progress"
  | COMPLETED => "completed"
  | FAILED => "failed"
  | WAITING_USER => "waiting_user"
  end.

Definition members : list t :=
  [PENDING; IN_PROGRESS; COMPLETED; FAILED; WAITING_USER].

(** Lookup of a member by its value, the string case of [TaskStatus(v)]. *)
Definition of_value (v : string) : option t :=
  List.find (fun s => bool_decide (value s = v)) members.

End TaskStatus.

(** ** Python values

    [json] are the values [json.load] produces (floats left out): they
    are also what the handlers store in the metadata dictionaries.
    [pyval] adds the two kinds of object that [from_dict] writes into a
    record in place of strings. *)

Unset Elimination Schemes.
Inductive json : Type :=
| JNull
| JBool (b : bool)
| JInt (z : Z)
| JStr (s : string)
| JList (l : list json)
| JDict (d : gmap string json).
Set Elimination Schemes.

Section Values.
Context `{DT : Datetime}.

Inductive pyval : Type :=
| VJson (j : json)
| VStatus (s : TaskStatus.t)
| VDatetime (d : datetime).

(** Truth value, as tested by [if v:] *)
Definition json_truthy (j : json) : bool :=
  match j with
  | JNull => false
  | JBool b => b
  | JInt z => negb (z =? 0)%Z
  | JStr s => PyStr.nonempty s
  | JList l => match l with [] => false | _ :: _ => true end
  | JDict d => negb (bool_decide (d = ∅))
  end.

Definition truthy (v : pyval) : bool :=
  match v with
  | VJson j => json_truthy j
  | VStatus _ => true
  | VDatetime _ => true
  end.

(** [TaskStatus(v)]: a member is returned as it is, a string is looked
    up among the values, anything else is not a valid TaskStatus. *)
Definition TaskStatus_call (v : pyval) : outcome exn TaskStatus.t :=
  match v with
  | VStatus s => Returns s
  | VJson (JStr x) =>
      match TaskStatus.of_value x with
      | Some s => Returns s
      | None => Raises ValueError
      end
  | _ => Raises ValueError
  end.

(** [datetime.fromisoformat(v)]: the argument must be a [str]. *)
Definition datetime_fromisoformat (v : pyval) : outcome exn datetime :=
  match v with
  | VJson (JStr x) =>
      match fromisoformat x with
      | Some d => Returns d
      | None => Raises ValueError
      end
  | _ => Raises TypeError
  end.

(** Operations on a dictionary held by reference. *)
Definition getitem (k : string) : SE (gmap string pyval) exn pyval :=
  fun data =>
    match data !! k with
    | Some v => (Returns v, data)
    | None => (Raises (KeyError k), data)
    end.

Definition setitem (k : string) (v : pyval) : SE (gmap string pyval) exn unit :=
  se_modify (fun data => <[k := v]> data).

Definition se_lift {S E A} (r : outcome E A) : SE S E A := fun s => (r, s).

End Values.

(** ** Task ([task.py], lines 21-53) *)

Module Task.
Section WithDatetime.
Context `{DT : Datetime}.

(** The dataclass, with the types of its annotations. *)
Record t : Type := mk {
  id : string;
  title : string;
  description : string;
  status : TaskStatus.t;
  result : option string;
  created_at : datetime;
  completed_at : option datetime;
  metadata : gmap string json;
}.

Definition set_status (s : TaskStatus.t) (x : t) : t :=
  mk (id x) (title x) (description x) s (result x)
     (created_at x) (completed_at x) (metadata x).

Definition set_result (r : option string) (x : t) : t :=
  mk (id x) (title x) (description x) (status x) r
     (created_at x) (completed_at x) (metadata x).

Definition set_completed_at (c : option datetime) (x : t) : t :=
  mk (id x) (title x) (description x) (status x) (result x)
     (created_at x) c (metadata x).

Definition set_metadata (m : gmap string json) (x : t) : t :=
  mk (id x) (title x) (description x) (status x) (result x)
     (created_at x) (completed_at x) m.

(** [Task(id=.., title=.., description=.., status=..)] with the other
    fields at their defaults; [now] is what [datetime.now] returns. *)
Definition new (i ti de : string) (s : TaskStatus.t) (now : datetime) : t :=
  mk i ti de s None now None ∅.

(** The instance that [cls] builds from keyword arguments. Python checks no
    annotation, so every attribute holds whatever value was passed. *)
Record obj : Type := mk_obj {
  o_id : pyval;
  o_title : pyval;
  o_description : pyval;
  o_status : pyval;
  o_result : pyval;
  o_created_at : pyval;
  o_completed_at : pyval;
  o_metadata : pyval;
}.

Definition opt_str (o : option string) : json :=
  match o with Some s => JStr s | None => JNull end.

(** A task seen as an instance: each attribute as a Python value. *)
Definition obj_of (x : t) : obj :=
  mk_obj (VJson (JStr (id x))) (VJson (JStr (title x)))
         (VJson (JStr (description x))) (VStatus (status x))
         (VJson (opt_str (result x))) (VDatetime (created_at x))
         (match completed_at x with
          | Some d => VDatetime d
          | None => VJson JNull
          end)
         (VJson (JDict (metadata x))).

(** The instances whose attributes have the annotated types. *)
Definition typed (o : obj) : option t :=
  match o_id o, o_title o, o_description o, o_status o, o_created_at o, o_metadata o with
  | VJson (JStr i), VJson (JStr ti), VJson (JStr de), VStatus s, VDatetime c, VJson (JDict m) =>
      match o_result o, o_completed_at o with
      | VJson (JStr r), VDatetime d => Some (mk i ti de s (Some r) c (Some d) m)
      | VJson (JStr r), VJson JNull => Some (mk i ti de s (Some r) c None m)
      | VJson JNull, VDatetime d => Some (mk i ti de s None c (Some d) m)
      | VJson JNull, VJson JNull => Some (mk i ti de s None c None m)
      | _, _ => None
      end
  | _, _, _, _, _, _ => None
  end.

(** [to_dict], lines 33-44. A datetime is always true, so the test
    on [self.completed_at] is a test for [None]. *)
Definition to_dict (self : t) : gmap string json :=
  <["id" := JStr (id self)]>
  (<["title" := JStr (title self)]>
  (<["description" := JStr (description self)]>
  (<["status" := JStr (TaskStatus.value (status self))]>
  (<["result" := opt_str (result self)]>
  (<["created_at" := JStr (isoformat (created_at self))]>
  (<["completed_at" := match completed_at self with
                       | Some d => JStr (isoformat d)
                       | None => JNull
                       end]>
  (<["metadata" := JDict (metadata self)]> ∅))))))).

Definition fields : list string :=
  ["id"; "title"; "description"; "status"; "result";
   "created_at"; "completed_at"; "metadata"].

(** The generated [__init__] called with keyword arguments: an
    unknown keyword or a missing [id], [title] or [description] is a
    TypeError; the other fields have defaults ([created_at] defaults
    to [datetime.now()], passed as [now]). *)
Definition init (now : datetime) (kw : gmap string pyval) : outcome exn obj :=
  if bool_decide (dom kw ⊆ list_to_set (C := gset string) fields) then
    match kw !! "id", kw !! "title", kw !! "description" with
    | Some i, Some ti, Some de =>
        Returns (mk_obj i ti de
                   (default (VStatus TaskStatus.PENDING) (kw !! "status"))
                   (default (VJson JNull) (kw !! "result"))
                   (default (VDatetime now) (kw !! "created_at"))
                   (default (VJson JNull) (kw !! "completed_at"))
                   (default (VJson (JDict ∅)) (kw !! "metadata")))
    | _, _, _ => Raises TypeError
    end
  else Raises TypeError.

(** [from_dict], lines 46-53. [data] is the caller's dictionary: the
    three assignments are made in it, and it is returned beside the
    result with the contents it has when the call ends. *)
Definition from_dict (now : datetime) : SE (gmap string pyval) exn obj :=
  v <~ getitem "status" ;;
  s <~ se_lift (TaskStatus_call v) ;;
  setitem "status" (VStatus s) ;;;
  v <~ getitem "created_at" ;;
  c <~ se_lift (datetime_fromisoformat v) ;;
  setitem "created_at" (VDatetime c) ;;;
  v <~ getitem "completed_at" ;;
  (if truthy v then
     d <~ se_lift (datetime_fromisoformat v) ;;
     setitem "completed_at" (VDatetime d)
   else se_ret tt) ;;;
  data <~ se_get ;;
  se_lift (init now data).

End WithDatetime.
End Task.

(** ** A datetime implementation: naive datetimes

    The fields of a [datetime] without time zone, within the ranges the
    library enforces, printed as [YYYY-MM-DDTHH:MM:SS] with [.ffffff]
    appended when the microsecond is not zero. The parser reads these
    two shapes back. *)

Module NaiveDatetime.

Local Open Scope N_scope.

Record fields : Type := mk {
  year : N;
  month : N;
  day : N;
  hour : N;
  minute : N;
  second : N;
  microsecond : N;
}.

Definition is_leap (y : N) : bool :=
  ((y mod 4 =? 0) && negb (y mod 100 =? 0)) || (y mod 400 =? 0).

Definition days_in_month (y m : N) : N :=
  match m with
  | 2 => if is_leap y then 29 else 28
  | 4 | 6 | 9 | 11 => 30
  | _ => 31
  end.

Definition valid (f : fields) : bool :=
  (1 <=? year f) && (year f <=? 9999) &&
  (1 <=? month f) && (month f <=? 12) &&
  (1 <=? day f) && (day f <=? days_in_month (year f) (month f)) &&
  (hour f <? 24) && (minute f <? 60) && (second f <? 60) &&
  (microsecond f <? 1000000).

Definition t : Type := { f : fields | valid f = true }.

Definition digit_char (n : N) : ascii := ascii_of_N (48 + n).

Definition digit_val (c : ascii) : option N :=
  let n := N_of_ascii c in
  if (48 <=? n) && (n <=? 57) then Some (n - 48) else None.

(** [n] in decimal on exactly [w] digits, zero padded *)
Fixpoint digits (w : nat) (n : N) : string :=
  match w with
  | O => EmptyString
  | S w' =>
      String (digit_char (n / 10 ^ N.of_nat w'))
             (digits w' (n mod 10 ^ N.of_nat w'))
  end.

(** Reads exactly [w] decimal digits. *)
Fixpoint read_digits (w : nat) (acc : N) (s : string) : option (N * string) :=
  match w with
  | O => Some (acc, s)
  | S w' =>
      match s with
      | EmptyString => None
      | String c r =>
          match digit_val c with
          | Some v => read_digits w' (10 * acc + v) r
          | None => None
          end
      end
  end.

Definition expect (c : ascii) (s : string) : option string :=
  match s with
  | EmptyString => None
  | String c' r => if Ascii.eqb c c' then Some r else None
  end.

Definition print (f : fields) : string :=
  digits 4 (year f) +:+ String "-" (digits 2 (month f) +:+ String "-"
    (digits 2 (day f) +:+ String "T" (digits 2 (hour f) +:+ String ":"
      (digits 2 (minute f) +:+ String ":" (digits 2 (second f) +:+
        (if microsecond f =? 0 then EmptyString
         else String "." (digits 6 (microsecond f)))))))).

Definition parse_fraction (s : string) : option N :=
  match s with
  | EmptyString => Some 0
  | String c r =>
      if Ascii.eqb c "." then
        match read_digits 6 0 r with
        | Some (us, EmptyString) => Some us
        | _ => None
        end
      else None
  end.

Definition parse (s : string) : option fields :=
  '(y, s) ← read_digits 4 0 s; s ← expect "-" s;
  '(m, s) ← read_digits 2 0 s; s ← expect "-" s;
  '(d, s) ← read_digits 2 0 s; s ← expect "T" s;
  '(h, s) ← read_digits 2 0 s; s ← expect ":" s;
  '(mi, s) ← read_digits 2 0 s; s ← expect ":" s;
  '(se, s) ← read_digits 2 0 s;
  us ← parse_fraction s;
  Some (mk y m d h mi se us).

Definition check (f : fields) : option t :=
  match Bool.bool_dec (valid f) true with
  | left H => Some (exist _ f H)
  | right _ => None
  end.

Definition isoformat (d : t) : string := print (proj1_sig d).

Definition fromisoformat (s : string) : option t := f ← parse s; check f.

Definition strftime_compact (d : t) : string :=
  let f := proj1_sig d in
  digits 4 (year f) +:+ digits 2 (month f) +:+ digits 2 (day f) +:+
  String "_" (digits 2 (hour f) +:+ digits 2 (minute f) +:+ digits 2 (second f)).

(** [datetime(y, m, d, h, mi, s, us)] for arguments in range *)
Definition make (f : fields) (H : valid f = true) : t := exist _ f H.

End NaiveDatetime.

(** ** Files

    [json.dump] and [json.load] belong to the standard library. A file
    whose text is a JSON document is represented by that document;
    [Malformed] stands for a text that is not JSON, and [NotUTF8] for
    bytes that the decoder of a file opened with [encoding='utf-8']
    rejects when [json.load] reads it. A path without a file stands for
    every path that [open(path, 'r')] refuses. [denied] are the paths
    that [open(path, 'w')] refuses. Documents with floats, or nested
    beyond the recursion limit of the interpreter, are left out. *)

Inductive file_content : Type :=
| JsonDoc (doc : json)
| Malformed
| NotUTF8.

Record FS : Type := mk_FS {
  files : gmap string file_content;
  denied : gset string;
}.

(** [with open(path, 'r') as f: json.load(f)] *)
Definition read_json (path : string) (fs : FS) : outcome exn json :=
  match files fs !! path with
  | None => Raises OSError
  | Some NotUTF8 => Raises UnicodeDecodeError
  | Some Malformed => Raises JSONDecodeError
  | Some (JsonDoc doc) => Returns doc
  end.

(** [with open(path, 'w') as f: json.dump(doc, f)]. Every value of
    [json] can be written, so that the only failure is the one of
    [open], which leaves the file as it was. *)
Definition write_json (path : string) (doc : json) : SE FS exn unit :=
  fun fs =>
    if bool_decide (path ∈ denied fs) then (Raises OSError, fs)
    else (Returns tt, mk_FS (<[path := JsonDoc doc]> (files fs)) (denied fs)).

(** ** Workflow ([task.py], lines 56-113) *)

Module Workflow.
Section WithDatetime.
Context `{DT : Datetime}.

Record t : Type := mk {
  id : string;
  title : string;
  description : string;
  tasks : list Task.t;
  current_task_index : Z;
  created_at : datetime;
  metadata : gmap string json;
}.

Definition set_tasks (l : list Task.t) (w : t) : t :=
  mk (id w) (title w) (description w) l (current_task_index w)
     (created_at w) (metadata w).

Definition set_current_task_index (i : Z) (w : t) : t :=
  mk (id w) (title w) (description w) (tasks w) i
     (created_at w) (metadata w).

Definition set_metadata (m : gmap string json) (w : t) : t :=
  mk (id w) (title w) (description w) (tasks w) (current_task_index w)
     (created_at w) m.

(** [Workflow(id=.., title=.., description=..)] *)
Definition new (i ti de : string) (now : datetime) : t :=
  mk i ti de [] 0 now ∅.

Definition add_task (task : Task.t) (w : t) : t :=
  set_tasks (tasks w ++ [task]) w.

Definition get_current_task (w : t) : option Task.t :=
  if bool_decide (0 <= current_task_index w < Z.of_nat (length (tasks w)))%Z
  then tasks w !! Z.to_nat (current_task_index w)
  else None.

(** [next_task]: the result and the workflow after the call *)
Definition next_task (w : t) : bool * t :=
  if bool_decide (current_task_index w < Z.of_nat (length (tasks w)) - 1)%Z
  then (true, set_current_task_index (current_task_index w + 1) w)
  else (false, w).

Definition is_complete (w : t) : bool :=
  forallb (fun task => bool_decide (Task.status task = TaskStatus.COMPLETED))
          (tasks w).

Definition to_dict (self : t) : gmap string json :=
  <["id" := JStr (id self)]>
  (<["title" := JStr (title self)]>
  (<["description" := JStr (description self)]>
  (<["tasks" := JList ((fun task => JDict (Task.to_dict task)) <$> tasks self)]>
  (<["current_task_index" := JInt (current_task_index self)]>
  (<["created_at" := JStr (isoformat (created_at self))]>
  (<["metadata" := JDict (metadata self)]> ∅)))))).

Definition save (self : t) (filepath : string) : SE FS exn unit :=
  write_json filepath (JDict (to_dict self)).

(** The entries of the dictionary that [load] passes to [cls]: parsed
    JSON, and the two entries it replaces by objects. *)
Inductive entry : Type :=
| EJson (j : json)
| EDatetime (d : datetime)
| ETasks (l : list Task.obj).

Record obj : Type := mk_obj {
  o_id : entry;
  o_title : entry;
  o_description : entry;
  o_tasks : entry;
  o_current_task_index : entry;
  o_created_at : entry;
  o_metadata : entry;
}.

Definition obj_of (w : t) : obj :=
  mk_obj (EJson (JStr (id w))) (EJson (JStr (title w)))
         (EJson (JStr (description w)))
         (ETasks (Task.obj_of <$> tasks w))
         (EJson (JInt (current_task_index w)))
         (EDatetime (created_at w))
         (EJson (JDict (metadata w))).

Definition fields : list string :=
  ["id"; "title"; "description"; "tasks"; "current_task_index";
   "created_at"; "metadata"].

Definition init (now : datetime) (kw : gmap string entry) : outcome exn obj :=
  if bool_decide (dom kw ⊆ list_to_set (C := gset string) fields) then
    match kw !! "id", kw !! "title", kw !! "description" with
    | Some i, Some ti, Some de =>
        Returns (mk_obj i ti de
                   (default (ETasks []) (kw !! "tasks"))
                   (default (EJson (JInt 0)) (kw !! "current_task_index"))
                   (default (EDatetime now) (kw !! "created_at"))
                   (default (EJson (JDict ∅)) (kw !! "metadata")))
    | _, _, _ => Raises TypeError
    end
  else Raises TypeError.

(** [data[k]] on the value that [json.load] returned *)
Definition subscript (data : json) (k : string) : outcome exn json :=
  match data with
  | JDict d =>
      match d !! k with
      | Some v => Returns v
      | None => Raises (KeyError k)
      end
  | _ => Raises TypeError
  end.

(** The elements that [for task_data in v] visits. A dictionary
    yields its keys and a string its characters. *)
Definition iterate (v : json) : outcome exn (list json) :=
  match v with
  | JList l => Returns l
  | JDict d => Returns ((fun kv => JStr (fst kv)) <$> map_to_list d)
  | JStr s => Returns ((fun c => JStr (String c EmptyString)) <$> list_ascii_of_string s)
  | _ => Raises TypeError
  end.

(** [Task.from_dict(task_data)] on one element: it must be a
    dictionary to be subscripted by ['status']. *)
Definition task_from_json (now : datetime) (task_data : json) : outcome exn Task.obj :=
  match task_data with
  | JDict d => fst (Task.from_dict now (VJson <$> d))
  | _ => Raises TypeError
  end.

(** The list comprehension: elements in order, the first raise ends it. *)
Fixpoint tasks_from_json (now : datetime) (l : list json) : outcome exn (list Task.obj) :=
  match l with
  | [] => Returns []
  | task_data :: r =>
      match task_from_json now task_data with
      | Raises e => Raises e
      | Returns o =>
          match tasks_from_json now r with
          | Raises e => Raises e
          | Returns os => Returns (o :: os)
          end
      end
  end.

Definition fromisoformat_json (v : json) : outcome exn datetime :=
  datetime_fromisoformat (VJson v).

(** [load], lines 105-113 *)
Definition load (now : datetime) (filepath : string) (fs : FS) : outcome exn obj :=
  match read_json filepath fs with
  | Raises e => Raises e
  | Returns data =>
  match subscript data "created_at" with
  | Raises e => Raises e
  | Returns v =>
  match fromisoformat_json v with
  | Raises e => Raises e
  | Returns c =>
  match subscript data "tasks" with
  | Raises e => Raises e
  | Returns v =>
  match iterate v with
  | Raises e => Raises e
  | Returns l =>
  match tasks_from_json now l with
  | Raises e => Raises e
  | Returns os =>
      match data with
      | JDict d =>
          init now (<["tasks" := ETasks os]>
                     (<["created_at" := EDatetime c]> (EJson <$> d)))
      | _ => Raises TypeError
      end
  end end end end end end.

End WithDatetime.
End Workflow.

(** ** Paper and PaperManager ([paper.py])

    The JSON file that [PaperManager] rewrites after each change is not
    represented here: [_save_metadata] catches its own exceptions, so that
    nothing in the agent depends on it. [PaperStore] below has the
    manager with its file. *)

Module Paper.

Record t : Type := mk {
  title : string;
  authors : list string;
  year : option Z;
  abstract : option string;
  keywords : list string;
  filepath : option string;
  url : option string;
  summary : option string;
  key_findings : list string;
  metadata : gmap string json;
}.

Definition set_summary (s : option string) (p : t) : t :=
  mk (title p) (authors p) (year p) (abstract p) (keywords p)
     (filepath p) (url p) s (key_findings p) (metadata p).

Definition set_key_findings (k : list string) (p : t) : t :=
  mk (title p) (authors p) (year p) (abstract p) (keywords p)
     (filepath p) (url p) (summary p) k (metadata p).

End Paper.

(** Truth value of an [Optional[str]]: [if s:] *)
Definition opt_nonempty (o : option string) : bool :=
  match o with
  | Some s => PyStr.nonempty s
  | None => false
  end.

Module PaperManager.

(** [update_paper_summary], lines 132-140: [get_paper_by_title] finds
    the first paper whose title matches without regard to case, and
    that object is updated in place. *)
Fixpoint update_paper_summary (title summary : string) (key_findings : list string)
    (papers : list Paper.t) : list Paper.t :=
  match papers with
  | [] => []
  | paper :: rest =>
      if bool_decide (PyStr.lower (Paper.title paper) = PyStr.lower title) then
        let paper := Paper.set_summary (Some summary) paper in
        let paper :=
          match key_findings with
          | [] => paper
          | _ :: _ => Paper.set_key_findings key_findings paper
          end in
        paper :: rest
      else paper :: update_paper_summary title summary key_findings rest
  end.

Definition paper_section (i : nat) (paper : Paper.t) : string :=
  "## " +:+ pretty i +:+ ". " +:+ Paper.title paper +:+ PyStr.nl +:+ PyStr.nl +:+
  (match Paper.authors paper with
   | [] => EmptyString
   | _ :: _ => "**Authors:** " +:+ PyStr.join ", " (Paper.authors paper)
               +:+ PyStr.nl +:+ PyStr.nl
   end) +:+
  (match Paper.year paper with
   | Some y => if (y =? 0)%Z then EmptyString
               else "**Year:** " +:+ pretty y +:+ PyStr.nl +:+ PyStr.nl
   | None => EmptyString
   end) +:+
  (match Paper.abstract paper with
   | Some a => if PyStr.nonempty a
               then "**Abstract:** " +:+ a +:+ PyStr.nl +:+ PyStr.nl
               else EmptyString
   | None => EmptyString
   end) +:+
  (match Paper.summary paper with
   | Some s => if PyStr.nonempty s
               then "**Summary:** " +:+ s +:+ PyStr.nl +:+ PyStr.nl
               else EmptyString
   | None => EmptyString
   end) +:+
  (match Paper.key_findings paper with
   | [] => EmptyString
   | _ :: _ =>
       "**Key Findings:**" +:+ PyStr.nl +:+
       fold_right (fun finding acc => "- " +:+ finding +:+ PyStr.nl +:+ acc)
                  EmptyString (Paper.key_findings paper)
       +:+ PyStr.nl
   end) +:+
  "---" +:+ PyStr.nl +:+ PyStr.nl.

Fixpoint paper_sections (i : nat) (papers : list Paper.t) : string :=
  match papers with
  | [] => EmptyString
  | paper :: rest => paper_section i paper +:+ paper_sections (S i) rest
  end.

(** [generate_papers_summary], lines 142-172 *)
Definition generate_papers_summary (papers : list Paper.t) : string :=
  match papers with
  | [] => "No papers available."
  | _ :: _ => "# Papers Summary" +:+ PyStr.nl +:+ PyStr.nl +:+ paper_sections 1 papers
  end.

End PaperManager.

(** ** The agent and what surrounds it ([agent.py], [gemini_client.py])

    [Env] is what the agent does not control: the remote model (its
    answer may depend on the number of earlier requests), the clock,
    the document renderer's failures and the configured directories.
    [Agent] is everything a call can change: the agent's attributes,
    the console and the files under the base directory, where
    [_save_workflow] writes. The metadata file that the paper manager
    rewrites and the documents that the generator writes are no part of
    [fs]. *)

Record request : Type := mk_request {
  prompt : string;
  max_output_tokens : Z;   (* the temperature is 0.7 at every call site *)
}.

Section Agent.
Context `{DT : Datetime}.

Record Env : Type := mk_Env {
  (** [model.generate_content(..).text]: the text, or the message of
      the exception it raises *)
  generate_content : nat -> request -> outcome string string;
  (** the successive values of [datetime.now()] *)
  clock : nat -> datetime;
  (** [generate_all_formats(content, filename)] raising, with its message *)
  render_failure : string -> string -> option string;
  (** [str] of a list or a dictionary *)
  repr : json -> string;
  papers_dir : string;
  generated_dir : string;
  base_dir : string;
}.

Record Agent : Type := mk_Agent {
  current_workflow : option Workflow.t;
  papers : list Paper.t;
  requests : list request;
  clock_reads : nat;
  stdout : list string;
  stdin : list string;
  fs : FS;
}.

Definition set_current_workflow (w : option Workflow.t) (a : Agent) : Agent :=
  mk_Agent w (papers a) (requests a) (clock_reads a)
           (stdout a) (stdin a) (fs a).

Definition set_papers (p : list Paper.t) (a : Agent) : Agent :=
  mk_Agent (current_workflow a) p (requests a) (clock_reads a)
           (stdout a) (stdin a) (fs a).

Definition set_requests (r : list request) (a : Agent) : Agent :=
  mk_Agent (current_workflow a) (papers a) r (clock_reads a)
           (stdout a) (stdin a) (fs a).

Definition set_clock_reads (n : nat) (a : Agent) : Agent :=
  mk_Agent (current_workflow a) (papers a) (requests a) n
           (stdout a) (stdin a) (fs a).

Definition set_stdout (o : list string) (a : Agent) : Agent :=
  mk_Agent (current_workflow a) (papers a) (requests a) (clock_reads a)
           o (stdin a) (fs a).

Definition set_stdin (i : list string) (a : Agent) : Agent :=
  mk_Agent (current_workflow a) (papers a) (requests a) (clock_reads a)
           (stdout a) i (fs a).

Definition set_fs (f : FS) (a : Agent) : Agent :=
  mk_Agent (current_workflow a) (papers a) (requests a) (clock_reads a)
           (stdout a) (stdin a) f.

(** [print(msg)] *)
Definition print (msg : string) (a : Agent) : Agent :=
  set_stdout (stdout a ++ [msg]) a.

(** [datetime.now()] *)
Definition now (env : Env) (a : Agent) : datetime * Agent :=
  (clock env (clock_reads a), set_clock_reads (S (clock_reads a)) a).

(** [GeminiClient.generate], lines 36-68: an empty text is turned into
    a ValueError, and every exception is raised again. *)
Definition generate (env : Env) (p : string) (max_tokens : Z) (a : Agent)
    : outcome string string * Agent :=
  let r := mk_request p max_tokens in
  let earlier := length (requests a) in
  let a := set_requests (requests a ++ [r]) a in
  match generate_content env earlier r with
  | Returns text =>
      if PyStr.nonempty text then (Returns text, a)
      else (Raises "Empty response from Gemini API", a)
  | Raises msg => (Raises msg, a)
  end.

(** [str(v)] as an f-string formats a metadata value *)
Definition py_str (env : Env) (v : json) : string :=
  match v with
  | JStr s => s
  | JNull => "None"
  | JBool true => "True"
  | JBool false => "False"
  | JInt z => pretty z
  | _ => repr env v
  end.

(** [str(dir / name)] for a relative [name], and a [dir] spelt as
    pathlib prints it *)
Definition path_join (dir name : string) : string := dir +:+ "/" +:+ name.

(** [DocumentGenerator.generate_all_formats]: the paths of the three
    files, in the order of the dictionary it returns, or the message of
    the exception that one of the three writers raises. The files
    themselves are not represented. *)
Definition generate_all_formats (env : Env) (content filename : string)
    : outcome string (list (string * string)) :=
  match render_failure env content filename with
  | Some msg => Raises msg
  | None =>
      Returns [("md", path_join (generated_dir env) (filename +:+ ".md"));
               ("docx", path_join (generated_dir env) (filename +:+ ".docx"));
               ("pdf", path_join (generated_dir env) (filename +:+ ".pdf"))]
  end.

(** *** Handlers

    A handler runs on the task it was given and on the agent: both are
    its store. It returns a text or raises, the exception being
    represented by its message [str(e)]. *)
Definition H (A : Type) : Type := SE (Task.t * Agent) string A.

Definition get_task : H Task.t := fun s => (Returns (fst s), s).

Definition get_agent : H Agent := fun s => (Returns (snd s), s).

Definition modify_task (f : Task.t -> Task.t) : H unit :=
  se_modify (fun s => (f (fst s), snd s)).

Definition modify_agent (f : Agent -> Agent) : H unit :=
  se_modify (fun s => (fst s, f (snd s))).

Definition h_generate (env : Env) (p : string) (max_tokens : Z) : H string :=
  fun s => let '(r, a) := generate env p max_tokens (snd s) in (r, (fst s, a)).

Definition h_now (env : Env) : H datetime :=
  fun s => let '(d, a) := now env (snd s) in (Returns d, (fst s, a)).

(** [task.metadata[k] = v] *)
Definition set_task_metadata (k : string) (v : json) : H unit :=
  modify_task (fun task => Task.set_metadata (<[k := v]> (Task.metadata task)) task).

(** [self.current_workflow.description if self.current_workflow else "the topic"] *)
Definition topic_of (a : Agent) : string :=
  match current_workflow a with
  | Some w => Workflow.description w
  | None => "the topic"
  end.

Definition lines (l : list string) : string := PyStr.join PyStr.nl l.

End Agent.

Module TaskAgent.
Section WithEnv.
Context `{DT : Datetime}.
Variable env : Env.

(** [_handle_paper_collection], lines 227-247 *)
Definition _handle_paper_collection : H string :=
  a <~ get_agent ;;
  let topic := topic_of a in
  let prompt := lines [
    "Generate a list of important research papers for a literature review on: " +:+ topic;
    EmptyString;
    "Provide 5-10 relevant paper suggestions with:";
    "- Title";
    "- Authors (if known)";
    "- Year";
    "- Brief description of relevance";
    EmptyString;
    "Format as a numbered list."] in
  response <~ h_generate env prompt 4096 ;;
  set_task_metadata "suggested_papers" (JStr response) ;;;
  se_ret ("Generated paper suggestions:" +:+ PyStr.nl +:+ PyStr.nl +:+ response
          +:+ PyStr.nl +:+ PyStr.nl
          +:+ "Note: User needs to download and upload these papers.").

(** [_handle_paper_upload], lines 249-263 *)
Definition _handle_paper_upload : H string :=
  modify_task (Task.set_status TaskStatus.WAITING_USER) ;;;
  let papers_dir := papers_dir env in
  se_ret (lines [
    "Papers should be uploaded to: " +:+ papers_dir;
    EmptyString;
    "Instructions:";
    "1. Download the suggested papers";
    "2. Save them in the papers directory: " +:+ papers_dir;
    "3. Register them using the add_papers() method";
    EmptyString;
    "Once papers are uploaded, continue to the next task."]).

Definition analysis_prompt (paper : Paper.t) : string :=
  lines [
    "Analyze the following research paper and provide:";
    "1. A brief summary (2-3 sentences)";
    "2. Key findings (3-5 bullet points)";
    "3. Relevance to the literature review";
    EmptyString;
    "Paper Title: " +:+ Paper.title paper;
    "Authors: " +:+ (match Paper.authors paper with
                     | [] => "Unknown"
                     | _ :: _ => PyStr.join ", " (Paper.authors paper)
                     end);
    "Abstract: " +:+ (if opt_nonempty (Paper.abstract paper)
                      then default EmptyString (Paper.abstract paper)
                      else "Not available");
    EmptyString;
    "Provide a concise analysis."].

(** The lines of the analysis that start with a dash, stripped. *)
Definition extract_key_findings (analysis : string) : list string :=
  (fun line => PyStr.strip (PyStr.strip_chars "- " line)) <$>
  List.filter (fun line => PyStr.startswith "-" (PyStr.strip line))
              (PyStr.split (ascii_of_nat 10) analysis).

Definition analysis_section (paper : Paper.t) (analysis : string) : string :=
  "### " +:+ Paper.title paper +:+ PyStr.nl +:+ PyStr.nl +:+ analysis.

Definition analysis_error_section (paper : Paper.t) (e : string) : string :=
  "### " +:+ Paper.title paper +:+ PyStr.nl +:+ PyStr.nl
  +:+ "Error analyzing paper: " +:+ e.

(** The loop of lines 277-307, with [analysis_results] as
    accumulator. The body reads the title, authors and abstract of
    [paper], which [update_paper_summary] leaves alone. The papers are
    those in memory: the metadata file that [update_paper_summary]
    rewrites is not represented here. *)
Fixpoint analyze_papers (remaining : list Paper.t) (analysis_results : list string)
    : H (list string) :=
  match remaining with
  | [] => se_ret analysis_results
  | paper :: rest =>
      analysis_results <~
        se_try
          (analysis <~ h_generate env (analysis_prompt paper) 4096 ;;
           let analysis_results :=
             analysis_results ++ [analysis_section paper analysis] in
           let key_findings := extract_key_findings analysis in
           modify_agent (fun a =>
             set_papers (PaperManager.update_paper_summary
                           (Paper.title paper) analysis
                           (List.firstn 5 key_findings) (papers a)) a) ;;;
           se_ret analysis_results)
          (fun e => se_ret (analysis_results ++ [analysis_error_section paper e])) ;;
      analyze_papers rest analysis_results
  end.

(** [_handle_paper_analysis], lines 265-314 *)
Definition _handle_paper_analysis : H string :=
  a <~ get_agent ;;
  let known := papers a in
  match known with
  | [] => se_ret "No papers available for analysis. Please upload papers first."
  | _ :: _ =>
      analysis_results <~ analyze_papers known [] ;;
      let full_analysis := PyStr.join (PyStr.nl +:+ PyStr.nl) analysis_results in
      set_task_metadata "paper_analysis" (JStr full_analysis) ;;;
      se_ret ("Analyzed " +:+ pretty (length known) +:+ " papers."
              +:+ PyStr.nl +:+ PyStr.nl +:+ full_analysis)
  end.

Definition paper_context_line (paper : Paper.t) : string :=
  "- " +:+ Paper.title paper +:+
  (if opt_nonempty (Paper.summary paper)
   then ": " +:+ PyStr.take 200 (default EmptyString (Paper.summary paper)) +:+ "..."
   else EmptyString) +:+ PyStr.nl.

Definition papers_context (known : list Paper.t) : string :=
  match known with
  | [] => EmptyString
  | _ :: _ =>
      "Available papers:" +:+ PyStr.nl +:+
      fold_right (fun paper acc => paper_context_line paper +:+ acc)
                 EmptyString known
  end.

(** [_handle_outline_creation], lines 316-360 *)
Definition _handle_outline_creation : H string :=
  a <~ get_agent ;;
  let known := papers a in
  let topic := topic_of a in
  let prompt := lines [
    "Create a comprehensive outline for a literature review on: " +:+ topic;
    EmptyString;
    papers_context known;
    EmptyString;
    "The outline should include:";
    "1. Introduction";
    "2. Background/Context";
    "3. Main themes/sections (3-5 major sections)";
    "4. Discussion";
    "5. Conclusion";
    "6. References";
    EmptyString;
    "For each section, provide:";
    "- Section title";
    "- 2-3 key points to cover";
    "- Relevant papers to cite (if applicable)";
    EmptyString;
    "Format as a structured markdown outline."] in
  outline <~ h_generate env prompt 2048 ;;
  modify_agent (fun a =>
    match current_workflow a with
    | Some w =>
        set_current_workflow
          (Some (Workflow.set_metadata
                   (<["outline" := JStr outline]> (Workflow.metadata w)) w)) a
    | None => a
    end) ;;;
  set_task_metadata "outline" (JStr outline) ;;;
  se_ret outline.

(** The outline that [_handle_writing] reads, lines 366-370 *)
Definition stored_outline (task : Task.t) (a : Agent) : string :=
  match current_workflow a with
  | Some w =>
      match Workflow.metadata w !! "outline" with
      | Some v => py_str env v
      | None =>
          match Task.metadata task !! "outline" with
          | Some v => py_str env v
          | None => EmptyString
          end
      end
  | None =>
      match Task.metadata task !! "outline" with
      | Some v => py_str env v
      | None => EmptyString
      end
  end.

Definition output_files_json (output_files : list (string * string)) : json :=
  JDict (list_to_map ((fun kv => (fst kv, JStr (snd kv))) <$> output_files)).

(** [_handle_writing], lines 362-411 *)
Definition _handle_writing : H string :=
  task <~ get_task ;;
  a <~ get_agent ;;
  let outline := stored_outline task a in
  let papers_summary := PaperManager.generate_papers_summary (papers a) in
  let topic := topic_of a in
  let prompt := lines [
    "Write a comprehensive literature review on: " +:+ topic;
    EmptyString;
    "Use the following outline:";
    outline;
    EmptyString;
    "Papers available for citation:";
    papers_summary;
    EmptyString;
    "Write a complete, well-structured literature review with:";
    "- Clear introduction";
    "- Thorough analysis of the literature";
    "- Proper flow between sections";
    "- Insightful discussion";
    "- Strong conclusion";
    EmptyString;
    "Format in Markdown with proper headings and citations."] in
  review_content <~ h_generate env prompt 4096 ;;
  d <~ h_now env ;;
  let timestamp := strftime_compact d in
  let filename := "literature_review_" +:+ timestamp in
  output_files <~ se_lift (generate_all_formats env review_content filename) ;;
  set_task_metadata "output_files" (output_files_json output_files) ;;;
  set_task_metadata "review_content" (JStr review_content) ;;;
  se_ret ("Literature review completed!" +:+ PyStr.nl +:+ PyStr.nl +:+
          "Generated files:" +:+ PyStr.nl +:+
          fold_right (fun kv acc =>
                        "- " +:+ PyStr.upper (fst kv) +:+ ": " +:+ snd kv
                        +:+ PyStr.nl +:+ acc)
                     EmptyString output_files).

(** [_handle_generic_task], lines 413-425 *)
Definition _handle_generic_task : H string :=
  task <~ get_task ;;
  let prompt := lines [
    "Execute the following task:";
    EmptyString;
    "Task: " +:+ Task.title task;
    "Description: " +:+ Task.description task;
    EmptyString;
    "Provide a detailed response on how to complete this task or the results of completing it."] in
  h_generate env prompt 4096.

(** *** Routing, lines 201-213 *)

Inductive handler : Type :=
| Collect | Upload | Analyze | Outline | Write | Generic.

(** The chain of tests on [task.title.lower()] *)
Definition route (title : string) : handler :=
  let t := PyStr.lower title in
  if PyStr.contains "collect" t || PyStr.contains "search" t then Collect
  else if PyStr.contains "upload" t || PyStr.contains "download" t then Upload
  else if PyStr.contains "analyze" t || PyStr.contains "read" t then Analyze
  else if PyStr.contains "outline" t || PyStr.contains "structure" t then Outline
  else if PyStr.contains "write" t || PyStr.contains "review" t then Write
  else Generic.

Definition run_handler (h : handler) : H string :=
  match h with
  | Collect => _handle_paper_collection
  | Upload => _handle_paper_upload
  | Analyze => _handle_paper_analysis
  | Outline => _handle_outline_creation
  | Write => _handle_writing
  | Generic => _handle_generic_task
  end.

(** [execute_task], lines 186-225: the result, and the task and the
    agent as the call leaves them. *)
Definition execute_task (task : Task.t) (a : Agent) : bool * (Task.t * Agent) :=
  let task := Task.set_status TaskStatus.IN_PROGRESS task in
  match run_handler (route (Task.title task)) (task, a) with
  | (Returns result, (task, a)) =>
      let task := Task.set_result (Some result) task in
      let task := Task.set_status TaskStatus.COMPLETED task in
      let '(d, a) := now env a in
      let task := Task.set_completed_at (Some d) task in
      (true, (task, a))
  | (Raises e, (task, a)) =>
      let task := Task.set_status TaskStatus.FAILED task in
      let task := Task.set_result (Some ("Error: " +:+ e)) task in
      (false, (task, a))
  end.

(** *** The runner, lines 427-486 *)

Definition rule : string := PyStr.repeat "=" 60.

(** [input(prompt)]: the prompt is written, a line is read; at the
    end of the input EOFError is raised. *)
Definition input (p : string) : SE Agent exn string :=
  fun a =>
    let a := print p a in
    match stdin a with
    | [] => (Raises EOFError, a)
    | line :: rest => (Returns line, set_stdin rest a)
    end.

(** Lines 462-470 *)
Definition print_result (task : Task.t) (a : Agent) : Agent :=
  let a := print (PyStr.nl +:+ rule) a in
  let a := print ("TASK COMPLETED: " +:+ Task.title task) a in
  let a := print rule a in
  let a :=
    if opt_nonempty (Task.result task) then
      let r := default EmptyString (Task.result task) in
      let a := print (PyStr.take 500 r) a in
      if 500 <? String.length r then print "..." a else a
    else a in
  print (rule +:+ PyStr.nl) a.

(** The waiting branch of the loop body, lines 443-454 *)
Definition acknowledge (task : Task.t) (a : Agent) : outcome exn bool * (Task.t * Agent) :=
  let a := print (PyStr.nl +:+ rule) a in
  let a := print ("USER ACTION REQUIRED: " +:+ Task.title task) a in
  let a := print (Task.description task) a in
  let a := print (rule +:+ PyStr.nl) a in
  match input "Press Enter when ready to continue..." a with
  | (Raises e, a) => (Raises e, (task, a))
  | (Returns _, a) =>
      let task := Task.set_status TaskStatus.COMPLETED task in
      let '(d, a) := now env a in
      let task := Task.set_completed_at (Some d) task in
      (Returns true, (task, a))
  end.

(** The body of the loop, lines 441-470, on one task: [Returns true]
    when the loop goes on to the next task, [Returns false] for the
    [return False] of line 460. *)
Definition visit (task : Task.t) (a : Agent) : outcome exn bool * (Task.t * Agent) :=
  if bool_decide (Task.status task = TaskStatus.WAITING_USER) then
    acknowledge task a
  else
    let '(success, (task, a)) := execute_task task a in
    if negb success then (Returns false, (task, a))
    else (Returns true, (task, print_result task a)).

(** The task at position [i] of [workflow.tasks] is the object that
    the loop body changed. *)
Definition store_task (i : nat) (task : Task.t) (a : Agent) : Agent :=
  match current_workflow a with
  | Some w =>
      set_current_workflow
        (Some (Workflow.set_tasks (<[i := task]> (Workflow.tasks w)) w)) a
  | None => a
  end.

(** The loop of lines 440-470 from position [i] on, [todo] being the
    tasks at the positions not yet visited. The tasks of one workflow
    are taken to be distinct objects. *)
Fixpoint run_tasks (todo : list Task.t) (i : nat) (a : Agent)
    : outcome exn bool * Agent :=
  match todo with
  | [] => (Returns true, a)
  | task :: rest =>
      match visit task a with
      | (Returns true, (task, a)) => run_tasks rest (S i) (store_task i task a)
      | (r, (task, a)) => (r, store_task i task a)
      end
  end.

(** [_save_workflow], lines 479-486 *)
Definition _save_workflow (workflow : Workflow.t) : SE Agent exn unit :=
  fun a =>
    let filepath := path_join (base_dir env) (Workflow.id workflow +:+ ".json") in
    match Workflow.save workflow filepath (fs a) with
    | (r, f) => (r, set_fs f a)
    end.

(** [run_workflow], lines 427-477. [workflow] becomes
    [self.current_workflow]: the tasks and the metadata that the
    loop changes are those of that object, which is saved at the end. *)
Definition run_workflow (workflow : Workflow.t) : SE Agent exn bool :=
  fun a =>
    let a := set_current_workflow (Some workflow) a in
    match run_tasks (Workflow.tasks workflow) 0 a with
    | (Returns true, a) =>
        match current_workflow a with
        | Some w =>
            match _save_workflow w a with
            | (Raises e, a) => (Raises e, a)
            | (Returns _, a) => (Returns true, a)
            end
        | None => (Returns true, a)
        end
    | (r, a) => (r, a)
    end.

End WithEnv.
End TaskAgent.

(** * Properties *)

(** ** Naive datetimes parse back what they print *)

Section NaiveDatetimeFacts.
Import NaiveDatetime.
Local Open Scope N_scope.

Lemma append_empty_r (s : string) : s +:+ EmptyString = s.
Proof.
  induction s as [|c s IH]; [reflexivity|].
  change (String c (s +:+ EmptyString) = String c s). now rewrite IH.
Qed.

Lemma digit_val_char (n : N) : n < 10 -> digit_val (digit_char n) = Some n.
Proof.
  intros H. unfold digit_val, digit_char.
  rewrite N_ascii_embedding by lia.
  replace ((48 <=? 48 + n) && (48 + n <=? 57)) with true.
  - f_equal. lia.
  - symmetry. apply andb_true_iff. split; apply N.leb_le; lia.
Qed.

Lemma read_digits_S (w : nat) (acc : N) (c : ascii) (r : string) :
  read_digits (S w) acc (String c r) =
  match digit_val c with
  | Some v => read_digits w (10 * acc + v) r
  | None => None
  end.
Proof. reflexivity. Qed.

(** Reading [w] digits consumes exactly what [digits w] printed. *)
Lemma read_digits_digits (w : nat) : forall (n acc : N) (rest : string),
  n < 10 ^ N.of_nat w ->
  read_digits w acc (digits w n +:+ rest) = Some (acc * 10 ^ N.of_nat w + n, rest).
Proof.
  induction w as [|w IH]; intros n acc rest Hn.
  - simpl in *. f_equal. f_equal. lia.
  - rewrite Nat2N.inj_succ, N.pow_succ_r' in Hn.
    assert (Hp : 0 < 10 ^ N.of_nat w) by (apply N.neq_0_lt_0, N.pow_nonzero; lia).
    change (digits (S w) n +:+ rest)
      with (String (digit_char (n / 10 ^ N.of_nat w))
                   (digits w (n mod 10 ^ N.of_nat w) +:+ rest)).
    rewrite read_digits_S.
    rewrite digit_val_char by (apply N.Div0.div_lt_upper_bound; lia).
    rewrite IH by (apply N.mod_lt; lia).
    f_equal. f_equal.
    rewrite Nat2N.inj_succ, N.pow_succ_r'.
    pose proof (N.div_mod n (10 ^ N.of_nat w)) as Hd. lia.
Qed.

Lemma valid_bounds (f : fields) : valid f = true ->
  year f < 10 ^ 4 /\ month f < 10 ^ 2 /\ day f < 10 ^ 2 /\ hour f < 10 ^ 2 /\
  minute f < 10 ^ 2 /\ second f < 10 ^ 2 /\ microsecond f < 10 ^ 6.
Proof.
  unfold valid. rewrite !andb_true_iff, !N.leb_le, !N.ltb_lt.
  intros H.
  assert (days_in_month (year f) (month f) <= 31).
  { unfold days_in_month. repeat case_match; lia. }
  change (10 ^ 4) with 10000. change (10 ^ 2) with 100. change (10 ^ 6) with 1000000.
  lia.
Qed.

Lemma parse_print (f : fields) : valid f = true -> parse (print f) = Some f.
Proof.
  intros Hv. destruct (valid_bounds f Hv) as (Hy & Hm & Hd & Hh & Hmi & Hs & Hus).
  destruct f as [y m d h mi s us].
  cbn [year month day hour minute second microsecond] in *.
  unfold parse, print. cbn [year month day hour minute second microsecond].
  rewrite (read_digits_digits 4) by exact Hy.
  cbn [mbind option_bind expect Ascii.eqb Bool.eqb].
  rewrite (read_digits_digits 2) by exact Hm.
  cbn [mbind option_bind expect Ascii.eqb Bool.eqb].
  rewrite (read_digits_digits 2) by exact Hd.
  cbn [mbind option_bind expect Ascii.eqb Bool.eqb].
  rewrite (read_digits_digits 2) by exact Hh.
  cbn [mbind option_bind expect Ascii.eqb Bool.eqb].
  rewrite (read_digits_digits 2) by exact Hmi.
  cbn [mbind option_bind expect Ascii.eqb Bool.eqb].
  rewrite (read_digits_digits 2) by exact Hs. cbn [mbind option_bind].
  destruct (N.eqb_spec us 0) as [->|Hne].
  - reflexivity.
  - cbn [parse_fraction Ascii.eqb Bool.eqb].
    rewrite <- (append_empty_r (digits 6 us)).
    rewrite (read_digits_digits 6) by exact Hus. reflexivity.
Qed.

Lemma naive_fromisoformat_isoformat (d : t) : fromisoformat (isoformat d) = Some d.
Proof.
  destruct d as [f Hf]. unfold fromisoformat, isoformat. cbn [proj1_sig].
  rewrite parse_print by exact Hf. cbn [mbind option_bind].
  unfold check. destruct (Bool.bool_dec (valid f) true) as [H|H]; [|contradiction].
  f_equal. f_equal. apply (proof_irrel _).
Qed.

Lemma naive_isoformat_nonempty (d : t) : PyStr.nonempty (isoformat d) = true.
Proof. reflexivity. Qed.

End NaiveDatetimeFacts.

#[global] Instance naive_datetime : Datetime := {|
  datetime := NaiveDatetime.t;
  isoformat := NaiveDatetime.isoformat;
  fromisoformat := NaiveDatetime.fromisoformat;
  strftime_compact := NaiveDatetime.strftime_compact;
  fromisoformat_isoformat := naive_fromisoformat_isoformat;
  isoformat_nonempty := naive_isoformat_nonempty;
|}.

(** ** Strings *)

Lemma append_assoc (s1 s2 s3 : string) : (s1 +:+ s2) +:+ s3 = s1 +:+ (s2 +:+ s3).
Proof.
  induction s1 as [|c s1 IH]; [reflexivity|].
  change (String c ((s1 +:+ s2) +:+ s3) = String c (s1 +:+ (s2 +:+ s3))).
  now rewrite IH.
Qed.

Lemma prefix_append (p s : string) : String.prefix p (p +:+ s) = true.
Proof.
  induction p as [|c p IH]; [now destruct s|].
  change (String c p +:+ s) with (String c (p +:+ s)).
  cbn [String.prefix]. destruct (ascii_dec c c); [exact IH | contradiction].
Qed.

Lemma contains_prefix (p s : string) : String.prefix p s = true -> PyStr.contains p s = true.
Proof. intros H. destruct s; cbn [PyStr.contains]; rewrite H; reflexivity. Qed.

Lemma contains_append_l (x pre s : string) :
  PyStr.contains x s = true -> PyStr.contains x (pre +:+ s) = true.
Proof.
  intros H. induction pre as [|c pre IH]; [exact H|].
  change (String c pre +:+ s) with (String c (pre +:+ s)).
  cbn [PyStr.contains]. rewrite IH. apply orb_true_r.
Qed.

(** A text that is built around [x] contains [x]. *)
Lemma contains_middle (x pre post : string) :
  PyStr.contains x (pre +:+ x +:+ post) = true.
Proof. apply contains_append_l, contains_prefix, prefix_append. Qed.

(** ** The executor *)

Section ExecutorFacts.
Context `{DT : Datetime}.
Variable env : Env.

(** The classification of step 2 in the words of the specification:
    the rules in their order of precedence, each with the substrings
    that select it; the first rule with a substring that occurs in the
    title, case ignored, wins, and Generic is the fallback. It is compared
    with [TaskAgent.route] below. *)
Definition spec_precedence : list (list string * TaskAgent.handler) :=
  [ (["collect"; "search"], TaskAgent.Collect);
    (["upload"; "download"], TaskAgent.Upload);
    (["analyze"; "read"], TaskAgent.Analyze);
    (["outline"; "structure"], TaskAgent.Outline);
    (["write"; "review"], TaskAgent.Write) ].

Definition spec_matches (title : string) (rule : list string * TaskAgent.handler) : bool :=
  existsb (fun kw => PyStr.contains (PyStr.lower kw) (PyStr.lower title)) (fst rule).

Definition spec_classify (title : string) : TaskAgent.handler :=
  match List.find (spec_matches title) spec_precedence with
  | Some rule => snd rule
  | None => TaskAgent.Generic
  end.

(** C4. The handler that the executor selects is the one of the first
    rule, in the order collect/search, upload/download, analyze/read,
    outline/structure, write/review, one of whose substrings occurs in
    the title without regard to case, and Generic when there is none; a
    task titled "Search and Write" goes to the Collect handler. *)
Theorem route_first_match :
  (forall title, TaskAgent.route title = spec_classify title) /\
  TaskAgent.route "Search and Write" = TaskAgent.Collect /\
  (forall task a,
     TaskAgent.execute_task env task a =
     let started := Task.set_status TaskStatus.IN_PROGRESS task in
     match TaskAgent.run_handler env (spec_classify (Task.title task)) (started, a) with
     | (Returns text, (task', a')) =>
         (true,
          (Task.set_completed_at (Some (fst (now env a')))
             (Task.set_status TaskStatus.COMPLETED (Task.set_result (Some text) task')),
           snd (now env a')))
     | (Raises e, (task', a')) =>
         (false,
          (Task.set_result (Some ("Error: " +:+ e))
             (Task.set_status TaskStatus.FAILED task'), a'))
     end).
Proof.
  assert (Hroute : forall title, TaskAgent.route title = spec_classify title).
  { intros title. unfold TaskAgent.route, spec_classify, spec_precedence.
    cbn [List.find spec_matches existsb fst snd].
    change (PyStr.lower "collect") with "collect".
    change (PyStr.lower "search") with "search".
    change (PyStr.lower "upload") with "upload".
    change (PyStr.lower "download") with "download".
    change (PyStr.lower "analyze") with "analyze".
    change (PyStr.lower "read") with "read".
    change (PyStr.lower "outline") with "outline".
    change (PyStr.lower "structure") with "structure".
    change (PyStr.lower "write") with "write".
    change (PyStr.lower "review") with "review".
    rewrite !orb_false_r.
    repeat match goal with
           | |- context [if ?b then _ else _] => destruct b; try reflexivity
           end. }
  split; [exact Hroute|]. split; [vm_compute; reflexivity|].
  intros task a. unfold TaskAgent.execute_task.
  change (Task.title (Task.set_status TaskStatus.IN_PROGRESS task)) with (Task.title task).
  rewrite Hroute.
  destruct (TaskAgent.run_handler env (spec_classify (Task.title task))
              (Task.set_status TaskStatus.IN_PROGRESS task, a)) as [[text|e] [task' a']];
    reflexivity.
Qed.

(** C1. Whatever the task and the agent: when the selected handler
    returns a text, [execute_task] returns true and leaves the task
    with that text as result, the status COMPLETED and the value that
    the clock then gives as completion time; when the handler raises
    with message [m], it returns false and leaves the task with result
    "Error: " followed by [m] and the status FAILED. In both cases the
    handler ran once: the agent is as that single run left it (apart
    from the clock read on success), so no request is sent again. *)
Theorem execute_task_outcome (task : Task.t) (a : Agent) :
  match TaskAgent.run_handler env (TaskAgent.route (Task.title task))
          (Task.set_status TaskStatus.IN_PROGRESS task, a) with
  | (Returns r, (task1, a1)) =>
      exists task2 a2,
        TaskAgent.execute_task env task a = (true, (task2, a2)) /\
        Task.result task2 = Some r /\
        Task.status task2 = TaskStatus.COMPLETED /\
        Task.completed_at task2 = Some (clock env (clock_reads a1)) /\
        Task.metadata task2 = Task.metadata task1 /\
        a2 = set_clock_reads (S (clock_reads a1)) a1 /\
        requests a2 = requests a1
  | (Raises m, (task1, a1)) =>
      exists task2,
        TaskAgent.execute_task env task a = (false, (task2, a1)) /\
        Task.result task2 = Some ("Error: " +:+ m) /\
        Task.status task2 = TaskStatus.FAILED /\
        Task.completed_at task2 = Task.completed_at task1 /\
        Task.metadata task2 = Task.metadata task1
  end.
Proof.
  unfold TaskAgent.execute_task.
  change (Task.title (Task.set_status TaskStatus.IN_PROGRESS task)) with (Task.title task).
  destruct (TaskAgent.run_handler env (TaskAgent.route (Task.title task))
              (Task.set_status TaskStatus.IN_PROGRESS task, a)) as [[r|m] [task1 a1]].
  - eexists _, _. split; [reflexivity|]. repeat split; reflexivity.
  - eexists. split; [reflexivity|]. repeat split; reflexivity.
Qed.

(** The instructions that the upload handler returns *)
Definition upload_instructions (dir : string) : string :=
  lines [
    "Papers should be uploaded to: " +:+ dir;
    EmptyString;
    "Instructions:";
    "1. Download the suggested papers";
    "2. Save them in the papers directory: " +:+ dir;
    "3. Register them using the add_papers() method";
    EmptyString;
    "Once papers are uploaded, continue to the next task."].

(** C8. On every task and agent the upload handler returns the
    instructions, which name the configured papers directory, and leaves
    the task with the status WAITING_USER. That is its only effect: the
    other attributes of the task are those it had, and the agent is the
    same, so that no request has gone to the model; nor does the
    execution of a task routed to this handler send one. *)
Theorem upload_handler_effect (task : Task.t) (a : Agent) :
  fst (TaskAgent._handle_paper_upload env (task, a))
    = Returns (upload_instructions (papers_dir env)) /\
  PyStr.contains (papers_dir env) (upload_instructions (papers_dir env)) = true /\
  Task.status (fst (snd (TaskAgent._handle_paper_upload env (task, a))))
    = TaskStatus.WAITING_USER /\
  Task.id (fst (snd (TaskAgent._handle_paper_upload env (task, a)))) = Task.id task /\
  Task.title (fst (snd (TaskAgent._handle_paper_upload env (task, a)))) = Task.title task /\
  Task.description (fst (snd (TaskAgent._handle_paper_upload env (task, a))))
    = Task.description task /\
  Task.result (fst (snd (TaskAgent._handle_paper_upload env (task, a)))) = Task.result task /\
  Task.created_at (fst (snd (TaskAgent._handle_paper_upload env (task, a))))
    = Task.created_at task /\
  Task.completed_at (fst (snd (TaskAgent._handle_paper_upload env (task, a))))
    = Task.completed_at task /\
  Task.metadata (fst (snd (TaskAgent._handle_paper_upload env (task, a))))
    = Task.metadata task /\
  snd (snd (TaskAgent._handle_paper_upload env (task, a))) = a /\
  requests (snd (snd (TaskAgent._handle_paper_upload env (task, a)))) = requests a /\
  (forall task0 a0,
     TaskAgent.route (Task.title task0) = TaskAgent.Upload ->
     requests (snd (snd (TaskAgent.execute_task env task0 a0))) = requests a0).
Proof.
  split; [reflexivity|]. split.
  { unfold upload_instructions, lines. cbn [PyStr.join].
    apply (contains_middle (papers_dir env) "Papers should be uploaded to: "). }
  do 10 (split; [reflexivity|]).
  intros task0 a0 Hroute. unfold TaskAgent.execute_task.
  change (Task.title (Task.set_status TaskStatus.IN_PROGRESS task0)) with (Task.title task0).
  rewrite Hroute. reflexivity.
Qed.

End ExecutorFacts.

(** ** What the handlers leave alone

    [keeps obs c]: the computation [c] does not change the part [obs]
    of its store. Of that store the handlers only touch the status and
    the metadata of the task, the requests, the clock, the papers and the
    metadata of the current workflow. *)

Definition keeps `{DT : Datetime} {X A : Type} (obs : Task.t * Agent -> X) (c : H A) : Prop :=
  forall s, obs (snd (c s)) = obs s.

Section Frames.
Context `{DT : Datetime}.
Variable env : Env.
Context {X : Type} (obs : Task.t * Agent -> X).
Hypothesis obs_status : forall st t a, obs (Task.set_status st t, a) = obs (t, a).
Hypothesis obs_task_metadata : forall m t a, obs (Task.set_metadata m t, a) = obs (t, a).
Hypothesis obs_requests : forall r t a, obs (t, set_requests r a) = obs (t, a).
Hypothesis obs_clock : forall n t a, obs (t, set_clock_reads n a) = obs (t, a).
Hypothesis obs_papers : forall p t a, obs (t, set_papers p a) = obs (t, a).
Hypothesis obs_metadata : forall w m t a,
  current_workflow a = Some w ->
  obs (t, set_current_workflow (Some (Workflow.set_metadata m w)) a) = obs (t, a).

Lemma keeps_ret {A} (x : A) : keeps obs (se_ret x).
Proof. intros s. reflexivity. Qed.

Lemma keeps_bind {A B} (c : H A) (k : A -> H B) :
  keeps obs c -> (forall x, keeps obs (k x)) -> keeps obs (se_bind c k).
Proof.
  intros Hc Hk s. unfold se_bind. specialize (Hc s).
  destruct (c s) as [[x|e] s']; cbn [snd] in *; [|exact Hc].
  rewrite Hk. exact Hc.
Qed.

Lemma keeps_try {A} (c : H A) (h : string -> H A) :
  keeps obs c -> (forall e, keeps obs (h e)) -> keeps obs (se_try c h).
Proof.
  intros Hc Hh s. unfold se_try. specialize (Hc s).
  destruct (c s) as [[x|e] s']; cbn [snd] in *; [exact Hc|].
  rewrite Hh. exact Hc.
Qed.

Lemma keeps_lift {A} (r : outcome string A) : keeps obs (se_lift r).
Proof. intros s. reflexivity. Qed.

Lemma keeps_get_task : keeps obs get_task.
Proof. intros s. reflexivity. Qed.

Lemma keeps_get_agent : keeps obs get_agent.
Proof. intros s. reflexivity. Qed.

Lemma keeps_modify_task (f : Task.t -> Task.t) :
  (forall t a, obs (f t, a) = obs (t, a)) -> keeps obs (modify_task f).
Proof. intros Hf [t a]. apply Hf. Qed.

Lemma keeps_set_task_metadata (k : string) (v : json) : keeps obs (set_task_metadata k v).
Proof. apply keeps_modify_task. intros t a. apply obs_task_metadata. Qed.

Lemma keeps_modify_agent (f : Agent -> Agent) :
  (forall t a, obs (t, f a) = obs (t, a)) -> keeps obs (modify_agent f).
Proof. intros Hf [t a]. apply Hf. Qed.

Lemma keeps_generate (p : string) (m : Z) : keeps obs (h_generate env p m).
Proof.
  intros [task a]. unfold h_generate, generate. cbn [snd fst].
  destruct (generate_content env _ _) as [text|msg]; [destruct (PyStr.nonempty text)|];
    cbn [snd]; apply obs_requests.
Qed.

Lemma keeps_now : keeps obs (h_now env).
Proof. intros [task a]. unfold h_now, now. cbn [snd fst]. apply obs_clock. Qed.

Lemma keeps_analyze_papers (remaining : list Paper.t) :
  forall acc, keeps obs (TaskAgent.analyze_papers env remaining acc).
Proof.
  induction remaining as [|paper rest IH]; intros acc; cbn [TaskAgent.analyze_papers].
  - apply keeps_ret.
  - apply keeps_bind; [|intros; apply IH].
    apply keeps_try; [|intros; apply keeps_ret].
    apply keeps_bind; [apply keeps_generate|]. intros analysis.
    apply keeps_bind; [|intros; apply keeps_ret].
    apply keeps_modify_agent. intros t a. apply obs_papers.
Qed.

Lemma run_handler_keeps (h : TaskAgent.handler) : keeps obs (TaskAgent.run_handler env h).
Proof.
  destruct h; cbn [TaskAgent.run_handler].
  - unfold TaskAgent._handle_paper_collection.
    apply keeps_bind; [apply keeps_get_agent|]. intros a.
    apply keeps_bind; [apply keeps_generate|]. intros response.
    apply keeps_bind; [apply keeps_set_task_metadata|]. intros _. apply keeps_ret.
  - unfold TaskAgent._handle_paper_upload.
    apply keeps_bind; [|intros _; apply keeps_ret].
    apply keeps_modify_task. intros t a. apply obs_status.
  - unfold TaskAgent._handle_paper_analysis.
    apply keeps_bind; [apply keeps_get_agent|]. intros a.
    destruct (papers a); [apply keeps_ret|].
    apply keeps_bind; [apply keeps_analyze_papers|]. intros results.
    apply keeps_bind; [apply keeps_set_task_metadata|]. intros _. apply keeps_ret.
  - unfold TaskAgent._handle_outline_creation.
    apply keeps_bind; [apply keeps_get_agent|]. intros a.
    apply keeps_bind; [apply keeps_generate|]. intros outline.
    apply keeps_bind.
    + apply keeps_modify_agent. intros t a0.
      destruct (current_workflow a0) eqn:Hw; [|reflexivity].
      now apply obs_metadata.
    + intros _. apply keeps_bind; [apply keeps_set_task_metadata|]. intros _.
      apply keeps_ret.
  - unfold TaskAgent._handle_writing.
    apply keeps_bind; [apply keeps_get_task|]. intros task.
    apply keeps_bind; [apply keeps_get_agent|]. intros a.
    apply keeps_bind; [apply keeps_generate|]. intros review.
    apply keeps_bind; [apply keeps_now|]. intros d.
    apply keeps_bind; [apply keeps_lift|]. intros files.
    apply keeps_bind; [apply keeps_set_task_metadata|]. intros _.
    apply keeps_bind; [apply keeps_set_task_metadata|]. intros _. apply keeps_ret.
  - unfold TaskAgent._handle_generic_task.
    apply keeps_bind; [apply keeps_get_task|]. intros task. apply keeps_generate.
Qed.

End Frames.

Section AgentFrames.
Context `{DT : Datetime}.
Variable env : Env.
Context {X : Type} (obs : Agent -> X).
Hypothesis obs_requests : forall r a, obs (set_requests r a) = obs a.
Hypothesis obs_clock : forall n a, obs (set_clock_reads n a) = obs a.
Hypothesis obs_papers : forall p a, obs (set_papers p a) = obs a.
Hypothesis obs_metadata : forall w m a,
  current_workflow a = Some w ->
  obs (set_current_workflow (Some (Workflow.set_metadata m w)) a) = obs a.

(** An execution changes a part of the agent only if a handler can. *)
Lemma execute_task_keeps (task : Task.t) (a : Agent) :
  obs (snd (snd (TaskAgent.execute_task env task a))) = obs a.
Proof.
  unfold TaskAgent.execute_task.
  pose proof (run_handler_keeps env (fun s => obs (snd s))
                ltac:(reflexivity) ltac:(reflexivity)
                ltac:(intros; apply obs_requests) ltac:(intros; apply obs_clock)
                ltac:(intros; apply obs_papers) ltac:(intros; now apply obs_metadata)
                (TaskAgent.route (Task.title (Task.set_status TaskStatus.IN_PROGRESS task)))
                (Task.set_status TaskStatus.IN_PROGRESS task, a)) as Hk.
  destruct (TaskAgent.run_handler env _ _) as [[r|e] [task1 a1]]; cbn [snd] in *.
  - unfold now. cbn [snd]. rewrite obs_clock. exact Hk.
  - exact Hk.
Qed.

End AgentFrames.

(** The handlers keep the result and the completion time of the task. *)
Lemma run_handler_task `{DT : Datetime} (env : Env) (h : TaskAgent.handler)
    (task : Task.t) (a : Agent) :
  Task.completed_at (fst (snd (TaskAgent.run_handler env h (task, a))))
    = Task.completed_at task /\
  Task.result (fst (snd (TaskAgent.run_handler env h (task, a)))) = Task.result task.
Proof.
  split.
  - apply (run_handler_keeps env (fun s => Task.completed_at (fst s))); reflexivity.
  - apply (run_handler_keeps env (fun s => Task.result (fst s))); reflexivity.
Qed.

(** ** The runner *)

(** The tasks of the workflow that the agent is running *)
Definition wf_tasks `{DT : Datetime} (a : Agent) : option (list Task.t) :=
  Workflow.tasks <$> current_workflow a.

Definition completed `{DT : Datetime} (task : Task.t) : Prop :=
  Task.status task = TaskStatus.COMPLETED.

(** The loop of [run_workflow] over the first tasks [pre] of [w]: its
    result, and the agent when the run reaches position [length pre]. *)
Definition run_prefix `{DT : Datetime} (env : Env) (w : Workflow.t) (a : Agent)
    (pre : list Task.t) : outcome exn bool * Agent :=
  TaskAgent.run_tasks env pre 0 (set_current_workflow (Some w) a).

(** The task as the waiting branch leaves it at time [d] *)
Definition acknowledged `{DT : Datetime} (d : datetime) (task : Task.t) : Task.t :=
  Task.set_completed_at (Some d) (Task.set_status TaskStatus.COMPLETED task).

Section RunnerFacts.
Context `{DT : Datetime}.
Variable env : Env.

Lemma execute_task_wf_tasks (task : Task.t) (a : Agent) :
  wf_tasks (snd (snd (TaskAgent.execute_task env task a))) = wf_tasks a.
Proof.
  apply (execute_task_keeps env wf_tasks); try reflexivity.
  intros w m a0 Hw. unfold wf_tasks. rewrite Hw. reflexivity.
Qed.

Lemma execute_task_stdin (task : Task.t) (a : Agent) :
  stdin (snd (snd (TaskAgent.execute_task env task a))) = stdin a.
Proof. apply (execute_task_keeps env stdin); reflexivity. Qed.

(** With an acknowledgement to read, the waiting branch completes the
    task and touches nothing but the console and the clock. *)
Lemma acknowledge_ok (task : Task.t) (a : Agent) (line : string) (more : list string) :
  stdin a = line :: more ->
  exists a',
    TaskAgent.acknowledge env task a =
      (Returns true, (acknowledged (clock env (clock_reads a)) task, a')) /\
    current_workflow a' = current_workflow a /\ papers a' = papers a /\
    requests a' = requests a /\ fs a' = fs a /\ stdin a' = more /\
    clock_reads a' = S (clock_reads a).
Proof.
  intros Hin. unfold TaskAgent.acknowledge, TaskAgent.input.
  cbn [print set_stdout stdin]. rewrite Hin.
  eexists. split; [reflexivity|]. repeat split; reflexivity.
Qed.

Lemma acknowledge_frame (task : Task.t) (a : Agent) :
  let '(r, (task', a')) := TaskAgent.acknowledge env task a in
  current_workflow a' = current_workflow a /\ fs a' = fs a /\
  requests a' = requests a /\
  (r = Returns true -> Task.status task' = TaskStatus.COMPLETED) /\
  r <> Returns false.
Proof.
  unfold TaskAgent.acknowledge, TaskAgent.input. cbn [print set_stdout stdin].
  destruct (stdin a); cbn; repeat split; congruence.
Qed.

Lemma print_result_frame (task : Task.t) (a : Agent) :
  current_workflow (TaskAgent.print_result task a) = current_workflow a /\
  fs (TaskAgent.print_result task a) = fs a /\
  requests (TaskAgent.print_result task a) = requests a /\
  papers (TaskAgent.print_result task a) = papers a /\
  stdin (TaskAgent.print_result task a) = stdin a /\
  clock_reads (TaskAgent.print_result task a) = clock_reads a.
Proof.
  unfold TaskAgent.print_result, print.
  destruct (opt_nonempty (Task.result task)); [destruct (500 <? _)|];
    repeat split; reflexivity.
Qed.

Lemma visit_wf_tasks (task : Task.t) (a : Agent) :
  wf_tasks (snd (snd (TaskAgent.visit env task a))) = wf_tasks a.
Proof.
  unfold TaskAgent.visit. case_bool_decide.
  - pose proof (acknowledge_frame task a) as Hf.
    destruct (TaskAgent.acknowledge env task a) as [r [task' a']].
    destruct Hf as (Hw & _). unfold wf_tasks. cbn [snd]. now rewrite Hw.
  - pose proof (execute_task_wf_tasks task a) as Hw.
    destruct (TaskAgent.execute_task env task a) as [[|] [task' a']];
      cbn [negb snd] in *; [|exact Hw].
    unfold wf_tasks in *. now rewrite (proj1 (print_result_frame task' a')).
Qed.

(** The loop goes on only past a task that it leaves COMPLETED. *)
Lemma visit_true_completed (task task' : Task.t) (a a' : Agent) :
  TaskAgent.visit env task a = (Returns true, (task', a')) -> completed task'.
Proof.
  unfold TaskAgent.visit, completed. case_bool_decide.
  - pose proof (acknowledge_frame task a) as Hf.
    destruct (TaskAgent.acknowledge env task a) as [r [t1 a1]].
    intros [= -> -> ->]. now apply Hf.
  - unfold TaskAgent.execute_task.
    destruct (TaskAgent.run_handler env _ _) as [[r|e] [t1 a1]]; cbn.
    + now intros [= <- <-].
    + discriminate.
Qed.

Lemma store_task_wf_tasks (i : nat) (task : Task.t) (a : Agent) :
  wf_tasks (TaskAgent.store_task i task a) = (fun l => <[i := task]> l) <$> wf_tasks a.
Proof.
  unfold TaskAgent.store_task, wf_tasks.
  destruct (current_workflow a) as [w|] eqn:Hw; cbn; [reflexivity | now rewrite Hw].
Qed.

Lemma store_task_frame (i : nat) (task : Task.t) (a : Agent) :
  fs (TaskAgent.store_task i task a) = fs a /\
  requests (TaskAgent.store_task i task a) = requests a /\
  papers (TaskAgent.store_task i task a) = papers a /\
  stdin (TaskAgent.store_task i task a) = stdin a /\
  clock_reads (TaskAgent.store_task i task a) = clock_reads a.
Proof. unfold TaskAgent.store_task. now destruct (current_workflow a). Qed.

Lemma run_tasks_cons (task : Task.t) (rest : list Task.t) (i : nat) (a : Agent) :
  TaskAgent.run_tasks env (task :: rest) i a =
  match TaskAgent.visit env task a with
  | (Returns true, (task, a)) =>
      TaskAgent.run_tasks env rest (S i) (TaskAgent.store_task i task a)
  | (r, (task, a)) => (r, TaskAgent.store_task i task a)
  end.
Proof. reflexivity. Qed.

(** The loop over [pre ++ todo] is the loop over [pre] followed, when
    it runs to its end, by the loop over [todo]. *)
Lemma run_tasks_app (pre todo : list Task.t) :
  forall i a,
    TaskAgent.run_tasks env (pre ++ todo) i a =
    match TaskAgent.run_tasks env pre i a with
    | (Returns true, a') => TaskAgent.run_tasks env todo (i + length pre) a'
    | r => r
    end.
Proof.
  induction pre as [|task pre IH]; intros i a.
  - cbn [app length TaskAgent.run_tasks]. now rewrite Nat.add_0_r.
  - rewrite <- app_comm_cons, !run_tasks_cons.
    destruct (TaskAgent.visit env task a) as [[[|]|e] [task' a']]; try reflexivity.
    rewrite IH. cbn [length]. now rewrite Nat.add_succ_r.
Qed.

(** The loop only writes at the positions it visits. *)
Lemma run_tasks_prefix (todo : list Task.t) :
  forall i a l,
    wf_tasks a = Some l ->
    exists l', wf_tasks (snd (TaskAgent.run_tasks env todo i a)) = Some l' /\
               take i l' = take i l /\ length l' = length l.
Proof.
  induction todo as [|task rest IH]; intros i a l Hl.
  - exists l. now split.
  - rewrite run_tasks_cons. pose proof (visit_wf_tasks task a) as Hv.
    destruct (TaskAgent.visit env task a) as [r [task' a']]. cbn [snd] in Hv.
    assert (Hs : wf_tasks (TaskAgent.store_task i task' a') = Some (<[i := task']> l)).
    { rewrite store_task_wf_tasks, Hv, Hl. reflexivity. }
    assert (Hstop : exists l', Some (<[i := task']> l) = Some l' /\
                               take i l' = take i l /\ length l' = length l).
    { eexists. split; [reflexivity|]. split; [apply take_insert_ge; lia | apply length_insert]. }
    destruct r as [[|]|e]; cbn [snd]; try (rewrite Hs; exact Hstop).
    destruct (IH (S i) _ _ Hs) as (l' & Hl' & Htake & Hlen).
    exists l'. split; [exact Hl'|]. split.
    + transitivity (take i (take (S i) l')).
      { rewrite take_take. f_equal. lia. }
      rewrite Htake, take_take. replace (i `min` S i) with i by lia.
      apply take_insert_ge. lia.
    + now rewrite Hlen, length_insert.
Qed.

(** When the loop runs to its end, every visited position holds a
    COMPLETED task and the other positions are as before. *)
Lemma run_tasks_completed (todo : list Task.t) :
  forall i a a' done rest,
    wf_tasks a = Some (done ++ todo ++ rest) ->
    length done = i ->
    TaskAgent.run_tasks env todo i a = (Returns true, a') ->
    exists visited,
      wf_tasks a' = Some (done ++ visited ++ rest) /\
      length visited = length todo /\ Forall completed visited.
Proof.
  induction todo as [|task todo IH]; intros i a a' done rest Hl Hi Hrun.
  - cbn in Hrun. injection Hrun as <-. exists []. now split.
  - rewrite run_tasks_cons in Hrun.
    pose proof (visit_wf_tasks task a) as Hv.
    destruct (TaskAgent.visit env task a) as [r [task' a1]] eqn:Hvis. cbn [snd] in Hv.
    destruct r as [[|]|e]; try discriminate.
    apply visit_true_completed in Hvis.
    assert (Hs : wf_tasks (TaskAgent.store_task i task' a1)
                 = Some ((done ++ [task']) ++ todo ++ rest)).
    { rewrite store_task_wf_tasks, Hv, Hl. cbn [fmap option_fmap option_map]. f_equal.
      rewrite <- Hi, <- (Nat.add_0_r (length done)), insert_app_r.
      now rewrite <- app_assoc. }
    destruct (IH (S i) _ _ _ _ Hs ltac:(rewrite length_app; cbn; lia) Hrun)
      as (visited & Hw & Hlen & Hall).
    exists (task' :: visited). split; [|split].
    + rewrite Hw, <- app_assoc. reflexivity.
    + cbn. now rewrite Hlen.
    + now constructor.
Qed.

End RunnerFacts.

(** ** Example data

    A clock, a model whose second request fails, the three tasks of
    the specification's scenario and an agent with two lines to read. *)

Module Example.

Definition t0 : datetime :=
  NaiveDatetime.make (NaiveDatetime.mk 2024 1 15 10 30 0 0) eq_refl.

Definition t1 : datetime :=
  NaiveDatetime.make (NaiveDatetime.mk 2024 1 15 10 31 0 500) eq_refl.

Definition ticking (n : nat) : datetime :=
  match n with O => t0 | S _ => t1 end.

Definition answer : string := "- a finding".

(** Every request is answered. *)
Definition env_ok : Env :=
  mk_Env (fun _ _ => Returns answer) ticking (fun _ _ => None)
         (fun _ => "{}") "output/papers" "output/generated" "output".

(** The second request raises. *)
Definition env_second_fails : Env :=
  mk_Env (fun n _ => match n with 1 => Raises "quota exceeded" | _ => Returns answer end)
         ticking (fun _ _ => None)
         (fun _ => "{}") "output/papers" "output/generated" "output".

Definition task_a : Task.t :=
  Task.new "task_1" "Collect Papers" "Find relevant papers" TaskStatus.PENDING t0.

Definition task_b : Task.t :=
  Task.new "task_2" "Upload Papers" "Upload papers" TaskStatus.WAITING_USER t0.

Definition task_c : Task.t :=
  Task.new "task_3" "Write Review" "Write full review" TaskStatus.PENDING t0.

Definition task_d : Task.t :=
  Task.new "task_4" "Polish" "Proofread the text" TaskStatus.PENDING t0.

Definition workflow : Workflow.t :=
  Workflow.mk "test_workflow" "Test Literature Review" "ML in Healthcare"
              [task_a; task_b; task_c; task_d] 0 t0 ∅.

Definition agent : Agent :=
  mk_Agent None [] [] 0 [] [EmptyString; EmptyString] (mk_FS ∅ ∅).

Definition paper_1 : Paper.t :=
  Paper.mk "Deep Learning in Medical Imaging" ["Smith, J."; "Doe, A."] (Some 2023%Z)
           (Some "A review of deep learning in imaging.") [] None None None [] ∅.

Definition paper_2 : Paper.t :=
  Paper.mk "AI in Clinical Decision Support" ["Johnson, M."] (Some 2022%Z)
           None [] None None None [] ∅.

Definition agent_with_papers : Agent :=
  mk_Agent None [paper_1; paper_2] [] 0 [] [] (mk_FS ∅ ∅).

(** The record of [task_a], and three variants: with an empty string
    as completion time, with an unknown status, and with one more key. *)
Definition record : gmap string pyval := VJson <$> Task.to_dict task_a.

Definition record_empty_completed : gmap string pyval :=
  <["completed_at" := VJson (JStr EmptyString)]> record.

Definition record_bad_status : gmap string pyval :=
  <["status" := VJson (JStr "done")]> record.


(** The record of [task_a] once completed at [t1] *)
Definition record_completed : gmap string pyval :=
  <["completed_at" := VJson (JStr (isoformat t1))]>
    (<["status" := VJson (JStr "completed")]> record).

End Example.

(** ** The runner on a waiting task and on a failing task *)

Section RunnerClaims.
Context `{DT : Datetime}.
Variable env : Env.

Lemma execute_task_false (task : Task.t) (a : Agent) :
  fst (TaskAgent.execute_task env task a) = false ->
  Task.status (fst (snd (TaskAgent.execute_task env task a))) = TaskStatus.FAILED.
Proof.
  unfold TaskAgent.execute_task.
  destruct (TaskAgent.run_handler env _ _) as [[r|e] [t1 a1]]; cbn; [discriminate | reflexivity].
Qed.

Lemma run_tasks_reaches (w : Workflow.t) (a : Agent) (pre rest : list Task.t) :
  Workflow.tasks w = pre ++ rest ->
  fst (TaskAgent.run_tasks env pre 0 (set_current_workflow (Some w) a)) = Returns true ->
  exists done,
    wf_tasks (snd (TaskAgent.run_tasks env pre 0 (set_current_workflow (Some w) a)))
      = Some (done ++ rest) /\
    length done = length pre /\ Forall completed done.
Proof.
  intros Htasks Hrun.
  destruct (TaskAgent.run_tasks env pre 0 (set_current_workflow (Some w) a))
    as [r a1] eqn:Hpre.
  cbn [fst snd] in *. subst r.
  destruct (run_tasks_completed env pre 0 (set_current_workflow (Some w) a) a1 [] rest)
    as (done & Hw & Hlen & Hall);
    [unfold wf_tasks; cbn; now rewrite Htasks | reflexivity | exact Hpre |].
  exists done. now split.
Qed.

(** C2. Let the run reach a task whose status is WAITING_USER, with a
    line for [input] to read. The visit of that task is the
    acknowledgement, not an execution: the status becomes COMPLETED
    and the completion time the value of the clock, in one step; the
    result of the task is kept, no request goes to the model, and
    the papers, the workflow and the files stay as they are. The run
    then continues with the next task, and whatever happens later the
    position of the task still holds it in that state. *)
Theorem waiting_task_acknowledged (w : Workflow.t) (a : Agent)
    (pre : list Task.t) (task : Task.t) (post : list Task.t) :
  Workflow.tasks w = pre ++ task :: post ->
  fst (run_prefix env w a pre) = Returns true ->
  Task.status task = TaskStatus.WAITING_USER ->
  stdin (snd (run_prefix env w a pre)) <> [] ->
  exists a1 a2 task',
    a1 = snd (run_prefix env w a pre) /\
    task' = acknowledged (clock env (clock_reads a1)) task /\
    TaskAgent.visit env task a1 = (Returns true, (task', a2)) /\
    Task.status task' = TaskStatus.COMPLETED /\
    Task.completed_at task' = Some (clock env (clock_reads a1)) /\
    Task.result task' = Task.result task /\
    Task.metadata task' = Task.metadata task /\
    requests a2 = requests a1 /\ papers a2 = papers a1 /\
    current_workflow a2 = current_workflow a1 /\ fs a2 = fs a1 /\
    TaskAgent.run_tasks env (Workflow.tasks w) 0 (set_current_workflow (Some w) a) =
      TaskAgent.run_tasks env post (S (length pre))
        (TaskAgent.store_task (length pre) task' a2) /\
    exists l,
      wf_tasks (snd (TaskAgent.run_tasks env (Workflow.tasks w) 0
                       (set_current_workflow (Some w) a))) = Some l /\
      l !! length pre = Some task'.
Proof.
  unfold run_prefix. intros Htasks Hrun Hwait Hin.
  destruct (TaskAgent.run_tasks env pre 0 (set_current_workflow (Some w) a))
    as [r a1] eqn:Hpre.
  cbn [fst snd] in *. subst r.
  destruct (stdin a1) as [|line more] eqn:Hin1; [contradiction|].
  set (task' := acknowledged (clock env (clock_reads a1)) task).
  destruct (acknowledge_ok env task a1 line more Hin1)
    as (a2 & Hack & Hwf & Hpap & Hreq & Hfs & _ & _).
  assert (Hvisit : TaskAgent.visit env task a1 = (Returns true, (task', a2))).
  { unfold TaskAgent.visit. rewrite bool_decide_eq_true_2 by exact Hwait. exact Hack. }
  assert (Hgo : TaskAgent.run_tasks env (Workflow.tasks w) 0 (set_current_workflow (Some w) a) =
                TaskAgent.run_tasks env post (S (length pre))
                  (TaskAgent.store_task (length pre) task' a2)).
  { rewrite Htasks, run_tasks_app, Hpre. cbn [Nat.add].
    rewrite run_tasks_cons, Hvisit. reflexivity. }
  exists a1, a2, task'. split; [reflexivity|]. split; [reflexivity|].
  split; [exact Hvisit|]. do 4 (split; [reflexivity|]).
  split; [exact Hreq|]. split; [exact Hpap|]. split; [exact Hwf|].
  split; [exact Hfs|]. split; [exact Hgo|].
  destruct (run_tasks_reaches w a pre (task :: post) Htasks) as (done & Hdone & Hlen & _);
    [now rewrite Hpre|].
  rewrite Hpre in Hdone. cbn [snd] in Hdone.
  assert (Hs : wf_tasks (TaskAgent.store_task (length pre) task' a2)
               = Some (<[length pre := task']> (done ++ task :: post))).
  { rewrite store_task_wf_tasks. unfold wf_tasks in *. rewrite Hwf, Hdone. reflexivity. }
  destruct (run_tasks_prefix env post (S (length pre)) _ _ Hs) as (l & Hl & Htake & _).
  exists l. rewrite Hgo. split; [exact Hl|].
  rewrite <- (lookup_take_lt l (S (length pre))) by lia.
  rewrite Htake, lookup_take_lt by lia.
  apply list_lookup_insert_eq. rewrite length_app. cbn. lia.
Qed.

(** C3. Let the run reach the task at position [length pre] and let the
    executor report failure on it. Then [run_workflow] returns false at
    once: the failed task is stored with status FAILED, the tasks after it
    are the objects they were (a PENDING one stays PENDING), the tasks
    before it are the COMPLETED tasks, results included, that the run had
    left there, and no request is sent after the failing execution. *)
Theorem run_workflow_aborts (w : Workflow.t) (a : Agent)
    (pre : list Task.t) (task : Task.t) (post : list Task.t) :
  Workflow.tasks w = pre ++ task :: post ->
  fst (run_prefix env w a pre) = Returns true ->
  Task.status task <> TaskStatus.WAITING_USER ->
  fst (TaskAgent.execute_task env task (snd (run_prefix env w a pre))) = false ->
  exists done task' a2 a3,
    TaskAgent.execute_task env task (snd (run_prefix env w a pre)) = (false, (task', a2)) /\
    TaskAgent.run_workflow env w a = (Returns false, a3) /\
    wf_tasks (snd (run_prefix env w a pre)) = Some (done ++ task :: post) /\
    length done = length pre /\ Forall completed done /\
    wf_tasks a3 = Some (done ++ task' :: post) /\
    Task.status task' = TaskStatus.FAILED /\
    requests a3 = requests a2.
Proof.
  unfold run_prefix. intros Htasks Hrun Hnot Hfail.
  destruct (run_tasks_reaches w a pre (task :: post) Htasks Hrun)
    as (done & Hdone & Hlen & Hall).
  destruct (TaskAgent.run_tasks env pre 0 (set_current_workflow (Some w) a))
    as [r a1] eqn:Hpre.
  cbn [fst snd] in *. subst r.
  pose proof (execute_task_wf_tasks env task a1) as Hw2.
  pose proof (execute_task_false task a1 Hfail) as Hst.
  destruct (TaskAgent.execute_task env task a1) as [b [task' a2]] eqn:Hexec.
  cbn [fst snd] in *. subst b.
  exists done, task', a2, (TaskAgent.store_task (length pre) task' a2).
  assert (Hvisit : TaskAgent.visit env task a1 = (Returns false, (task', a2))).
  { unfold TaskAgent.visit. rewrite bool_decide_eq_false_2 by exact Hnot.
    rewrite Hexec. reflexivity. }
  split; [reflexivity|]. split.
  { unfold TaskAgent.run_workflow. rewrite Htasks, run_tasks_app, Hpre. cbn [Nat.add].
    rewrite run_tasks_cons, Hvisit. reflexivity. }
  split; [exact Hdone|]. split; [exact Hlen|]. split; [exact Hall|].
  split.
  { rewrite store_task_wf_tasks, Hw2, Hdone. cbn [fmap option_fmap option_map]. f_equal.
    rewrite <- Hlen, <- (Nat.add_0_r (length done)), insert_app_r. reflexivity. }
  split; [exact Hst|].
  apply store_task_frame.
Qed.

End RunnerClaims.



(** The scenario of the specification, with a model that fails on the
    writing task: the run stops there with the collected and the
    acknowledged task COMPLETED and the fourth task untouched. *)
Lemma run_workflow_aborts_witness :
  (Workflow.tasks Example.workflow
     = [Example.task_a; Example.task_b] ++ Example.task_c :: [Example.task_d] /\
   fst (run_prefix Example.env_second_fails Example.workflow Example.agent
          [Example.task_a; Example.task_b]) = Returns true /\
   Task.status Example.task_c <> TaskStatus.WAITING_USER /\
   fst (TaskAgent.execute_task Example.env_second_fails Example.task_c
          (snd (run_prefix Example.env_second_fails Example.workflow Example.agent
                  [Example.task_a; Example.task_b]))) = false) /\
  exists done task' a2 a3,
    TaskAgent.execute_task Example.env_second_fails Example.task_c
      (snd (run_prefix Example.env_second_fails Example.workflow Example.agent
              [Example.task_a; Example.task_b])) = (false, (task', a2)) /\
    TaskAgent.run_workflow Example.env_second_fails Example.workflow Example.agent
      = (Returns false, a3) /\
    wf_tasks (snd (run_prefix Example.env_second_fails Example.workflow Example.agent
                     [Example.task_a; Example.task_b]))
      = Some (done ++ Example.task_c :: [Example.task_d]) /\
    length done = length [Example.task_a; Example.task_b] /\ Forall completed done /\
    wf_tasks a3 = Some (done ++ task' :: [Example.task_d]) /\
    Task.status task' = TaskStatus.FAILED /\
    requests a3 = requests a2.
Proof.
  assert (H1 : Workflow.tasks Example.workflow
               = [Example.task_a; Example.task_b] ++ Example.task_c :: [Example.task_d])
    by reflexivity.
  assert (H2 : fst (run_prefix Example.env_second_fails Example.workflow Example.agent
                      [Example.task_a; Example.task_b]) = Returns true)
    by (vm_compute; reflexivity).
  assert (H3 : Task.status Example.task_c <> TaskStatus.WAITING_USER)
    by (vm_compute; discriminate).
  assert (H4 : fst (TaskAgent.execute_task Example.env_second_fails Example.task_c
                      (snd (run_prefix Example.env_second_fails Example.workflow
                              Example.agent [Example.task_a; Example.task_b]))) = false)
    by (vm_compute; reflexivity).
  exact (conj (conj H1 (conj H2 (conj H3 H4)))
           (run_workflow_aborts Example.env_second_fails Example.workflow Example.agent
              [Example.task_a; Example.task_b] Example.task_c [Example.task_d]
              H1 H2 H3 H4)).
Defined.

(** The same workflow with a model that answers: the second task is
    waiting when the run reaches it, and is acknowledged. *)
Lemma waiting_task_acknowledged_witness :
  (Workflow.tasks Example.workflow
     = [Example.task_a] ++ Example.task_b :: [Example.task_c; Example.task_d] /\
   fst (run_prefix Example.env_ok Example.workflow Example.agent [Example.task_a])
     = Returns true /\
   Task.status Example.task_b = TaskStatus.WAITING_USER /\
   stdin (snd (run_prefix Example.env_ok Example.workflow Example.agent [Example.task_a]))
     <> []) /\
  exists l task',
    wf_tasks (snd (TaskAgent.run_tasks Example.env_ok (Workflow.tasks Example.workflow) 0
                     (set_current_workflow (Some Example.workflow) Example.agent)))
      = Some l /\
    l !! length [Example.task_a] = Some task' /\
    Task.status task' = TaskStatus.COMPLETED /\
    Task.result task' = Task.result Example.task_b.
Proof.
  assert (H1 : Workflow.tasks Example.workflow
               = [Example.task_a] ++ Example.task_b :: [Example.task_c; Example.task_d])
    by reflexivity.
  assert (H2 : fst (run_prefix Example.env_ok Example.workflow Example.agent
                      [Example.task_a]) = Returns true)
    by (vm_compute; reflexivity).
  assert (H3 : Task.status Example.task_b = TaskStatus.WAITING_USER) by reflexivity.
  assert (H4 : stdin (snd (run_prefix Example.env_ok Example.workflow Example.agent
                             [Example.task_a])) <> [])
    by (vm_compute; discriminate).
  split; [exact (conj H1 (conj H2 (conj H3 H4)))|].
  destruct (waiting_task_acknowledged Example.env_ok Example.workflow Example.agent
              [Example.task_a] Example.task_b [Example.task_c; Example.task_d]
              H1 H2 H3 H4)
    as (a1 & a2 & task' & _ & _ & _ & Hst & _ & Hres & _ & _ & _ & _ & _ & _ & l & Hl & Hi).
  exists l, task'. exact (conj Hl (conj Hi (conj Hst Hres))).
Defined.

(** ** The analysis handler *)

(** The request that the loop sends for a paper *)
Definition analysis_request (paper : Paper.t) : request :=
  mk_request (TaskAgent.analysis_prompt paper) 4096.

(** The section recorded for a paper whose request is the one numbered
    [n]: the analysis when the model answers, and otherwise the note with
    the message of the failure. *)
Definition paper_result `{DT : Datetime} (env : Env) (n : nat) (paper : Paper.t) : string :=
  match generate_content env n (analysis_request paper) with
  | Returns text =>
      if PyStr.nonempty text then TaskAgent.analysis_section paper text
      else TaskAgent.analysis_error_section paper "Empty response from Gemini API"
  | Raises msg => TaskAgent.analysis_error_section paper msg
  end.

Fixpoint paper_results `{DT : Datetime} (env : Env) (n : nat) (known : list Paper.t)
    : list string :=
  match known with
  | [] => []
  | paper :: rest => paper_result env n paper :: paper_results env (S n) rest
  end.

(** The text that the handler returns for a non-empty list of sections *)
Definition analysis_report (count : nat) (sections : list string) : string :=
  "Analyzed " +:+ pretty count +:+ " papers." +:+ PyStr.nl +:+ PyStr.nl
  +:+ PyStr.join (PyStr.nl +:+ PyStr.nl) sections.

Section AnalysisFacts.
Context `{DT : Datetime}.
Variable env : Env.

Lemma paper_results_length (known : list Paper.t) :
  forall n, length (paper_results env n known) = length known.
Proof. induction known as [|p r IH]; intros n; cbn; [reflexivity | now rewrite IH]. Qed.

(** The loop never raises: each paper adds one request and one section. *)
Lemma analyze_papers_spec (remaining : list Paper.t) :
  forall acc task a,
    exists a',
      TaskAgent.analyze_papers env remaining acc (task, a) =
        (Returns (acc ++ paper_results env (length (requests a)) remaining), (task, a')) /\
      requests a' = requests a ++ (analysis_request <$> remaining) /\
      current_workflow a' = current_workflow a.
Proof.
  induction remaining as [|paper rest IH]; intros acc task a.
  - exists a. cbn. rewrite !app_nil_r. repeat split; reflexivity.
  - cbn [TaskAgent.analyze_papers paper_results fmap list_fmap].
    unfold se_bind at 1. unfold se_try, se_bind, h_generate, generate, modify_agent,
      se_modify, se_ret, paper_result, analysis_request. cbn [fst snd].
    destruct (generate_content env (length (requests a))
                (mk_request (TaskAgent.analysis_prompt paper) 4096)) as [text|msg];
      [destruct (PyStr.nonempty text)|].
    all: cbn [fst snd].
    all: match goal with
         | |- context [TaskAgent.analyze_papers _ _ ?acc' (_, ?a1)] =>
             destruct (IH acc' task a1) as (a' & -> & Hreq & Hwf)
         end.
    all: exists a'; cbn [requests set_requests set_papers current_workflow] in *.
    all: rewrite ?length_app, ?Nat.add_1_r in *; cbn [length] in *.
    all: rewrite ?Nat.add_1_r, <- ?app_assoc in *; cbn [app] in *.
    all: repeat split; assumption || reflexivity.
Qed.

Lemma handle_paper_analysis_unfold (task : Task.t) (a : Agent) :
  TaskAgent._handle_paper_analysis env (task, a) =
  match papers a with
  | [] => (Returns "No papers available for analysis. Please upload papers first.", (task, a))
  | _ :: _ =>
      match TaskAgent.analyze_papers env (papers a) [] (task, a) with
      | (Returns sections, (task', a')) =>
          (Returns (analysis_report (length (papers a)) sections),
           (Task.set_metadata
              (<["paper_analysis" := JStr (PyStr.join (PyStr.nl +:+ PyStr.nl) sections)]>
                 (Task.metadata task')) task', a'))
      | (Raises e, s) => (Raises e, s)
      end
  end.
Proof.
  unfold TaskAgent._handle_paper_analysis, se_bind, get_agent. cbn [fst snd].
  destruct (papers a); [reflexivity|].
  destruct (TaskAgent.analyze_papers env _ [] (task, a)) as [[sections|e] [task' a']];
    reflexivity.
Qed.

(** C7, as the code has it. With no paper the handler returns a notice
    and sends nothing. Otherwise it sends one request per paper, in
    order, whatever the earlier requests gave; a failure of the model
    for a paper only turns the section of that paper into the note
    "Error analyzing paper: " with the message; the handler never raises,
    stores the sections joined by blank lines in the metadata of the task
    and returns them after the line "Analyzed N papers." and a blank
    line. *)
Theorem analysis_isolates_failures (task : Task.t) (a : Agent) :
  match papers a with
  | [] =>
      TaskAgent._handle_paper_analysis env (task, a) =
        (Returns "No papers available for analysis. Please upload papers first.", (task, a))
  | _ :: _ =>
      exists a',
        TaskAgent._handle_paper_analysis env (task, a) =
          (Returns (analysis_report (length (papers a))
                      (paper_results env (length (requests a)) (papers a))),
           (Task.set_metadata
              (<["paper_analysis" :=
                   JStr (PyStr.join (PyStr.nl +:+ PyStr.nl)
                           (paper_results env (length (requests a)) (papers a)))]>
                 (Task.metadata task)) task,
            a')) /\
        requests a' = requests a ++ (analysis_request <$> papers a) /\
        length (paper_results env (length (requests a)) (papers a)) = length (papers a)
  end.
Proof.
  rewrite handle_paper_analysis_unfold.
  destruct (papers a) as [|paper rest] eqn:Hp; [reflexivity|].
  destruct (analyze_papers_spec (paper :: rest) [] task a) as (a' & -> & Hreq & _).
  exists a'. cbn [app]. split; [reflexivity|]. split; [exact Hreq|].
  apply paper_results_length.
Qed.

End AnalysisFacts.

(** C7 as it is stated fails: with two papers, the model answering for
    the first and raising for the second, the text returned is not the
    sections put one after the other, with or without blank lines
    between them, since it starts with the line that counts the papers;
    and with no paper it is a notice, not the empty text. *)
Lemma analysis_result_counterexample :
  fst (TaskAgent._handle_paper_analysis Example.env_second_fails
         (Example.task_c, Example.agent_with_papers))
    <> Returns (PyStr.join EmptyString
                  (paper_results Example.env_second_fails 0 [Example.paper_1; Example.paper_2])) /\
  fst (TaskAgent._handle_paper_analysis Example.env_second_fails
         (Example.task_c, Example.agent_with_papers))
    <> Returns (PyStr.join (PyStr.nl +:+ PyStr.nl)
                  (paper_results Example.env_second_fails 0 [Example.paper_1; Example.paper_2])) /\
  fst (TaskAgent._handle_paper_analysis Example.env_ok (Example.task_c, Example.agent))
    <> Returns EmptyString.
Proof. repeat split; vm_compute; discriminate. Qed.

(** ** The state of a task across the operations *)

(** The invariant in the words of the specification: the completion
    time is set if and only if the status is COMPLETED, and the result is
    set if and only if the status is COMPLETED or FAILED. *)
Definition spec_invariant `{DT : Datetime} (task : Task.t) : Prop :=
  (is_Some (Task.completed_at task) <-> Task.status task = TaskStatus.COMPLETED) /\
  (is_Some (Task.result task) <->
   Task.status task = TaskStatus.COMPLETED \/ Task.status task = TaskStatus.FAILED).

(** What holds of the code: the same, except that a COMPLETED task need
    not have a result. *)
Definition task_invariant `{DT : Datetime} (task : Task.t) : Prop :=
  (is_Some (Task.completed_at task) <-> Task.status task = TaskStatus.COMPLETED) /\
  (is_Some (Task.result task) ->
   Task.status task = TaskStatus.COMPLETED \/ Task.status task = TaskStatus.FAILED) /\
  (Task.status task = TaskStatus.FAILED -> is_Some (Task.result task)).

(** The tasks that the operations produce: built by the constructor with
    the status PENDING or WAITING_USER and the other fields at their
    defaults, then executed or visited by the runner while they have no
    completion time, or written to a record and read back. *)
Inductive reachable `{DT : Datetime} (env : Env) : Task.t -> Prop :=
| reach_new (i ti de : string) (s : TaskStatus.t) (d : datetime) :
    s = TaskStatus.PENDING \/ s = TaskStatus.WAITING_USER ->
    reachable env (Task.new i ti de s d)
| reach_execute (task : Task.t) (a : Agent) :
    reachable env task ->
    Task.completed_at task = None ->
    reachable env (fst (snd (TaskAgent.execute_task env task a)))
| reach_visit (task : Task.t) (a : Agent) :
    reachable env task ->
    Task.completed_at task = None ->
    reachable env (fst (snd (TaskAgent.visit env task a)))
| reach_from_dict (task task' : Task.t) (d : datetime) (o : Task.obj) :
    reachable env task ->
    fst (Task.from_dict d (VJson <$> Task.to_dict task)) = Returns o ->
    Task.typed o = Some task' ->
    reachable env task'.

(** ** Persistence *)

Definition returned {E A : Type} (r : outcome E A) : bool :=
  match r with Returns _ => true | Raises _ => false end.

Definition raised {E A : Type} (r : outcome E A) : option E :=
  match r with Returns _ => None | Raises e => Some e end.




Section PersistenceFacts.
Context `{DT : Datetime}.

(** [from_dict] step by step, with the record as each step leaves it. *)
Lemma from_dict_unfold (now : datetime) (data : gmap string pyval) :
  Task.from_dict now data =
  match data !! "status" with
  | None => (Raises (KeyError "status"), data)
  | Some v =>
    match TaskStatus_call v with
    | Raises e => (Raises e, data)
    | Returns s =>
      let d1 := <["status" := VStatus s]> data in
      match data !! "created_at" with
      | None => (Raises (KeyError "created_at"), d1)
      | Some v =>
        match datetime_fromisoformat v with
        | Raises e => (Raises e, d1)
        | Returns c =>
          let d2 := <["created_at" := VDatetime c]> d1 in
          match data !! "completed_at" with
          | None => (Raises (KeyError "completed_at"), d2)
          | Some v =>
            if truthy v then
              match datetime_fromisoformat v with
              | Raises e => (Raises e, d2)
              | Returns d =>
                  (Task.init now (<["completed_at" := VDatetime d]> d2),
                   <["completed_at" := VDatetime d]> d2)
              end
            else (Task.init now d2, d2)
          end
        end
      end
    end
  end.
Proof.
  unfold Task.from_dict, se_bind, getitem, setitem, se_modify, se_lift, se_get, se_ret.
  destruct (data !! "status") as [v|]; [|reflexivity].
  destruct (TaskStatus_call v) as [s|e]; [|reflexivity].
  rewrite lookup_insert_ne by done.
  destruct (data !! "created_at") as [vc|]; [|reflexivity].
  destruct (datetime_fromisoformat vc) as [c|e]; [|reflexivity].
  rewrite !lookup_insert_ne by done.
  destruct (data !! "completed_at") as [vd|]; [|reflexivity].
  destruct (truthy vd); [|reflexivity].
  destruct (datetime_fromisoformat vd) as [d|e]; reflexivity.
Qed.

Lemma TaskStatus_of_value_value (s : TaskStatus.t) :
  TaskStatus.of_value (TaskStatus.value s) = Some s.
Proof. destruct s; reflexivity. Qed.

Lemma fromisoformat_isoformat_val (d : datetime) :
  datetime_fromisoformat (VJson (JStr (isoformat d))) = Returns d.
Proof. cbn. now rewrite fromisoformat_isoformat. Qed.

Lemma typed_obj_of (t : Task.t) : Task.typed (Task.obj_of t) = Some t.
Proof. destruct t as [i ti de s [r|] c [d|] m]; reflexivity. Qed.

(** Reading back the record of a task gives the task, field for field. *)
Lemma task_round_trip (now : datetime) (t : Task.t) :
  fst (Task.from_dict now (VJson <$> Task.to_dict t)) = Returns (Task.obj_of t).
Proof.
  rewrite from_dict_unfold, !lookup_fmap.
  change (Task.to_dict t !! "status") with (Some (JStr (TaskStatus.value (Task.status t)))).
  change (Task.to_dict t !! "created_at") with (Some (JStr (isoformat (Task.created_at t)))).
  change (Task.to_dict t !! "completed_at")
    with (Some (match Task.completed_at t with
                | Some d => JStr (isoformat d)
                | None => JNull
                end)).
  cbn [fmap option_fmap option_map TaskStatus_call].
  rewrite TaskStatus_of_value_value, fromisoformat_isoformat_val.
  destruct t as [i ti de s r c [d|] m]; cbn [Task.completed_at Task.status Task.created_at].
  - cbn [truthy json_truthy]. rewrite isoformat_nonempty, fromisoformat_isoformat_val.
    reflexivity.
  - reflexivity.
Qed.

Lemma tasks_round_trip (now : datetime) (l : list Task.t) :
  Workflow.tasks_from_json now ((fun task => JDict (Task.to_dict task)) <$> l)
  = Returns (Task.obj_of <$> l).
Proof.
  induction l as [|t l IH]; [reflexivity|].
  cbn [fmap list_fmap Workflow.tasks_from_json Workflow.task_from_json].
  rewrite task_round_trip. cbn [fmap list_fmap] in IH. rewrite IH. reflexivity.
Qed.

Lemma workflow_round_trip (now : datetime) (w : Workflow.t) (path : string) (fs : FS) :
  path ∉ denied fs ->
  exists fs',
    Workflow.save w path fs = (Returns tt, fs') /\
    files fs' = <[path := JsonDoc (JDict (Workflow.to_dict w))]> (files fs) /\
    Workflow.load now path fs' = Returns (Workflow.obj_of w).
Proof.
  intros Hpath. unfold Workflow.save, write_json.
  rewrite bool_decide_eq_false_2 by exact Hpath.
  eexists. split; [reflexivity|]. split; [reflexivity|].
  unfold Workflow.load, read_json. cbn [files]. rewrite lookup_insert_eq.
  cbn [Workflow.subscript].
  change (Workflow.to_dict w !! "created_at")
    with (Some (JStr (isoformat (Workflow.created_at w)))).
  change (Workflow.to_dict w !! "tasks")
    with (Some (JList ((fun task => JDict (Task.to_dict task)) <$> Workflow.tasks w))).
  unfold Workflow.fromisoformat_json. rewrite fromisoformat_isoformat_val.
  cbn [Workflow.iterate]. rewrite tasks_round_trip.
  reflexivity.
Qed.

Lemma typed_tasks (l : list Task.t) : mapM Task.typed (Task.obj_of <$> l) = Some l.
Proof.
  induction l as [|t l IH]; [reflexivity|].
  cbn [fmap list_fmap mapM]. rewrite typed_obj_of. cbn [mbind option_bind].
  cbn [fmap list_fmap] in IH. rewrite IH. reflexivity.
Qed.

(** C5. The instance that [from_dict] builds from the record of a task
    has, field for field, the values of the task, the completion time
    being null exactly when the task has none. A workflow saved to a
    path that can be written and loaded from it comes back with its
    tasks in their order, each with all its fields (id and status among
    them), and with its cursor. *)
Theorem serialization_round_trip (now : datetime) (t : Task.t) (w : Workflow.t) :
  (fst (Task.from_dict now (VJson <$> Task.to_dict t)) = Returns (Task.obj_of t) /\
   Task.typed (Task.obj_of t) = Some t /\
   (Task.o_completed_at (Task.obj_of t) = VJson JNull <-> Task.completed_at t = None)) /\
  (forall path fs,
     path ∉ denied fs ->
     exists fs',
       Workflow.save w path fs = (Returns tt, fs') /\
       Workflow.load now path fs' = Returns (Workflow.obj_of w) /\
       Workflow.o_tasks (Workflow.obj_of w)
         = Workflow.ETasks (Task.obj_of <$> Workflow.tasks w) /\
       mapM Task.typed (Task.obj_of <$> Workflow.tasks w) = Some (Workflow.tasks w) /\
       Workflow.o_current_task_index (Workflow.obj_of w)
         = Workflow.EJson (JInt (Workflow.current_task_index w))).
Proof.
  split.
  - split; [apply task_round_trip|]. split; [apply typed_obj_of|].
    destruct t as [i ti de s r c [d|] m]; cbn; split; congruence.
  - intros path fs Hpath.
    destruct (workflow_round_trip now w path fs Hpath) as (fs' & Hsave & _ & Hload).
    exists fs'. split; [exact Hsave|]. split; [exact Hload|].
    split; [reflexivity|]. split; [apply typed_tasks | reflexivity].
Qed.

End PersistenceFacts.

(** The workflow of the examples, saved where nothing is denied. *)
Lemma serialization_round_trip_witness :
  ("output/test_workflow.json" ∉ denied (fs Example.agent)) /\
  exists fs',
    Workflow.save Example.workflow "output/test_workflow.json" (fs Example.agent)
      = (Returns tt, fs') /\
    Workflow.load Example.t0 "output/test_workflow.json" fs'
      = Returns (Workflow.obj_of Example.workflow) /\
    Workflow.o_tasks (Workflow.obj_of Example.workflow)
      = Workflow.ETasks (Task.obj_of <$> Workflow.tasks Example.workflow) /\
    mapM Task.typed (Task.obj_of <$> Workflow.tasks Example.workflow)
      = Some (Workflow.tasks Example.workflow) /\
    Workflow.o_current_task_index (Workflow.obj_of Example.workflow)
      = Workflow.EJson (JInt (Workflow.current_task_index Example.workflow)).
Proof.
  assert (H : "output/test_workflow.json" ∉ denied (fs Example.agent))
    by (cbn; apply not_elem_of_empty).
  exact (conj H
           (proj2 (serialization_round_trip Example.t0 Example.task_a Example.workflow)
              "output/test_workflow.json" (fs Example.agent) H)).
Defined.

(** ** The invariant of a task *)

Section InvariantFacts.
Context `{DT : Datetime}.
Variable env : Env.

Lemma execute_task_invariant (task : Task.t) (a : Agent) :
  Task.completed_at task = None ->
  task_invariant (fst (snd (TaskAgent.execute_task env task a))) /\
  is_Some (Task.result (fst (snd (TaskAgent.execute_task env task a)))).
Proof.
  intros Hnone. unfold TaskAgent.execute_task.
  pose proof (run_handler_task env
                (TaskAgent.route (Task.title (Task.set_status TaskStatus.IN_PROGRESS task)))
                (Task.set_status TaskStatus.IN_PROGRESS task) a) as [Hc _].
  destruct (TaskAgent.run_handler env _ _) as [[r|e] [task1 a1]]; cbn [fst snd] in *.
  - unfold task_invariant. cbn. split; [|eauto]. repeat split; eauto.
  - unfold task_invariant. cbn. rewrite Hc. cbn. rewrite Hnone.
    split; [|eauto].
    repeat split; eauto; try discriminate; try (intros [x Hx]; discriminate).
Qed.

Lemma acknowledge_invariant (task : Task.t) (a : Agent) :
  task_invariant task ->
  Task.status task = TaskStatus.WAITING_USER ->
  task_invariant (fst (snd (TaskAgent.acknowledge env task a))).
Proof.
  intros (Hc & Hr & Hf) Hw. unfold TaskAgent.acknowledge, TaskAgent.input.
  cbn [print set_stdout stdin].
  destruct (stdin a); cbn [fst snd].
  - exact (conj Hc (conj Hr Hf)).
  - unfold task_invariant. cbn. repeat split; eauto; discriminate.
Qed.

Lemma visit_invariant (task : Task.t) (a : Agent) :
  task_invariant task ->
  Task.completed_at task = None ->
  task_invariant (fst (snd (TaskAgent.visit env task a))).
Proof.
  intros Hinv Hnone. unfold TaskAgent.visit. case_bool_decide as Hw.
  - now apply acknowledge_invariant.
  - pose proof (execute_task_invariant task a Hnone) as [Hex _].
    destruct (TaskAgent.execute_task env task a) as [[|] [task' a']]; exact Hex.
Qed.

(** C6, as the code has it. Every task built by the constructor as
    PENDING or WAITING_USER with no result and no completion time, and
    then executed, visited by the runner or written to a record and read
    back, any number of times while it is not completed, has a completion
    time if and only if it is COMPLETED, has a result only if it is
    COMPLETED or FAILED, and has a result if it is FAILED. *)
Theorem reachable_task_invariant (task : Task.t) :
  reachable env task -> task_invariant task.
Proof.
  induction 1 as [i ti de s d Hs | task a _ IH Hnone | task a _ IH Hnone
                  | task task' d o _ IH Hread Htyped].
  - unfold task_invariant. cbn. repeat split.
    + intros [x Hx]. discriminate.
    + intros ->. destruct Hs; discriminate.
    + intros [x Hx]. discriminate.
    + intros ->. destruct Hs; discriminate.
  - now apply execute_task_invariant.
  - now apply visit_invariant.
  - rewrite task_round_trip in Hread. injection Hread as <-.
    rewrite typed_obj_of in Htyped. injection Htyped as <-. exact IH.
Qed.

End InvariantFacts.

(** C6 as it is stated fails on the waiting task of the examples: the
    run completes it by acknowledgement, and it is then COMPLETED with
    no result. *)
Lemma task_invariant_counterexample :
  reachable Example.env_ok (fst (snd (TaskAgent.visit Example.env_ok Example.task_b Example.agent))) /\
  ~ spec_invariant (fst (snd (TaskAgent.visit Example.env_ok Example.task_b Example.agent))) /\
  fst (TaskAgent.run_workflow Example.env_ok Example.workflow Example.agent) = Returns true /\
  (fun task => (Task.status task, Task.result task)) <$>
    (wf_tasks (snd (TaskAgent.run_workflow Example.env_ok Example.workflow Example.agent))
       ≫= fun l => l !! 1)
    = Some (TaskStatus.COMPLETED, None).
Proof.
  split; [|split; [|split]].
  - apply (reach_visit Example.env_ok Example.task_b Example.agent); [|reflexivity].
    apply reach_new. now right.
  - intros [_ [_ Hres]].
    assert (Hst : Task.status (fst (snd (TaskAgent.visit Example.env_ok Example.task_b
                                           Example.agent))) = TaskStatus.COMPLETED)
      by (vm_compute; reflexivity).
    assert (Hnone : Task.result (fst (snd (TaskAgent.visit Example.env_ok Example.task_b
                                             Example.agent))) = None)
      by (vm_compute; reflexivity).
    destruct (Hres (or_introl Hst)) as [x Hx]. rewrite Hnone in Hx. discriminate.
  - vm_compute. reflexivity.
  - vm_compute. reflexivity.
Qed.

Lemma reachable_task_invariant_witness :
  reachable Example.env_ok
    (fst (snd (TaskAgent.visit Example.env_ok Example.task_b Example.agent))) /\
  task_invariant (fst (snd (TaskAgent.visit Example.env_ok Example.task_b Example.agent))).
Proof.
  assert (H : reachable Example.env_ok
                (fst (snd (TaskAgent.visit Example.env_ok Example.task_b Example.agent)))).
  { apply (reach_visit Example.env_ok Example.task_b Example.agent); [|reflexivity].
    apply reach_new. right. reflexivity. }
  exact (conj H (reachable_task_invariant Example.env_ok _ H)).
Defined.

(** ** Failures of deserialization *)

Section FailureFacts.
Context `{DT : Datetime}.
















Lemma fromisoformat_returns (w : pyval) (c : datetime) :
  datetime_fromisoformat w = Returns c ->
  exists x, w = VJson (JStr x) /\ fromisoformat x = Some c.
Proof.
  destruct w as [[| | |x| |]| |]; cbn; try discriminate.
  destruct (fromisoformat x) as [c'|] eqn:Hx; [|discriminate].
  intros [= <-]. eauto.
Qed.


(** A call that returns has gone through the three assignments. *)
Lemma from_dict_returns (now : datetime) (data : gmap string pyval) :
  returned (fst (Task.from_dict now data)) = true ->
  exists v s w c u,
    data !! "status" = Some v /\ TaskStatus_call v = Returns s /\
    data !! "created_at" = Some w /\ datetime_fromisoformat w = Returns c /\
    data !! "completed_at" = Some u /\
    snd (Task.from_dict now data) =
      (if truthy u then
         match datetime_fromisoformat u with
         | Returns d => <["completed_at" := VDatetime d]>
         | Raises _ => id
         end
       else id) (<["created_at" := VDatetime c]> (<["status" := VStatus s]> data)) /\
    (truthy u = true -> returned (datetime_fromisoformat u) = true) /\
    fst (Task.from_dict now data) = Task.init now (snd (Task.from_dict now data)).
Proof.
  rewrite from_dict_unfold.
  destruct (data !! "status") as [v|] eqn:Hv; [|discriminate].
  destruct (TaskStatus_call v) as [s|e] eqn:Hs; [|discriminate].
  destruct (data !! "created_at") as [w|] eqn:Hw; [|discriminate].
  destruct (datetime_fromisoformat w) as [c|e] eqn:Hc; [|discriminate].
  destruct (data !! "completed_at") as [u|] eqn:Hu; [|discriminate].
  cbn zeta. intros Hret. exists v, s, w, c, u.
  split; [reflexivity|]. split; [exact Hs|]. split; [reflexivity|].
  split; [exact Hc|]. split; [reflexivity|].
  destruct (truthy u); [|repeat split; discriminate || reflexivity].
  destruct (datetime_fromisoformat u) as [d|e]; [|discriminate].
  repeat split; reflexivity.
Qed.





(** C10, as the code has it. On every record from which [from_dict]
    returns, the caller's record holds afterwards the member of TaskStatus
    under status and the parsed datetime under created_at; under
    completed_at it holds the parsed datetime when the entry was true in
    Python's sense (a non-empty string), and the entry as it was otherwise
    (null, or the empty string); every other key is as before; and the
    record is not the one that was passed. *)
Theorem from_dict_overwrites (now : datetime) (data : gmap string pyval) :
  returned (fst (Task.from_dict now data)) = true ->
  exists s c,
    (exists v, data !! "status" = Some v /\ TaskStatus_call v = Returns s) /\
    (exists x, data !! "created_at" = Some (VJson (JStr x)) /\ fromisoformat x = Some c) /\
    snd (Task.from_dict now data) !! "status" = Some (VStatus s) /\
    snd (Task.from_dict now data) !! "created_at" = Some (VDatetime c) /\
    (exists u, data !! "completed_at" = Some u /\
       if truthy u
       then exists x d, u = VJson (JStr x) /\ fromisoformat x = Some d /\
              snd (Task.from_dict now data) !! "completed_at" = Some (VDatetime d)
       else snd (Task.from_dict now data) !! "completed_at" = Some u) /\
    (forall k, k <> "status" -> k <> "created_at" -> k <> "completed_at" ->
       snd (Task.from_dict now data) !! k = data !! k) /\
    snd (Task.from_dict now data) <> data.
Proof.
  intros Hret.
  destruct (from_dict_returns now data Hret)
    as (v & s & w & c & u & Hv & Hs & Hw & Hc & Hu & Hsnd & Hpar & _).
  destruct (fromisoformat_returns w c Hc) as (x & -> & Hx).
  exists s, c. split; [eauto|]. split; [eauto|].
  assert (Hcreated : snd (Task.from_dict now data) !! "created_at" = Some (VDatetime c)).
  { rewrite Hsnd. destruct (truthy u); [destruct (datetime_fromisoformat u)|];
      cbn [id]; rewrite ?lookup_insert_ne by done; apply lookup_insert_eq. }
  split.
  { rewrite Hsnd. destruct (truthy u); [destruct (datetime_fromisoformat u)|];
      cbn [id]; rewrite ?lookup_insert_ne by done; apply lookup_insert_eq. }
  split; [exact Hcreated|]. split.
  { exists u. split; [exact Hu|]. rewrite Hsnd. destruct (truthy u) eqn:Ht.
    - specialize (Hpar eq_refl).
      destruct (datetime_fromisoformat u) as [d|e] eqn:Hd; [|discriminate].
      destruct (fromisoformat_returns u d Hd) as (y & -> & Hy).
      exists y, d. split; [reflexivity|]. split; [exact Hy|]. apply lookup_insert_eq.
    - cbn [id]. now rewrite !lookup_insert_ne by done. }
  split.
  { intros k H1 H2 H3. rewrite Hsnd.
    destruct (truthy u); [destruct (datetime_fromisoformat u)|];
      cbn [id]; now rewrite !lookup_insert_ne by done. }
  intros Heq. rewrite Heq, Hw in Hcreated. discriminate.
Qed.

End FailureFacts.



(** C10 as it is stated fails on two records of the examples. With the
    empty string as completion time, the entry is not null and [from_dict]
    returns leaving it as it was. With an unknown status, [from_dict]
    raises before any assignment and the record is the one passed. *)
Lemma from_dict_overwrites_counterexample :
  (returned (fst (Task.from_dict Example.t0 Example.record_empty_completed)) = true /\
   Example.record_empty_completed !! "completed_at" = Some (VJson (JStr EmptyString)) /\
   snd (Task.from_dict Example.t0 Example.record_empty_completed) !! "completed_at"
     = Some (VJson (JStr EmptyString))) /\
  (raised (fst (Task.from_dict Example.t0 Example.record_bad_status)) = Some ValueError /\
   snd (Task.from_dict Example.t0 Example.record_bad_status) = Example.record_bad_status).
Proof.
  split; [split; [vm_compute; reflexivity | split; reflexivity]|].
  split; [vm_compute; reflexivity | reflexivity].
Qed.

Lemma from_dict_overwrites_witness :
  returned (fst (Task.from_dict Example.t0 Example.record_completed)) = true /\
  exists s c,
    (exists v, Example.record_completed !! "status" = Some v /\
       TaskStatus_call v = Returns s) /\
    (exists x, Example.record_completed !! "created_at" = Some (VJson (JStr x)) /\
       fromisoformat x = Some c) /\
    snd (Task.from_dict Example.t0 Example.record_completed) !! "status"
      = Some (VStatus s) /\
    snd (Task.from_dict Example.t0 Example.record_completed) !! "created_at"
      = Some (VDatetime c) /\
    (exists u, Example.record_completed !! "completed_at" = Some u /\
       if truthy u
       then exists x d, u = VJson (JStr x) /\ fromisoformat x = Some d /\
              snd (Task.from_dict Example.t0 Example.record_completed) !! "completed_at"
                = Some (VDatetime d)
       else snd (Task.from_dict Example.t0 Example.record_completed) !! "completed_at"
              = Some u) /\
    (forall k, k <> "status" -> k <> "created_at" -> k <> "completed_at" ->
       snd (Task.from_dict Example.t0 Example.record_completed) !! k
         = Example.record_completed !! k) /\
    snd (Task.from_dict Example.t0 Example.record_completed) <> Example.record_completed.
Proof.
  assert (H : returned (fst (Task.from_dict Example.t0 Example.record_completed)) = true)
    by (vm_compute; reflexivity).
  exact (conj H (from_dict_overwrites Example.t0 Example.record_completed H)).
Defined.

(** ** The upload task of the examples *)

Lemma upload_handler_effect_witness :
  TaskAgent.route (Task.title Example.task_b) = TaskAgent.Upload /\
  requests (snd (snd (TaskAgent.execute_task Example.env_ok Example.task_b Example.agent)))
    = requests Example.agent.
Proof.
  assert (H : TaskAgent.route (Task.title Example.task_b) = TaskAgent.Upload)
    by (vm_compute; reflexivity).
  destruct (upload_handler_effect Example.env_ok Example.task_b Example.agent)
    as (_ & _ & _ & _ & _ & _ & _ & _ & _ & _ & _ & _ & Hexec).
  exact (conj H (Hexec Example.task_b Example.agent H)).
Defined.

(** * More of the code

    The rest of [task.py], [agent.py] and [paper.py], and the parsing
    loops of [document.py]: definitions first, then their properties. *)

(** ** More string primitives ([agent.py], [document.py]) *)

Module PyStrExt.

(** [c.isdigit()] on the ASCII range *)
Definition isdigit (c : ascii) : bool :=
  (48 <=? nat_of_ascii c) && (nat_of_ascii c <=? 57).

(** The characters below 128 *)
Definition is_ascii_char (c : ascii) : bool := nat_of_ascii c <? 128.

(** [s.isascii()] *)
Fixpoint isascii (s : string) : bool :=
  match s with
  | EmptyString => true
  | String c r => is_ascii_char c && isascii r
  end.

(** [s[n:]] *)
Fixpoint drop (n : nat) (s : string) : string :=
  match n, s with
  | O, _ => s
  | S m, String _ r => drop m r
  | S _, EmptyString => EmptyString
  end.

(** [s.split(sep, 1)] for a non-empty [sep]: the texts before and after
    the leftmost occurrence of [sep], or nothing when [sep] does not
    occur and the list has [s] as its only element. *)
Fixpoint split_once (sep s : string) : option (string * string) :=
  if String.prefix sep s then Some (EmptyString, drop (String.length sep) s)
  else
    match s with
    | EmptyString => None
    | String c r =>
        match split_once sep r with
        | Some (before, after) => Some (String c before, after)
        | None => None
        end
    end.

(** [s.split(sep, 1)[-1]] *)
Definition split_last (sep s : string) : string :=
  match split_once sep s with
  | Some (_, after) => after
  | None => s
  end.

End PyStrExt.

(** ** Text beyond ASCII

    A string holds the UTF-8 bytes of a Python string. Concatenation,
    [==], [startswith], [in] and [split] are the same on these bytes as
    on the characters. [strip], [lower] and [isdigit] are not: beyond
    the ASCII range they follow the character tables of Python. In
    [Planning] and in [PaperStore] they are the methods of [Unicode], of
    which nothing is assumed but what they are on ASCII text, where the
    tables are those of [PyStr] and [PyStrExt.isdigit]. *)

Class Unicode : Type := {
  (** [s.strip()] *)
  str_strip : string -> string;
  (** [s.lower()] *)
  str_lower : string -> string;
  (** [s[0].isdigit()] on a non-empty [s] *)
  head_isdigit : string -> bool;
  str_strip_ascii : forall s, PyStrExt.isascii s = true -> str_strip s = PyStr.strip s;
  str_lower_ascii : forall s, PyStrExt.isascii s = true -> str_lower s = PyStr.lower s;
  head_isdigit_ascii : forall c r,
    PyStrExt.is_ascii_char c = true -> head_isdigit (String c r) = PyStrExt.isdigit c;
}.

(** The methods for a program that only meets ASCII text *)
Module AsciiText.

Definition first_isdigit (s : string) : bool :=
  match s with
  | EmptyString => false
  | String c _ => PyStrExt.isdigit c
  end.

Definition unicode : Unicode := {|
  str_strip := PyStr.strip;
  str_lower := PyStr.lower;
  head_isdigit := first_isdigit;
  str_strip_ascii := fun _ _ => eq_refl;
  str_lower_ascii := fun _ _ => eq_refl;
  head_isdigit_ascii := fun _ _ _ => eq_refl;
|}.

End AsciiText.

(** ** Planning ([agent.py], lines 75-184 and 488-513) *)

Module Planning.
Section WithEnv.
Context `{DT : Datetime} `{U : Unicode}.
Variable env : Env.

(** [create_workflow], lines 75-94. The argument [id] is evaluated
    before the constructor runs the default factory of [created_at]: the
    clock is read twice. *)
Definition create_workflow (title description : string) (a : Agent)
    : Workflow.t * Agent :=
  let '(d, a) := now env a in
  let id := "workflow_" +:+ strftime_compact d in
  let '(created, a) := now env a in
  let workflow := Workflow.new id title description created in
  (workflow, set_current_workflow (Some workflow) a).

(** [Task(id=.., title=.., description=.., status=..)]: the default
    factory of [created_at] reads the clock. *)
Definition new_task (i ti de : string) (s : TaskStatus.t) (a : Agent) : Task.t * Agent :=
  let '(d, a) := now env a in (Task.new i ti de s d, a).

(** [_get_default_review_tasks], lines 170-184 *)
Definition _get_default_review_tasks (a : Agent) : list Task.t * Agent :=
  let '(t1, a) :=
    new_task "task_1" "Collect Relevant Papers"
      "Search and identify relevant research papers for the review"
      TaskStatus.PENDING a in
  let '(t2, a) :=
    new_task "task_2" "Upload Papers"
      "Download identified papers and upload them to the system"
      TaskStatus.WAITING_USER a in
  let '(t3, a) :=
    new_task "task_3" "Analyze Papers"
      "Read and analyze the uploaded papers, extract key findings"
      TaskStatus.PENDING a in
  let '(t4, a) :=
    new_task "task_4" "Create Outline"
      "Create a comprehensive outline for the literature review"
      TaskStatus.PENDING a in
  let '(t5, a) :=
    new_task "task_5" "Write Literature Review"
      "Write the complete literature review section by section"
      TaskStatus.PENDING a in
  ([t1; t2; t3; t4; t5], a).

(** The body of the loop of [_parse_subtasks], lines 144-158: the title
    and the description read from a line, or nothing when the line is
    skipped. *)
Definition subtask_of_line (line : string) : option (string * string) :=
  let line := str_strip line in
  if negb (PyStr.nonempty line) then None
  else if head_isdigit line && (PyStr.contains ". " line || PyStr.contains ") " line) then
    match PyStrExt.split_once ": " line with
    | Some (head, description) =>
        Some (PyStrExt.split_last ") " (PyStrExt.split_last ". " head), description)
    | None =>
        let title := PyStrExt.split_last ") " (PyStrExt.split_last ". " line) in
        Some (title, title)
    end
  else None.

(** The loop of lines 143-166, with [task_num] and [tasks] *)
Fixpoint parse_lines (todo : list string) (task_num : nat) (tasks : list Task.t)
    (a : Agent) : list Task.t * Agent :=
  match todo with
  | [] => (tasks, a)
  | line :: rest =>
      match subtask_of_line line with
      | Some (title, description) =>
          let '(task, a) :=
            new_task ("task_" +:+ pretty task_num) title description
                     TaskStatus.PENDING a in
          parse_lines rest (S task_num) (tasks ++ [task]) a
      | None => parse_lines rest task_num tasks a
      end
  end.

(** [_parse_subtasks], lines 137-168 *)
Definition _parse_subtasks (response : string) (a : Agent) : list Task.t * Agent :=
  let todo := PyStr.split (ascii_of_nat 10) (str_strip response) in
  let '(tasks, a) := parse_lines todo 1 [] a in
  match tasks with
  | [] => _get_default_review_tasks a
  | _ :: _ => (tasks, a)
  end.

Definition decompose_prompt (main_task : string) : string :=
  lines [
    "You are a task planning expert. Break down the following task into clear, actionable subtasks.";
    EmptyString;
    "Main Task: " +:+ main_task;
    EmptyString;
    "For a literature review task, typical steps include:";
    "1. Collect relevant papers (search and identify)";
    "2. Wait for user to download and upload papers";
    "3. Read and analyze uploaded papers";
    "4. Create an outline/structure";
    "5. Write sections one by one";
    "6. Review and refine";
    EmptyString;
    "Provide a numbered list of subtasks in the following format:";
    "1. [Task Title]: [Detailed description]";
    "2. [Task Title]: [Detailed description]";
    "...";
    EmptyString;
    "Keep each subtask focused and actionable."].

(** [decompose_task], lines 96-135: every exception is answered by the
    default tasks. *)
Definition decompose_task (main_task : string) (a : Agent) : list Task.t * Agent :=
  match generate env (decompose_prompt main_task) 4096 a with
  | (Returns response, a) => _parse_subtasks response a
  | (Raises _, a) => _get_default_review_tasks a
  end.

(** [create_literature_review], lines 488-513. The workflow that
    [create_workflow] returned is the agent's current workflow: the tasks
    are added to that object. *)
Definition create_literature_review (topic : string) : SE Agent exn bool :=
  fun a =>
    let '(workflow, a) := create_workflow ("Literature Review: " +:+ topic) topic a in
    let '(tasks, a) :=
      decompose_task ("Write a comprehensive literature review on " +:+ topic) a in
    let workflow := fold_left (fun w task => Workflow.add_task task w) tasks workflow in
    let a := set_current_workflow (Some workflow) a in
    TaskAgent.run_workflow env workflow a.

End WithEnv.
End Planning.

(** ** Papers as records ([paper.py], lines 16-48) *)

Module PaperJson.

(** An instance of [Paper] with whatever values its attributes hold: as
    for [Task], no annotation is checked. *)
Record obj : Type := mk_obj {
  o_title : json;
  o_authors : json;
  o_year : json;
  o_abstract : json;
  o_keywords : json;
  o_filepath : json;
  o_url : json;
  o_summary : json;
  o_key_findings : json;
  o_metadata : json;
}.

Definition set_summary (v : json) (o : obj) : obj :=
  mk_obj (o_title o) (o_authors o) (o_year o) (o_abstract o) (o_keywords o)
         (o_filepath o) (o_url o) v (o_key_findings o) (o_metadata o).

Definition set_key_findings (v : json) (o : obj) : obj :=
  mk_obj (o_title o) (o_authors o) (o_year o) (o_abstract o) (o_keywords o)
         (o_filepath o) (o_url o) (o_summary o) v (o_metadata o).

Definition str_list (l : list string) : json := JList (JStr <$> l).

Definition opt_int (o : option Z) : json :=
  match o with Some z => JInt z | None => JNull end.

(** A paper of the annotated types seen as an instance *)
Definition obj_of (p : Paper.t) : obj :=
  mk_obj (JStr (Paper.title p)) (str_list (Paper.authors p))
         (opt_int (Paper.year p)) (Task.opt_str (Paper.abstract p))
         (str_list (Paper.keywords p)) (Task.opt_str (Paper.filepath p))
         (Task.opt_str (Paper.url p)) (Task.opt_str (Paper.summary p))
         (str_list (Paper.key_findings p)) (JDict (Paper.metadata p)).

Definition as_str (j : json) : option string :=
  match j with JStr s => Some s | _ => None end.

Definition as_opt_str (j : json) : option (option string) :=
  match j with JStr s => Some (Some s) | JNull => Some None | _ => None end.

Definition as_opt_int (j : json) : option (option Z) :=
  match j with JInt z => Some (Some z) | JNull => Some None | _ => None end.

Definition as_str_list (j : json) : option (list string) :=
  match j with JList l => mapM as_str l | _ => None end.

Definition as_dict (j : json) : option (gmap string json) :=
  match j with JDict d => Some d | _ => None end.

(** The instances whose attributes have the annotated types *)
Definition typed (o : obj) : option Paper.t :=
  title ← as_str (o_title o);
  authors ← as_str_list (o_authors o);
  year ← as_opt_int (o_year o);
  abstract ← as_opt_str (o_abstract o);
  keywords ← as_str_list (o_keywords o);
  filepath ← as_opt_str (o_filepath o);
  url ← as_opt_str (o_url o);
  summary ← as_opt_str (o_summary o);
  key_findings ← as_str_list (o_key_findings o);
  metadata ← as_dict (o_metadata o);
  Some (Paper.mk title authors year abstract keywords filepath url summary
                 key_findings metadata).

(** [to_dict], lines 30-43 *)
Definition to_dict (self : obj) : gmap string json :=
  <["title" := o_title self]>
  (<["authors" := o_authors self]>
  (<["year" := o_year self]>
  (<["abstract" := o_abstract self]>
  (<["keywords" := o_keywords self]>
  (<["filepath" := o_filepath self]>
  (<["url" := o_url self]>
  (<["summary" := o_summary self]>
  (<["key_findings" := o_key_findings self]>
  (<["metadata" := o_metadata self]> ∅))))))))).

Definition fields : list string :=
  ["title"; "authors"; "year"; "abstract"; "keywords"; "filepath"; "url";
   "summary"; "key_findings"; "metadata"].

(** The generated [__init__] called with keyword arguments: only
    [title] has no default. *)
Definition init (kw : gmap string json) : outcome exn obj :=
  if bool_decide (dom kw ⊆ list_to_set (C := gset string) fields) then
    match kw !! "title" with
    | Some title =>
        Returns (mk_obj title
                   (default (JList []) (kw !! "authors"))
                   (default JNull (kw !! "year"))
                   (default JNull (kw !! "abstract"))
                   (default (JList []) (kw !! "keywords"))
                   (default JNull (kw !! "filepath"))
                   (default JNull (kw !! "url"))
                   (default JNull (kw !! "summary"))
                   (default (JList []) (kw !! "key_findings"))
                   (default (JDict ∅) (kw !! "metadata")))
    | None => Raises TypeError
    end
  else Raises TypeError.

(** [from_dict], lines 45-48: the argument must be a mapping to be
    unpacked into keyword arguments. *)
Definition from_dict (data : json) : outcome exn obj :=
  match data with
  | JDict d => init d
  | _ => Raises TypeError
  end.

End PaperJson.

(** ** The paper manager and its file ([paper.py], lines 51-179;
    [agent.py], lines 515-534) *)

Module PaperStore.

(** The attributes of a [PaperManager] and the files *)
Record t : Type := mk {
  papers_dir : string;
  papers : list PaperJson.obj;
  fs : FS;
}.

Definition set_papers (l : list PaperJson.obj) (self : t) : t :=
  mk (papers_dir self) l (fs self).

Definition set_fs (f : FS) (self : t) : t :=
  mk (papers_dir self) (papers self) f.

Definition metadata_file (self : t) : string :=
  path_join (papers_dir self) "papers_metadata.json".

(** The list comprehension of line 76: the first raise ends it. *)
Fixpoint papers_from_json (l : list json) : outcome exn (list PaperJson.obj) :=
  match l with
  | [] => Returns []
  | p :: r =>
      match PaperJson.from_dict p with
      | Raises e => Raises e
      | Returns o =>
          match papers_from_json r with
          | Raises e => Raises e
          | Returns os => Returns (o :: os)
          end
      end
  end.

(** The body of the [try] of [_load_metadata] *)
Definition read_papers (path : string) (f : FS) : outcome exn (list PaperJson.obj) :=
  match read_json path f with
  | Raises e => Raises e
  | Returns data =>
      match Workflow.iterate data with
      | Raises e => Raises e
      | Returns l => papers_from_json l
      end
  end.

(** [_load_metadata], lines 70-80 *)
Definition _load_metadata (self : t) : t :=
  match files (fs self) !! metadata_file self with
  | None => self
  | Some _ =>
      match read_papers (metadata_file self) (fs self) with
      | Returns l => set_papers l self
      | Raises _ => set_papers [] self
      end
  end.

(** [__init__], lines 54-68 *)
Definition init (papers_dir : string) (f : FS) : t :=
  _load_metadata (mk papers_dir [] f).

Definition papers_json (l : list PaperJson.obj) : json :=
  JList ((fun paper => JDict (PaperJson.to_dict paper)) <$> l).

(** [_save_metadata], lines 82-90: the exception of a failed write is
    caught. *)
Definition _save_metadata (self : t) : t :=
  match write_json (metadata_file self) (papers_json (papers self)) (fs self) with
  | (Returns _, f) => set_fs f self
  | (Raises _, _) => self
  end.

(** [add_paper], lines 92-96 *)
Definition add_paper (paper : PaperJson.obj) (self : t) : t :=
  _save_metadata (set_papers (papers self ++ [paper]) self).

(** [paper.title.lower()]: only a [str] has the method. *)
Inductive lookup_error : Type := AttributeError.

Definition title_lower `{U : Unicode} (paper : PaperJson.obj)
    : outcome lookup_error string :=
  match PaperJson.o_title paper with
  | JStr s => Returns (str_lower s)
  | _ => Raises AttributeError
  end.

(** [get_paper_by_title], lines 121-126: the position of the paper is
    returned with it, since it is that object which is updated. *)
Fixpoint find_paper `{U : Unicode} (title : string) (l : list PaperJson.obj) (i : nat)
    : outcome lookup_error (option (nat * PaperJson.obj)) :=
  match l with
  | [] => Returns None
  | paper :: r =>
      match title_lower paper with
      | Raises e => Raises e
      | Returns s =>
          if bool_decide (s = str_lower title) then Returns (Some (i, paper))
          else find_paper title r (S i)
      end
  end.

Definition get_paper_by_title `{U : Unicode} (title : string) (self : t)
    : outcome lookup_error (option PaperJson.obj) :=
  match find_paper title (papers self) 0 with
  | Raises e => Raises e
  | Returns found => Returns (snd <$> found)
  end.

(** [list_papers], lines 128-130 *)
Definition list_papers (self : t) : list PaperJson.obj := papers self.

(** [update_paper_summary], lines 132-140 *)
Definition update_paper_summary `{U : Unicode} (title summary : string)
    (key_findings : list string) (self : t) : outcome lookup_error unit * t :=
  match find_paper title (papers self) 0 with
  | Raises e => (Raises e, self)
  | Returns None => (Returns tt, self)
  | Returns (Some (i, paper)) =>
      let paper := PaperJson.set_summary (JStr summary) paper in
      let paper :=
        match key_findings with
        | [] => paper
        | _ :: _ => PaperJson.set_key_findings (PaperJson.str_list key_findings) paper
        end in
      (Returns tt, _save_metadata (set_papers (<[i := paper]> (papers self)) self))
  end.

(** [export_metadata], lines 174-179: here a failed write is raised. *)
Definition export_metadata (filepath : string) (self : t) : outcome exn unit * t :=
  match write_json filepath (papers_json (papers self)) (fs self) with
  | (r, f) => (r, set_fs f self)
  end.

(** [info.get(k, d)] *)
Definition get (info : gmap string json) (k : string) (d : json) : json :=
  default d (info !! k).

(** The paper that [add_papers] builds from an entry, [agent.py] lines
    523-531 *)
Definition paper_of_info (info : gmap string json) : PaperJson.obj :=
  PaperJson.mk_obj (get info "title" (JStr EmptyString))
                   (get info "authors" (JList []))
                   (get info "year" JNull)
                   (get info "abstract" JNull)
                   (get info "keywords" (JList []))
                   (get info "filepath" JNull)
                   (get info "url" JNull)
                   JNull (JList []) (JDict ∅).

(** [TaskAgent.add_papers], [agent.py] lines 515-534, on the manager
    of the agent *)
Definition add_papers (papers_info : list (gmap string json)) (self : t) : t :=
  fold_left (fun self info => add_paper (paper_of_info info) self) papers_info self.

End PaperStore.

(** ** Documents ([document.py], lines 55-185)

    The two converters read the Markdown text line by line and hand each
    line to the library, python-docx or ReportLab. What is represented is
    the call made for a line, with its arguments, not what the library
    does with it. The left alignment that [markdown_to_docx] sets on each
    heading is the same for all four levels and is left out, as are the
    saving of the document and the log line. *)

Module DocumentGenerator.

(** The calls on the document of python-docx *)
Inductive docx_call : Type :=
| add_heading (text : string) (level : nat)
| add_paragraph (text : option string) (style : option string).

(** [line.split('. ', 1)[1] if '. ' in line else line] *)
Definition numbered_text (line : string) : string :=
  if PyStr.contains ". " line then
    match PyStrExt.split_once ". " line with
    | Some (_, text) => text
    | None => line
    end
  else line.

Definition is_bullet (line : string) : bool :=
  PyStr.startswith "- " line || PyStr.startswith "* " line.

Definition is_numbered (line : string) : bool :=
  PyStr.startswith "1. " line || PyStr.startswith "2. " line
  || PyStr.startswith "3. " line.

(** The body of the loop of [markdown_to_docx], lines 74-104 *)
Definition docx_line (line : string) : docx_call :=
  let line := PyStr.strip line in
  if negb (PyStr.nonempty line) then add_paragraph None None
  else if PyStr.startswith "# " line then add_heading (PyStrExt.drop 2 line) 1
  else if PyStr.startswith "## " line then add_heading (PyStrExt.drop 3 line) 2
  else if PyStr.startswith "### " line then add_heading (PyStrExt.drop 4 line) 3
  else if PyStr.startswith "#### " line then add_heading (PyStrExt.drop 5 line) 4
  else if is_bullet line then
    add_paragraph (Some (PyStrExt.drop 2 line)) (Some "List Bullet")
  else if is_numbered line then
    add_paragraph (Some (numbered_text line)) (Some "List Number")
  else add_paragraph (Some line) None.

(** The calls of [markdown_to_docx] on a text, in order *)
Definition docx_calls (markdown_content : string) : list docx_call :=
  docx_line <$> PyStr.split (ascii_of_nat 10) markdown_content.

(** The flowables of ReportLab *)
Inductive flowable : Type :=
| Paragraph (text : string) (style : string)
| Spacer (width height : Z).

(** The bullet character, U+2022 in UTF-8, and a space *)
Definition bullet : string :=
  String (ascii_of_nat 226) (String (ascii_of_nat 128) (String (ascii_of_nat 162) " ")).

(** The body of the loop of [markdown_to_pdf], lines 148-180: the
    flowables appended for a line *)
Definition pdf_line (line : string) : list flowable :=
  let line := PyStr.strip line in
  if negb (PyStr.nonempty line) then [Spacer 1 12]
  else if PyStr.startswith "# " line then
    [Paragraph (PyStrExt.drop 2 line) "Heading1"; Spacer 1 12]
  else if PyStr.startswith "## " line then
    [Paragraph (PyStrExt.drop 3 line) "Heading2"; Spacer 1 12]
  else if PyStr.startswith "### " line then
    [Paragraph (PyStrExt.drop 4 line) "Heading3"; Spacer 1 12]
  else if is_bullet line then [Paragraph (bullet +:+ PyStrExt.drop 2 line) "BodyText"]
  else if is_numbered line then [Paragraph (numbered_text line) "BodyText"]
  else [Paragraph line "Justify"; Spacer 1 12].

(** The list [elements] that [markdown_to_pdf] builds *)
Definition pdf_elements (markdown_content : string) : list flowable :=
  mjoin (pdf_line <$> PyStr.split (ascii_of_nat 10) markdown_content).

End DocumentGenerator.

(** ** Vocabulary of the properties below *)

(** The fields of a workflow that no run assigns *)
Definition wf_header `{DT : Datetime} (w : Workflow.t)
    : string * string * string * Z * datetime :=
  (Workflow.id w, Workflow.title w, Workflow.description w,
   Workflow.current_task_index w, Workflow.created_at w).

(** Where [_save_workflow] writes a workflow *)
Definition workflow_path `{DT : Datetime} (env : Env) (w : Workflow.t) : string :=
  path_join (base_dir env) (Workflow.id w +:+ ".json").

(** The tasks built from accepted lines: numbered from [first] on, each
    with the value of the clock at its creation. *)
Definition numbered_tasks `{DT : Datetime} (env : Env) (first reads : nat)
    (parsed : list (string * string)) : list Task.t :=
  imap (fun i td =>
          Task.new ("task_" +:+ pretty (first + i)) (fst td) (snd td)
                   TaskStatus.PENDING (clock env (reads + i))) parsed.

(** A file that the writing handler names *)
Definition review_file `{DT : Datetime} (env : Env) (d : datetime) (ext : string) : string :=
  path_join (generated_dir env) ("literature_review_" +:+ strftime_compact d +:+ "." +:+ ext).

(** The number of tasks of a list that wait for the user *)
Definition waiting_tasks `{DT : Datetime} (l : list Task.t) : nat :=
  length (List.filter
            (fun task => bool_decide (Task.status task = TaskStatus.WAITING_USER)) l).

(** The attributes of a paper other than [summary] and [key_findings] *)
Definition paper_identity (p : Paper.t)
    : string * list string * option Z * option string * list string
      * option string * option string * gmap string json :=
  (Paper.title p, Paper.authors p, Paper.year p, Paper.abstract p, Paper.keywords p,
   Paper.filepath p, Paper.url p, Paper.metadata p).

(** These attributes for the papers of the agent, in the order of the
    list *)
Definition identities `{DT : Datetime} (s : Task.t * Agent)
    : list (string * list string * option Z * option string * list string
            * option string * option string * gmap string json) :=
  paper_identity <$> papers (snd s).

(** A task that the loop of [run_workflow] has gone past *)
Definition finished `{DT : Datetime} (task : Task.t) : Prop :=
  Task.status task = TaskStatus.COMPLETED /\ is_Some (Task.completed_at task).

(** A task as a failed execution leaves it *)
Definition failed `{DT : Datetime} (task : Task.t) : Prop :=
  Task.status task = TaskStatus.FAILED /\
  exists message, Task.result task = Some ("Error: " +:+ message).

(** A task as the constructor leaves it *)
Definition fresh_task `{DT : Datetime} (task : Task.t) : Prop :=
  Task.result task = None /\ Task.completed_at task = None /\ Task.metadata task = ∅ /\
  (Task.status task = TaskStatus.PENDING \/ Task.status task = TaskStatus.WAITING_USER).

(** The papers whose title is a string different from [title], case
    ignored *)
Definition other_title `{U : Unicode} (title : string) (paper : PaperJson.obj) : Prop :=
  exists s, PaperJson.o_title paper = JStr s /\ str_lower s <> str_lower title.

(** The paper as [update_paper_summary] leaves it *)
Definition with_summary (summary : string) (key_findings : list string) (p : Paper.t)
    : Paper.t :=
  let p := Paper.set_summary (Some summary) p in
  match key_findings with
  | [] => p
  | _ :: _ => Paper.set_key_findings key_findings p
  end.

(** The paper at position [j] of [l] is [q], and an earlier paper has
    its title, case ignored. *)
Definition shadowed (l : list Paper.t) (j : nat) (q : Paper.t) : Prop :=
  l !! j = Some q /\
  exists i p, i < j /\ l !! i = Some p /\
              PyStr.lower (Paper.title p) = PyStr.lower (Paper.title q).

(** ** More example data *)

Module Example2.

(** No request is answered. *)
Definition env_offline : Env :=
  mk_Env (fun _ _ => Raises "unreachable") Example.ticking (fun _ _ => None)
         (fun _ => "{}") "output/papers" "output/generated" "output".

(** An agent with nothing to read *)
Definition agent_silent : Agent :=
  mk_Agent None [] [] 0 [] [] (mk_FS ∅ ∅).

(** An agent that is running the workflow of the examples *)
Definition agent_running : Agent :=
  set_current_workflow (Some Example.workflow) Example.agent.

Definition task_outline : Task.t :=
  Task.new "task_4" "Create Outline" "Create a comprehensive outline"
           TaskStatus.PENDING Example.t0.

(** A manager without papers on an empty file system *)
Definition store : PaperStore.t :=
  PaperStore.mk "output/papers" [] (mk_FS ∅ ∅).

(** A metadata file whose second record has no title *)
Definition records : list json :=
  [JDict (PaperJson.to_dict (PaperJson.obj_of Example.paper_1)); JDict ∅].

Definition fs_bad_record : FS :=
  mk_FS {[ "output/papers/papers_metadata.json" := JsonDoc (JList records) ]} ∅.

(** The first paper of the examples under a title in capitals, and an
    agent that knows both *)
Definition paper_1_again : Paper.t :=
  Paper.mk "DEEP LEARNING IN MEDICAL IMAGING" ["Smith, J."] (Some 2023%Z)
           None [] None None None [] ∅.

Definition agent_duplicates : Agent :=
  mk_Agent None [Example.paper_1; paper_1_again] [] 0 [] [] (mk_FS ∅ ∅).

End Example2.

(** * Properties of the added code *)

(** ** The cursor of a workflow *)

Section CursorFacts.
Context `{DT : Datetime}.

Lemma next_task_tasks (w : Workflow.t) :
  Workflow.tasks (snd (Workflow.next_task w)) = Workflow.tasks w.
Proof. unfold Workflow.next_task. case_bool_decide; reflexivity. Qed.

Lemma next_task_iter_tasks (k : nat) (w : Workflow.t) :
  Workflow.tasks (Nat.iter k (fun w => snd (Workflow.next_task w)) w) = Workflow.tasks w.
Proof.
  induction k as [|k IH]; [reflexivity|].
  rewrite Nat.iter_succ. now rewrite next_task_tasks.
Qed.

Lemma next_task_iter_index (k : nat) (w : Workflow.t) :
  Workflow.current_task_index w = 0%Z ->
  Workflow.current_task_index (Nat.iter k (fun w => snd (Workflow.next_task w)) w)
    = Z.of_nat (k `min` (length (Workflow.tasks w) - 1)).
Proof.
  intros H0. induction k as [|k IH]; [cbn; now rewrite H0|].
  rewrite Nat.iter_succ. pose proof (next_task_iter_tasks k w) as Ht.
  set (w' := Nat.iter k _ w) in *. unfold Workflow.next_task.
  rewrite Ht, IH.
  case_bool_decide; cbn [snd Workflow.set_current_task_index Workflow.current_task_index];
    [|rewrite IH]; lia.
Qed.

(** X1. On a workflow whose cursor is at 0, [k] calls of [next_task]
    leave the cursor at [k], or at the last position when [k] is
    beyond it; [get_current_task] then returns the task at that
    position (nothing when there is no task), and one more call
    returns true exactly when a task is left after it. The cursor
    never passes the last task. *)
Theorem next_task_walk (w : Workflow.t) (k : nat) :
  Workflow.current_task_index w = 0%Z ->
  Workflow.current_task_index (Nat.iter k (fun w => snd (Workflow.next_task w)) w)
    = Z.of_nat (k `min` (length (Workflow.tasks w) - 1)) /\
  Workflow.get_current_task (Nat.iter k (fun w => snd (Workflow.next_task w)) w)
    = Workflow.tasks w !! (k `min` (length (Workflow.tasks w) - 1)) /\
  fst (Workflow.next_task (Nat.iter k (fun w => snd (Workflow.next_task w)) w))
    = bool_decide (S k < length (Workflow.tasks w)).
Proof.
  intros H0. pose proof (next_task_iter_index k w H0) as Hi.
  pose proof (next_task_iter_tasks k w) as Ht.
  set (w' := Nat.iter k _ w) in *.
  split; [exact Hi|]. split.
  - unfold Workflow.get_current_task. rewrite Ht, Hi, Nat2Z.id.
    case_bool_decide as Hr; [reflexivity|].
    symmetry. apply lookup_ge_None. lia.
  - unfold Workflow.next_task. rewrite Ht, Hi.
    case_bool_decide; case_bool_decide; cbn [fst]; try reflexivity; lia.
Qed.

(** X2. [add_task] appends: the current task of a workflow that has
    one stays the current task; when the cursor is just past the last
    task, the added task becomes the current one, and otherwise there
    is still none. The workflow is complete afterwards exactly when it
    was and the added task is COMPLETED, and the cursor does not
    move. *)
Theorem add_task_current (task : Task.t) (w : Workflow.t) :
  Workflow.get_current_task (Workflow.add_task task w) =
    match Workflow.get_current_task w with
    | Some current => Some current
    | None =>
        if bool_decide (Workflow.current_task_index w
                        = Z.of_nat (length (Workflow.tasks w)))
        then Some task else None
    end /\
  Workflow.is_complete (Workflow.add_task task w) =
    Workflow.is_complete w && bool_decide (Task.status task = TaskStatus.COMPLETED) /\
  Workflow.current_task_index (Workflow.add_task task w) = Workflow.current_task_index w.
Proof.
  split; [|split; [|reflexivity]].
  - unfold Workflow.get_current_task, Workflow.add_task.
    cbn [Workflow.set_tasks Workflow.tasks Workflow.current_task_index].
    rewrite length_app. cbn [length].
    set (i := Workflow.current_task_index w). set (l := Workflow.tasks w).
    destruct (decide (0 <= i < Z.of_nat (length l))%Z) as [Hin|Hout].
    + rewrite (bool_decide_eq_true_2 (0 <= i < Z.of_nat (length l + 1))%Z) by lia.
      rewrite (bool_decide_eq_true_2 _ Hin), lookup_app_l by lia.
      destruct (lookup_lt_is_Some_2 l (Z.to_nat i)) as [x Hx]; [lia|]. now rewrite Hx.
    + rewrite (bool_decide_eq_false_2 _ Hout).
      destruct (decide (i = Z.of_nat (length l))) as [Heq|Hne].
      * rewrite (bool_decide_eq_true_2 _ Heq), bool_decide_eq_true_2 by lia.
        rewrite lookup_app_r by lia.
        replace (Z.to_nat i - length l) with 0 by lia. reflexivity.
      * rewrite (bool_decide_eq_false_2 _ Hne), bool_decide_eq_false_2 by lia.
        reflexivity.
  - unfold Workflow.is_complete, Workflow.add_task. cbn [Workflow.set_tasks Workflow.tasks].
    rewrite forallb_app. cbn [forallb]. now rewrite andb_true_r.
Qed.

End CursorFacts.

(** ** What a run leaves alone *)

Section RunFrames.
Context `{DT : Datetime}.
Variable env : Env.
Context {X : Type} (obs : Agent -> X).
Hypothesis obs_requests : forall r a, obs (set_requests r a) = obs a.
Hypothesis obs_clock : forall n a, obs (set_clock_reads n a) = obs a.
Hypothesis obs_papers : forall p a, obs (set_papers p a) = obs a.
Hypothesis obs_stdout : forall o a, obs (set_stdout o a) = obs a.
Hypothesis obs_stdin : forall i a, obs (set_stdin i a) = obs a.
Hypothesis obs_metadata : forall w m a,
  current_workflow a = Some w ->
  obs (set_current_workflow (Some (Workflow.set_metadata m w)) a) = obs a.
Hypothesis obs_tasks : forall w l a,
  current_workflow a = Some w ->
  obs (set_current_workflow (Some (Workflow.set_tasks l w)) a) = obs a.

Lemma print_keeps (msg : string) (a : Agent) : obs (print msg a) = obs a.
Proof. apply obs_stdout. Qed.

Lemma print_result_keeps (task : Task.t) (a : Agent) :
  obs (TaskAgent.print_result task a) = obs a.
Proof.
  unfold TaskAgent.print_result.
  destruct (opt_nonempty (Task.result task)); [destruct (500 <? _)|];
    now rewrite !print_keeps.
Qed.

Lemma acknowledge_keeps (task : Task.t) (a : Agent) :
  obs (snd (snd (TaskAgent.acknowledge env task a))) = obs a.
Proof.
  unfold TaskAgent.acknowledge, TaskAgent.input.
  destruct (stdin (print _ _)); cbn [snd]; unfold now; cbn [snd];
    now rewrite ?obs_clock, ?obs_stdin, !print_keeps.
Qed.

Lemma visit_keeps (task : Task.t) (a : Agent) :
  obs (snd (snd (TaskAgent.visit env task a))) = obs a.
Proof.
  unfold TaskAgent.visit. case_bool_decide; [apply acknowledge_keeps|].
  pose proof (execute_task_keeps env obs obs_requests obs_clock obs_papers obs_metadata
                task a) as He.
  destruct (TaskAgent.execute_task env task a) as [[|] [task' a']]; cbn [negb snd] in *.
  - now rewrite print_result_keeps.
  - exact He.
Qed.

Lemma store_task_keeps (i : nat) (task : Task.t) (a : Agent) :
  obs (TaskAgent.store_task i task a) = obs a.
Proof.
  unfold TaskAgent.store_task.
  destruct (current_workflow a) eqn:Hw; [now apply obs_tasks | reflexivity].
Qed.

Lemma run_tasks_keeps (todo : list Task.t) :
  forall i a, obs (snd (TaskAgent.run_tasks env todo i a)) = obs a.
Proof.
  induction todo as [|task rest IH]; intros i a; [reflexivity|].
  rewrite run_tasks_cons. pose proof (visit_keeps task a) as Hv.
  destruct (TaskAgent.visit env task a) as [[[|]|e] [task' a']]; cbn [snd] in *;
    try rewrite IH; now rewrite store_task_keeps.
Qed.

End RunFrames.

Section RunFacts.
Context `{DT : Datetime}.
Variable env : Env.

Lemma run_tasks_header (todo : list Task.t) (i : nat) (a : Agent) :
  wf_header <$> current_workflow (snd (TaskAgent.run_tasks env todo i a))
    = wf_header <$> current_workflow a.
Proof.
  apply (run_tasks_keeps env (fun a => wf_header <$> current_workflow a));
    try reflexivity; intros w x a0 Hw; cbn; now rewrite Hw.
Qed.

Lemma run_workflow_unfold (w : Workflow.t) (a : Agent) :
  TaskAgent.run_workflow env w a =
  match TaskAgent.run_tasks env (Workflow.tasks w) 0 (set_current_workflow (Some w) a) with
  | (Returns true, a1) =>
      match current_workflow a1 with
      | Some w1 =>
          if bool_decide (workflow_path env w1 ∈ denied (fs a1))
          then (Raises OSError, set_fs (fs a1) a1)
          else (Returns true,
                set_fs (mk_FS (<[workflow_path env w1 := JsonDoc (JDict (Workflow.to_dict w1))]>
                                 (files (fs a1))) (denied (fs a1))) a1)
      | None => (Returns true, a1)
      end
  | (r, a1) => (r, a1)
  end.
Proof.
  unfold TaskAgent.run_workflow.
  destruct (TaskAgent.run_tasks env _ _ _) as [[[|]|e] a1]; try reflexivity.
  destruct (current_workflow a1) as [w1|]; [|reflexivity].
  unfold TaskAgent._save_workflow, Workflow.save, write_json, workflow_path.
  case_bool_decide; reflexivity.
Qed.

(** Whatever the outcome, the workflow passed to [run_workflow] is
    the current one afterwards, with its header and as many tasks. *)
Lemma run_workflow_current (w : Workflow.t) (a : Agent) :
  exists w',
    current_workflow (snd (TaskAgent.run_workflow env w a)) = Some w' /\
    wf_header w' = wf_header w /\
    length (Workflow.tasks w') = length (Workflow.tasks w).
Proof.
  pose proof (run_tasks_header (Workflow.tasks w) 0 (set_current_workflow (Some w) a)) as Hh.
  destruct (run_tasks_prefix env (Workflow.tasks w) 0 (set_current_workflow (Some w) a)
              (Workflow.tasks w) eq_refl) as (l & Hl & _ & Hlen).
  rewrite run_workflow_unfold.
  destruct (TaskAgent.run_tasks env _ _ _) as [r a1]. cbn [snd] in *.
  unfold wf_tasks in Hl.
  destruct (current_workflow a1) as [w1|] eqn:Hw1; [|discriminate].
  apply (f_equal (default (wf_header w))) in Hh. cbn in Hh, Hl. injection Hl as Hl.
  exists w1. split.
  { destruct r as [[|]|e]; [case_bool_decide|..]; exact Hw1. }
  split; [exact Hh|]. now rewrite Hl.
Qed.

(** X3. [run_workflow] never moves the cursor of the workflow: after
    the call, whatever its outcome, the agent's current workflow has the
    [current_task_index] that the workflow had, the same id, title,
    description and creation time, and as many tasks. *)
Theorem run_workflow_cursor (w : Workflow.t) (a : Agent) :
  exists w',
    current_workflow (snd (TaskAgent.run_workflow env w a)) = Some w' /\
    Workflow.current_task_index w' = Workflow.current_task_index w /\
    Workflow.id w' = Workflow.id w /\
    Workflow.title w' = Workflow.title w /\
    Workflow.description w' = Workflow.description w /\
    Workflow.created_at w' = Workflow.created_at w /\
    length (Workflow.tasks w') = length (Workflow.tasks w).
Proof.
  destruct (run_workflow_current w a) as (w' & Hw & Hh & Hlen).
  exists w'. unfold wf_header in Hh. injection Hh as -> -> -> -> ->.
  repeat split; assumption.
Qed.

Lemma visit_true_finished (task task' : Task.t) (a a' : Agent) :
  TaskAgent.visit env task a = (Returns true, (task', a')) -> finished task'.
Proof.
  unfold TaskAgent.visit, finished. case_bool_decide.
  - unfold TaskAgent.acknowledge, TaskAgent.input. cbn [print set_stdout stdin].
    destruct (stdin a); [discriminate|]. cbn. intros [= <- _]. now split.
  - unfold TaskAgent.execute_task.
    destruct (TaskAgent.run_handler env _ _) as [[r|e] [t1 a1]]; cbn; [|discriminate].
    intros [= <- _]. now split.
Qed.

Lemma visit_false_failed (task task' : Task.t) (a a' : Agent) :
  TaskAgent.visit env task a = (Returns false, (task', a')) -> failed task'.
Proof.
  unfold TaskAgent.visit, failed. case_bool_decide.
  - unfold TaskAgent.acknowledge, TaskAgent.input. cbn [print set_stdout stdin].
    destruct (stdin a); discriminate.
  - unfold TaskAgent.execute_task.
    destruct (TaskAgent.run_handler env _ _) as [[r|e] [t1 a1]]; cbn; [discriminate|].
    intros [= <- _]. split; [reflexivity|]. now exists e.
Qed.

(** The loop that runs to its end leaves a finished task at every
    position it visits and the other positions as they were. *)
Lemma run_tasks_finished (todo : list Task.t) :
  forall i a a' done rest,
    wf_tasks a = Some (done ++ todo ++ rest) ->
    length done = i ->
    TaskAgent.run_tasks env todo i a = (Returns true, a') ->
    exists visited,
      wf_tasks a' = Some (done ++ visited ++ rest) /\
      length visited = length todo /\ Forall finished visited.
Proof.
  induction todo as [|task todo IH]; intros i a a' done rest Hl Hi Hrun.
  - cbn in Hrun. injection Hrun as <-. exists []. now split.
  - rewrite run_tasks_cons in Hrun.
    pose proof (visit_wf_tasks env task a) as Hv.
    destruct (TaskAgent.visit env task a) as [r [task' a1]] eqn:Hvis. cbn [snd] in Hv.
    destruct r as [[|]|e]; try discriminate.
    apply visit_true_finished in Hvis.
    assert (Hs : wf_tasks (TaskAgent.store_task i task' a1)
                 = Some ((done ++ [task']) ++ todo ++ rest)).
    { rewrite store_task_wf_tasks, Hv, Hl. cbn [fmap option_fmap option_map]. f_equal.
      rewrite <- Hi, <- (Nat.add_0_r (length done)), insert_app_r.
      now rewrite <- app_assoc. }
    destruct (IH (S i) _ _ _ _ Hs ltac:(rewrite length_app; cbn; lia) Hrun)
      as (visited & Hw & Hlen & Hall).
    exists (task' :: visited). split; [|split].
    + rewrite Hw, <- app_assoc. reflexivity.
    + cbn. now rewrite Hlen.
    + now constructor.
Qed.

(** The loop that returns false has stopped at a task that it leaves
    failed: the positions before it hold finished tasks and the
    positions after it are as they were. *)
Lemma run_tasks_false (todo : list Task.t) :
  forall i a a' done rest,
    wf_tasks a = Some (done ++ todo ++ rest) ->
    length done = i ->
    TaskAgent.run_tasks env todo i a = (Returns false, a') ->
    exists pre task post visited task',
      todo = pre ++ task :: post /\
      wf_tasks a' = Some (done ++ visited ++ task' :: post ++ rest) /\
      length visited = length pre /\ Forall finished visited /\ failed task'.
Proof.
  induction todo as [|task todo IH]; intros i a a' done rest Hl Hi Hrun.
  - discriminate.
  - rewrite run_tasks_cons in Hrun.
    pose proof (visit_wf_tasks env task a) as Hv.
    destruct (TaskAgent.visit env task a) as [r [task' a1]] eqn:Hvis. cbn [snd] in Hv.
    assert (Hs : wf_tasks (TaskAgent.store_task i task' a1)
                 = Some ((done ++ [task']) ++ todo ++ rest)).
    { rewrite store_task_wf_tasks, Hv, Hl. cbn [fmap option_fmap option_map]. f_equal.
      rewrite <- Hi, <- (Nat.add_0_r (length done)), insert_app_r.
      now rewrite <- app_assoc. }
    destruct r as [[|]|e]; try discriminate.
    + apply visit_true_finished in Hvis.
      destruct (IH (S i) _ _ _ _ Hs ltac:(rewrite length_app; cbn; lia) Hrun)
        as (pre & t & post & visited & t' & -> & Hw & Hlen & Hall & Hfail).
      exists (task :: pre), t, post, (task' :: visited), t'.
      split; [reflexivity|]. split; [now rewrite Hw, <- app_assoc|].
      split; [cbn; now rewrite Hlen|]. split; [now constructor | exact Hfail].
    + apply visit_false_failed in Hvis. injection Hrun as <-.
      exists [], task, todo, [], task'.
      split; [reflexivity|]. split; [now rewrite Hs, <- app_assoc|].
      split; [reflexivity|]. split; [constructor | exact Hvis].
Qed.

(** X4. When [run_workflow] returns true, every task of the current
    workflow is COMPLETED and has its completion time, so that
    [is_complete] holds. *)
Theorem run_workflow_success (w : Workflow.t) (a : Agent) :
  fst (TaskAgent.run_workflow env w a) = Returns true ->
  exists w',
    current_workflow (snd (TaskAgent.run_workflow env w a)) = Some w' /\
    length (Workflow.tasks w') = length (Workflow.tasks w) /\
    Forall finished (Workflow.tasks w') /\
    Workflow.is_complete w' = true.
Proof.
  pose proof (run_tasks_finished (Workflow.tasks w) 0 (set_current_workflow (Some w) a))
    as Hc.
  rewrite run_workflow_unfold.
  destruct (TaskAgent.run_tasks env _ _ _) as [r a1]. cbn [snd] in *.
  destruct r as [[|]|e]; cbn [fst]; try discriminate.
  destruct (Hc a1 [] []) as (visited & Hw & Hlen & Hall);
    [unfold wf_tasks; cbn; now rewrite app_nil_r | reflexivity | reflexivity |].
  unfold wf_tasks in Hw.
  destruct (current_workflow a1) as [w1|] eqn:Hw1; [|discriminate].
  cbn in Hw. injection Hw as Hw. rewrite app_nil_r in Hw.
  case_bool_decide as Hden; cbn [fst snd]; [discriminate|]. intros _.
  exists w1. cbn [current_workflow set_fs]. rewrite Hw. split; [exact Hw1|].
  split; [exact Hlen|]. split; [exact Hall|].
  unfold Workflow.is_complete. rewrite Hw. clear -Hall.
  induction Hall as [|x l [Hx _] _ IH]; [reflexivity|].
  cbn [forallb]. now rewrite (bool_decide_eq_true_2 _ Hx).
Qed.

(** X31. When [run_workflow] returns false, the current workflow shows
    where the run stopped: one task is FAILED with a result that starts
    with "Error: ", the tasks before it are COMPLETED with their
    completion time, and the tasks after it are the tasks that the
    workflow had there, untouched. [is_complete] does not hold. *)
Theorem run_workflow_stops_at_failure (w : Workflow.t) (a : Agent) :
  fst (TaskAgent.run_workflow env w a) = Returns false ->
  exists w' pre task post done task',
    current_workflow (snd (TaskAgent.run_workflow env w a)) = Some w' /\
    Workflow.tasks w = pre ++ task :: post /\
    Workflow.tasks w' = done ++ task' :: post /\
    length done = length pre /\ Forall finished done /\ failed task' /\
    Workflow.is_complete w' = false.
Proof.
  pose proof (run_tasks_false (Workflow.tasks w) 0 (set_current_workflow (Some w) a)) as Hc.
  rewrite run_workflow_unfold.
  destruct (TaskAgent.run_tasks env _ _ _) as [r a1]. cbn [snd] in *.
  destruct r as [[|]|e]; cbn [fst]; try discriminate.
  { destruct (current_workflow a1); [case_bool_decide|]; discriminate. }
  intros _.
  destruct (Hc a1 [] []) as (pre & task & post & done & task' & Ht & Hw & Hlen & Hall & Hf);
    [unfold wf_tasks; cbn; now rewrite app_nil_r | reflexivity | reflexivity |].
  unfold wf_tasks in Hw. cbn [snd].
  destruct (current_workflow a1) as [w1|] eqn:Hw1; [|discriminate].
  cbn in Hw. injection Hw as Hw. rewrite app_nil_r in Hw.
  exists w1, pre, task, post, done, task'. repeat split; try assumption.
  - apply Hf.
  - apply Hf.
  - unfold Workflow.is_complete. rewrite Hw. apply not_true_is_false. intros Hall'.
    rewrite forallb_forall in Hall'.
    assert (Hin : In task' (done ++ task' :: post)) by (apply in_or_app; right; now left).
    apply Hall' in Hin. apply bool_decide_eq_true_1 in Hin.
    destruct Hf as [Hst _]. rewrite Hst in Hin. discriminate.
Qed.

End RunFacts.

(** ** The executor and the handlers *)

Section ExecutorMore.
Context `{DT : Datetime}.
Variable env : Env.

Lemma generate_nonempty (p : string) (m : Z) (a : Agent) (text : string) :
  fst (generate env p m a) = Returns text -> PyStr.nonempty text = true.
Proof.
  unfold generate. destruct (generate_content env _ _) as [t|msg]; [|discriminate].
  destruct (PyStr.nonempty t) eqn:Ht; cbn; [|discriminate].
  now intros [= <-].
Qed.

Lemma h_generate_nonempty (p : string) (m : Z) (s : Task.t * Agent) (text : string) :
  fst (h_generate env p m s) = Returns text -> PyStr.nonempty text = true.
Proof.
  unfold h_generate. intros H. apply (generate_nonempty p m (snd s)).
  now destruct (generate env p m (snd s)).
Qed.

Lemma run_handler_nonempty (h : TaskAgent.handler) (s : Task.t * Agent) (text : string) :
  fst (TaskAgent.run_handler env h s) = Returns text -> PyStr.nonempty text = true.
Proof.
  destruct s as [task a]. destruct h; cbn [TaskAgent.run_handler].
  - unfold TaskAgent._handle_paper_collection, se_bind, get_agent. cbn [fst snd].
    destruct (h_generate env _ _ _) as [[r|e] s1]; [|discriminate].
    cbn. now intros [= <-].
  - cbn. now intros [= <-].
  - rewrite handle_paper_analysis_unfold.
    destruct (papers a); [now intros [= <-]|].
    destruct (TaskAgent.analyze_papers env _ _ _) as [[sections|e] [t1 a1]];
      [|discriminate].
    cbn. now intros [= <-].
  - unfold TaskAgent._handle_outline_creation, se_bind, get_agent. cbn [fst snd].
    destruct (h_generate env _ _ _) as [[r|e] s1] eqn:Hg; [|discriminate].
    cbn. intros [= <-]. apply (h_generate_nonempty _ _ _ _ (f_equal fst Hg)).
  - unfold TaskAgent._handle_writing, se_bind, get_agent, get_task. cbn [fst snd].
    destruct (h_generate env _ _ _) as [[r|e] s1]; [|discriminate].
    cbn [fst snd]. destruct (h_now env s1) as [[d|e] s2] eqn:Hn; [|discriminate].
    destruct (se_lift (generate_all_formats env _ _) s2) as [[files|e] s3]; [|discriminate].
    cbn. now intros [= <-].
  - unfold TaskAgent._handle_generic_task, se_bind, get_task. cbn [fst snd].
    apply h_generate_nonempty.
Qed.

Lemma h_generate_task (p : string) (m : Z) (s : Task.t * Agent) :
  fst (snd (h_generate env p m s)) = fst s.
Proof. unfold h_generate. now destruct (generate env p m (snd s)). Qed.

(** A handler that raises has not touched the task. *)
Lemma run_handler_raises (h : TaskAgent.handler) (task : Task.t) (a : Agent) (e : string) :
  fst (TaskAgent.run_handler env h (task, a)) = Raises e ->
  fst (snd (TaskAgent.run_handler env h (task, a))) = task.
Proof.
  destruct h; cbn [TaskAgent.run_handler].
  - unfold TaskAgent._handle_paper_collection, se_bind, get_agent. cbn [fst snd].
    match goal with |- context [h_generate env ?p ?m ?s] =>
      pose proof (h_generate_task p m s) as Ht;
      destruct (h_generate env p m s) as [[r|e1] [t1 a1]] end; [cbn; discriminate|].
    intros _. exact Ht.
  - cbn. discriminate.
  - rewrite handle_paper_analysis_unfold.
    destruct (papers a) as [|paper rest]; [discriminate|].
    destruct (analyze_papers_spec env (paper :: rest) [] task a) as (a'' & Ha' & _).
    rewrite Ha'. discriminate.
  - unfold TaskAgent._handle_outline_creation, se_bind, get_agent. cbn [fst snd].
    match goal with |- context [h_generate env ?p ?m ?s] =>
      pose proof (h_generate_task p m s) as Ht;
      destruct (h_generate env p m s) as [[r|e1] [t1 a1]] end; [cbn; discriminate|].
    intros _. exact Ht.
  - unfold TaskAgent._handle_writing, se_bind, get_agent, get_task. cbn [fst snd].
    match goal with |- context [h_generate env ?p ?m ?s] =>
      pose proof (h_generate_task p m s) as Ht;
      destruct (h_generate env p m s) as [[r|e1] [t1 a1]] end;
      [|intros _; exact Ht].
    cbn [fst snd] in *. unfold h_now, now, se_lift. cbn [fst snd].
    destruct (generate_all_formats env _ _) as [files|msg]; [cbn; discriminate|].
    intros _. exact Ht.
  - unfold TaskAgent._handle_generic_task, se_bind, get_task. cbn [fst snd].
    intros _. apply h_generate_task.
Qed.

(** X7. Whatever the task and the agent, the task leaves
    [execute_task] with a result that is not empty: every handler
    returns a non-empty text, and a failure leaves the error text. The
    id, the title, the description and the creation time of the task
    are kept, and the executor makes no call of [print] or [input]. *)
Theorem execute_task_result_nonempty (task : Task.t) (a : Agent) :
  opt_nonempty (Task.result (fst (snd (TaskAgent.execute_task env task a)))) = true /\
  Task.id (fst (snd (TaskAgent.execute_task env task a))) = Task.id task /\
  Task.title (fst (snd (TaskAgent.execute_task env task a))) = Task.title task /\
  Task.description (fst (snd (TaskAgent.execute_task env task a))) = Task.description task /\
  Task.created_at (fst (snd (TaskAgent.execute_task env task a))) = Task.created_at task /\
  stdout (snd (snd (TaskAgent.execute_task env task a))) = stdout a /\
  stdin (snd (snd (TaskAgent.execute_task env task a))) = stdin a.
Proof.
  split.
  { unfold TaskAgent.execute_task.
    destruct (TaskAgent.run_handler env _ _) as [[r|e] [t1 a1]] eqn:Hr; cbn.
    - apply (run_handler_nonempty _ _ _ (f_equal fst Hr)).
    - reflexivity. }
  assert (Hk : forall {X} (f : Task.t -> X),
             (forall st t, f (Task.set_status st t) = f t) ->
             (forall m t, f (Task.set_metadata m t) = f t) ->
             (forall r t, f (Task.set_result r t) = f t) ->
             (forall c t, f (Task.set_completed_at c t) = f t) ->
             f (fst (snd (TaskAgent.execute_task env task a))) = f task).
  { intros X f H1 H2 H3 H4. unfold TaskAgent.execute_task.
    pose proof (run_handler_keeps env (fun s => f (fst s))
                  ltac:(intros; apply H1) ltac:(intros; apply H2)
                  ltac:(reflexivity) ltac:(reflexivity) ltac:(reflexivity)
                  ltac:(reflexivity)
                  (TaskAgent.route (Task.title (Task.set_status TaskStatus.IN_PROGRESS task)))
                  (Task.set_status TaskStatus.IN_PROGRESS task, a)) as Hh.
    destruct (TaskAgent.run_handler env _ _) as [[r|e] [t1 a1]]; cbn [fst snd] in *.
    - unfold now. cbn [fst snd]. now rewrite H4, H1, H3, Hh, H1.
    - now rewrite H3, H1, Hh, H1. }
  split; [now apply Hk|]. split; [now apply Hk|]. split; [now apply Hk|].
  split; [now apply Hk|].
  split; [apply (execute_task_keeps env stdout) | apply (execute_task_keeps env stdin)];
    reflexivity.
Qed.

(** X8. When [execute_task] returns false, the handler raised, and
    the task differs from the one passed only by the status FAILED and
    the result "Error: " followed by the message: a handler that raises
    has stored nothing in the metadata of the task. *)
Theorem failed_execution_keeps_task (task : Task.t) (a : Agent) :
  fst (TaskAgent.execute_task env task a) = false ->
  exists e,
    fst (TaskAgent.run_handler env (TaskAgent.route (Task.title task))
           (Task.set_status TaskStatus.IN_PROGRESS task, a)) = Raises e /\
    fst (snd (TaskAgent.execute_task env task a))
      = Task.set_result (Some ("Error: " +:+ e)) (Task.set_status TaskStatus.FAILED task).
Proof.
  unfold TaskAgent.execute_task.
  change (Task.title (Task.set_status TaskStatus.IN_PROGRESS task)) with (Task.title task).
  pose proof (run_handler_raises (TaskAgent.route (Task.title task))
                (Task.set_status TaskStatus.IN_PROGRESS task) a) as Hr.
  destruct (TaskAgent.run_handler env _ _) as [[r|e] [t1 a1]]; cbn [fst snd] in *;
    [discriminate|].
  intros _. exists e. split; [reflexivity|]. rewrite (Hr e eq_refl). reflexivity.
Qed.

(** The outline handler as one step *)
Lemma handle_outline_returns (task : Task.t) (a : Agent) (outline : string) :
  fst (TaskAgent._handle_outline_creation env (task, a)) = Returns outline ->
  exists a1,
    snd (TaskAgent._handle_outline_creation env (task, a)) =
      (Task.set_metadata (<["outline" := JStr outline]> (Task.metadata task)) task,
       match current_workflow a with
       | Some w =>
           set_current_workflow
             (Some (Workflow.set_metadata
                      (<["outline" := JStr outline]> (Workflow.metadata w)) w)) a1
       | None => a1
       end) /\
    current_workflow a1 = current_workflow a /\ papers a1 = papers a /\
    length (requests a1) = S (length (requests a)).
Proof.
  unfold TaskAgent._handle_outline_creation, se_bind, get_agent. cbn [fst snd].
  unfold h_generate. cbn [fst snd].
  set (p := lines _).
  assert (Hg : current_workflow (snd (generate env p 2048 a)) = current_workflow a /\
               papers (snd (generate env p 2048 a)) = papers a /\
               length (requests (snd (generate env p 2048 a))) = S (length (requests a))).
  { unfold generate. destruct (generate_content env _ _) as [t|msg];
      [destruct (PyStr.nonempty t)|]; cbn; rewrite length_app; cbn; repeat split; lia. }
  destruct (generate env p 2048 a) as [[r|e] a1]; [|discriminate].
  cbn [fst snd] in *. intros [= <-]. exists a1.
  destruct Hg as (Hw & Hp & Hr).
  split; [|now split]. unfold modify_agent, set_task_metadata, modify_task, se_modify, se_ret.
  cbn [fst snd]. now rewrite Hw.
Qed.

(** X9. When the outline handler returns an outline, that text is not
    empty and is stored in the metadata of the task; with a current
    workflow it is also the outline that the writing handler reads for
    any task afterwards, and without one the writing handler reads what
    it read before: the outline reaches a later task only through the
    workflow. *)
Theorem outline_reaches_writing (task : Task.t) (a : Agent) (outline : string) :
  fst (TaskAgent._handle_outline_creation env (task, a)) = Returns outline ->
  (forall later,
     TaskAgent.stored_outline env later
       (snd (snd (TaskAgent._handle_outline_creation env (task, a)))) =
     match current_workflow a with
     | Some _ => outline
     | None => TaskAgent.stored_outline env later a
     end) /\
  Task.metadata (fst (snd (TaskAgent._handle_outline_creation env (task, a))))
    !! "outline" = Some (JStr outline) /\
  PyStr.nonempty outline = true.
Proof.
  intros Hret.
  destruct (handle_outline_returns task a outline Hret) as (a1 & Hsnd & Hw1 & _).
  rewrite Hsnd. cbn [fst snd]. split; [|split].
  - intros later. unfold TaskAgent.stored_outline.
    destruct (current_workflow a) as [w|] eqn:Hw.
    + cbn [current_workflow set_current_workflow Workflow.metadata Workflow.set_metadata].
      now rewrite lookup_insert_eq.
    + now rewrite Hw1.
  - cbn [Task.metadata Task.set_metadata]. apply lookup_insert_eq.
  - revert Hret. unfold TaskAgent._handle_outline_creation, se_bind, get_agent.
    cbn [fst snd]. destruct (h_generate env _ _ _) as [[r|e] s1] eqn:Hg; [|discriminate].
    cbn. intros [= <-]. apply (h_generate_nonempty _ _ _ _ (f_equal fst Hg)).
Qed.

Lemma contains_join (sep x : string) (l : list string) :
  In x l -> PyStr.contains x (PyStr.join sep l) = true.
Proof.
  induction l as [|y l IH]; [contradiction|].
  intros [->|Hin].
  - destruct l as [|z l]; cbn [PyStr.join].
    + apply contains_prefix. rewrite <- (append_empty_r x) at 2. apply prefix_append.
    + apply contains_prefix, prefix_append.
  - destruct l as [|z l]; [contradiction|].
    cbn [PyStr.join]. apply contains_append_l, contains_append_l. now apply IH.
Qed.

(** X27. When the writing handler returns, it has sent one request, for
    at most 4096 tokens, whose prompt holds the outline stored for the
    task and the summary of the papers; it has read the clock once,
    after the answer; the metadata of the task hold the text of the
    review and the paths of the three files, named after that time in
    the directory of the generated documents; and the result lists
    them as MD, DOCX and PDF. *)
Theorem writing_handler_files (task : Task.t) (a : Agent) :
  returned (fst (TaskAgent._handle_writing env (task, a))) = true ->
  exists review r,
    requests (snd (snd (TaskAgent._handle_writing env (task, a)))) = requests a ++ [r] /\
    max_output_tokens r = 4096%Z /\
    PyStr.contains (TaskAgent.stored_outline env task a) (prompt r) = true /\
    PyStr.contains (PaperManager.generate_papers_summary (papers a)) (prompt r) = true /\
    clock_reads (snd (snd (TaskAgent._handle_writing env (task, a)))) = S (clock_reads a) /\
    Task.metadata (fst (snd (TaskAgent._handle_writing env (task, a))))
      = <["review_content" := JStr review]>
          (<["output_files" :=
               JDict (<["md" := JStr (review_file env (clock env (clock_reads a)) "md")]>
                     (<["docx" := JStr (review_file env (clock env (clock_reads a)) "docx")]>
                     (<["pdf" := JStr (review_file env (clock env (clock_reads a)) "pdf")]>
                        ∅)))]>
             (Task.metadata task)) /\
    fst (TaskAgent._handle_writing env (task, a)) =
      Returns ("Literature review completed!" +:+ PyStr.nl +:+ PyStr.nl +:+
               "Generated files:" +:+ PyStr.nl +:+
               "- MD: " +:+ review_file env (clock env (clock_reads a)) "md" +:+ PyStr.nl +:+
               "- DOCX: " +:+ review_file env (clock env (clock_reads a)) "docx"
               +:+ PyStr.nl +:+
               "- PDF: " +:+ review_file env (clock env (clock_reads a)) "pdf" +:+ PyStr.nl).
Proof.
  unfold TaskAgent._handle_writing, se_bind, get_agent, get_task. cbn [fst snd].
  unfold h_generate, generate. cbn [fst snd].
  set (p := lines _).
  destruct (generate_content env (length (requests a)) (mk_request p 4096)) as [review|msg];
    [|discriminate].
  destruct (PyStr.nonempty review); [|discriminate].
  cbn [fst snd]. unfold h_now, now, se_lift, generate_all_formats. cbn [fst snd clock_reads].
  destruct (render_failure env review _) as [msg|]; [discriminate|].
  cbn. intros _. exists review, (mk_request p 4096).
  split; [reflexivity|]. split; [reflexivity|].
  split; [apply contains_join; cbn; tauto|]. split; [apply contains_join; cbn; tauto|].
  split; [reflexivity|]. split; reflexivity.
Qed.

(** X6. Let the run reach a task whose status is WAITING_USER with
    nothing left to read. Then [run_workflow] raises EOFError; the task
    and the tasks after it are the objects they were, the task still
    WAITING_USER. *)
Theorem waiting_task_eof (w : Workflow.t) (a : Agent)
    (pre : list Task.t) (task : Task.t) (post : list Task.t) :
  Workflow.tasks w = pre ++ task :: post ->
  fst (run_prefix env w a pre) = Returns true ->
  Task.status task = TaskStatus.WAITING_USER ->
  stdin (snd (run_prefix env w a pre)) = [] ->
  fst (TaskAgent.run_workflow env w a) = Raises EOFError /\
  exists l,
    wf_tasks (snd (TaskAgent.run_workflow env w a)) = Some l /\
    l !! length pre = Some task /\
    drop (length pre) l = task :: post.
Proof.
  unfold run_prefix. intros Htasks Hrun Hwait Hin.
  destruct (run_tasks_reaches env w a pre (task :: post) Htasks Hrun)
    as (done & Hdone & Hlen & _).
  destruct (TaskAgent.run_tasks env pre 0 (set_current_workflow (Some w) a))
    as [r a1] eqn:Hpre.
  cbn [fst snd] in *. subst r.
  assert (Hvisit : exists a2,
            TaskAgent.visit env task a1 = (Raises EOFError, (task, a2)) /\
            current_workflow a2 = current_workflow a1).
  { unfold TaskAgent.visit. rewrite bool_decide_eq_true_2 by exact Hwait.
    unfold TaskAgent.acknowledge, TaskAgent.input. cbn [print set_stdout stdin].
    rewrite Hin. eexists. split; reflexivity. }
  destruct Hvisit as (a2 & Hvisit & Hw2).
  assert (Hrun' : TaskAgent.run_workflow env w a
                  = (Raises EOFError, TaskAgent.store_task (length pre) task a2)).
  { unfold TaskAgent.run_workflow. rewrite Htasks, run_tasks_app, Hpre. cbn [Nat.add].
    rewrite run_tasks_cons, Hvisit. reflexivity. }
  rewrite Hrun'. cbn [fst snd]. split; [reflexivity|].
  exists (done ++ task :: post).
  assert (Hl : wf_tasks (TaskAgent.store_task (length pre) task a2)
               = Some (done ++ task :: post)).
  { rewrite store_task_wf_tasks. unfold wf_tasks in *. rewrite Hw2, Hdone.
    cbn [fmap option_fmap option_map]. f_equal.
    rewrite <- Hlen, <- (Nat.add_0_r (length done)), insert_app_r. reflexivity. }
  split; [exact Hl|]. rewrite <- Hlen. split.
  - rewrite lookup_app_r by lia. now rewrite Nat.sub_diag.
  - rewrite drop_app_length. reflexivity.
Qed.

End ExecutorMore.

(** ** Reading a record twice *)

Section TwiceFacts.
Context `{DT : Datetime}.

(** X10. A record can be read once. When [from_dict] returns on a
    dictionary, a second call on the same dictionary raises TypeError,
    since the first call left a datetime where the second expects a
    string, and it changes the dictionary no further. *)
Theorem from_dict_twice (now : datetime) (data : gmap string pyval) :
  returned (fst (Task.from_dict now data)) = true ->
  fst (Task.from_dict now (snd (Task.from_dict now data))) = Raises TypeError /\
  snd (Task.from_dict now (snd (Task.from_dict now data))) = snd (Task.from_dict now data).
Proof.
  intros Hret.
  destruct (from_dict_returns now data Hret)
    as (v & s & w & c & u & Hv & Hs & Hw & Hc & Hu & Hsnd & _ & _).
  set (data' := snd (Task.from_dict now data)) in *.
  assert (Hst : data' !! "status" = Some (VStatus s)).
  { rewrite Hsnd. destruct (truthy u); [destruct (datetime_fromisoformat u)|];
      cbn [id]; rewrite ?lookup_insert_ne by done; apply lookup_insert_eq. }
  assert (Hcr : data' !! "created_at" = Some (VDatetime c)).
  { rewrite Hsnd. destruct (truthy u); [destruct (datetime_fromisoformat u)|];
      cbn [id]; rewrite ?lookup_insert_ne by done; apply lookup_insert_eq. }
  rewrite from_dict_unfold, Hst. cbn [TaskStatus_call].
  rewrite Hcr. cbn [datetime_fromisoformat fst snd].
  split; [reflexivity|].
  apply insert_id. exact Hst.
Qed.

End TwiceFacts.

(** ** Splitting at a separator *)

Section SplitFacts.

Lemma split_once_none (sep s : string) :
  PyStr.contains sep s = false -> PyStrExt.split_once sep s = None.
Proof.
  induction s as [|c s IH]; cbn [PyStr.contains PyStrExt.split_once].
  - rewrite orb_false_r. now intros ->.
  - intros H. apply orb_false_iff in H as [-> H]. now rewrite IH.
Qed.

Lemma split_last_none (sep s : string) :
  PyStr.contains sep s = false -> PyStrExt.split_last sep s = s.
Proof. intros H. unfold PyStrExt.split_last. now rewrite split_once_none. Qed.

(** A separator of two different characters that does not occur in [x]
    occurs in [x +:+ sep +:+ y] first at the end of [x]. *)
Lemma split_once_at (c1 c2 : ascii) (x y : string) :
  c1 <> c2 ->
  PyStr.contains (String c1 (String c2 EmptyString)) x = false ->
  PyStrExt.split_once (String c1 (String c2 EmptyString))
    (x +:+ String c1 (String c2 EmptyString) +:+ y) = Some (x, y).
Proof.
  intros Hne. induction x as [|c x IH]; intros Hx.
  - change (EmptyString +:+ String c1 (String c2 EmptyString) +:+ y)
      with (String c1 (String c2 y)).
    cbn [PyStrExt.split_once String.prefix].
    destruct (ascii_dec c1 c1); [|congruence].
    destruct (ascii_dec c2 c2); [|congruence].
    now destruct y.
  - change (String c x +:+ String c1 (String c2 EmptyString) +:+ y)
      with (String c (x +:+ String c1 (String c2 EmptyString) +:+ y)).
    cbn [PyStr.contains] in Hx. apply orb_false_iff in Hx as [Hp Hx].
    cbn [PyStrExt.split_once]. rewrite (IH Hx).
    replace (String.prefix (String c1 (String c2 EmptyString))
               (String c (x +:+ String c1 (String c2 EmptyString) +:+ y)))
      with false; [reflexivity|].
    symmetry. cbn [String.prefix] in *.
    destruct (ascii_dec c1 c); [|reflexivity].
    destruct x as [|c' x'].
    + change (EmptyString +:+ String c1 (String c2 EmptyString) +:+ y)
        with (String c1 (String c2 y)).
      cbn [String.prefix].
      destruct (ascii_dec c2 c1); [congruence | reflexivity].
    + change (String c' x' +:+ String c1 (String c2 EmptyString) +:+ y)
        with (String c' (x' +:+ String c1 (String c2 EmptyString) +:+ y)).
      cbn [String.prefix] in *.
      destruct (ascii_dec c2 c'); [|reflexivity].
      destruct x'; discriminate.
Qed.

End SplitFacts.

(** ** Planning *)

Section PlanningFacts.
Context `{DT : Datetime} `{U : Unicode}.
Variable env : Env.

Lemma set_clock_reads_same (a : Agent) : set_clock_reads (clock_reads a + 0) a = a.
Proof. destruct a. unfold set_clock_reads. cbn. now rewrite Nat.add_0_r. Qed.

Lemma parse_lines_spec (todo : list string) :
  forall task_num tasks a,
    Planning.parse_lines env todo task_num tasks a =
    (tasks ++ numbered_tasks env task_num (clock_reads a) (omap Planning.subtask_of_line todo),
     set_clock_reads (clock_reads a + length (omap Planning.subtask_of_line todo)) a).
Proof.
  induction todo as [|line rest IH]; intros task_num tasks a.
  - cbn. now rewrite app_nil_r, set_clock_reads_same.
  - cbn [Planning.parse_lines omap list_omap].
    destruct (Planning.subtask_of_line line) as [[title description]|]; [|apply IH].
    unfold Planning.new_task, now. rewrite IH.
    cbn [clock_reads set_clock_reads length]. f_equal.
    + rewrite <- app_assoc. f_equal. unfold numbered_tasks. cbn [imap app].
      rewrite !Nat.add_0_r. f_equal. apply imap_ext. intros i td _. cbn.
      now rewrite !Nat.add_succ_r.
    + destruct a. unfold set_clock_reads. cbn. f_equal. lia.
Qed.

(** X11. [_parse_subtasks] numbers the tasks by the lines it accepts,
    not by the numbers written in the text: the tasks are the titles
    and descriptions read from the accepted lines, in order, with the
    ids task_1, task_2, ..., the status PENDING and the successive
    values of the clock; when no line is accepted the result is the
    default tasks. *)
Theorem parse_subtasks_numbering (response : string) (a : Agent) :
  Planning._parse_subtasks env response a =
    match omap Planning.subtask_of_line
            (PyStr.split (ascii_of_nat 10) (str_strip response)) with
    | [] => Planning._get_default_review_tasks env a
    | parsed =>
        (numbered_tasks env 1 (clock_reads a) parsed,
         set_clock_reads (clock_reads a + length parsed) a)
    end.
Proof.
  unfold Planning._parse_subtasks. rewrite parse_lines_spec. cbn [app].
  destruct (omap _ _) as [|td parsed]; [|reflexivity].
  cbn [numbered_tasks imap length]. now rewrite set_clock_reads_same.
Qed.

(** X12. A line of the requested format, a number, ". ", a title, ": "
    and a description, gives that title and that description, when
    [strip] leaves the line as it is, its first character is a digit,
    the number holds no ". ", the title holds no ") " and ": " does not
    occur before the description. *)
Theorem subtask_of_line_numbered (number title description : string) :
  str_strip (number +:+ ". " +:+ title +:+ ": " +:+ description)
    = number +:+ ". " +:+ title +:+ ": " +:+ description ->
  head_isdigit (number +:+ ". " +:+ title +:+ ": " +:+ description) = true ->
  PyStr.contains ": " (number +:+ ". " +:+ title) = false ->
  PyStr.contains ". " number = false ->
  PyStr.contains ") " title = false ->
  Planning.subtask_of_line (number +:+ ". " +:+ title +:+ ": " +:+ description)
    = Some (title, description).
Proof.
  intros Hstrip Hd Hhead Hnum Htitle.
  unfold Planning.subtask_of_line. rewrite Hstrip, Hd.
  replace (PyStr.nonempty (number +:+ ". " +:+ title +:+ ": " +:+ description))
    with true by now destruct number.
  rewrite (contains_middle ". " number (title +:+ ": " +:+ description)).
  cbn [negb andb orb].
  replace (number +:+ ". " +:+ title +:+ ": " +:+ description)
    with ((number +:+ ". " +:+ title) +:+ ": " +:+ description)
    by now rewrite !append_assoc.
  rewrite (split_once_at ":" " " _ description ltac:(discriminate) Hhead).
  unfold PyStrExt.split_last at 2.
  rewrite (split_once_at "." " " number title ltac:(discriminate) Hnum).
  now rewrite split_last_none.
Qed.

Lemma default_tasks_spec (a : Agent) :
  snd (Planning._get_default_review_tasks env a) = set_clock_reads (clock_reads a + 5) a /\
  Task.title <$> fst (Planning._get_default_review_tasks env a)
    = ["Collect Relevant Papers"; "Upload Papers"; "Analyze Papers"; "Create Outline";
       "Write Literature Review"] /\
  Task.status <$> fst (Planning._get_default_review_tasks env a)
    = [TaskStatus.PENDING; TaskStatus.WAITING_USER; TaskStatus.PENDING;
       TaskStatus.PENDING; TaskStatus.PENDING] /\
  Forall (fun task => Task.result task = None /\ Task.completed_at task = None /\
                      Task.metadata task = ∅)
         (fst (Planning._get_default_review_tasks env a)).
Proof.
  unfold Planning._get_default_review_tasks, Planning.new_task, now.
  cbn [fst snd clock_reads set_clock_reads]. split; [|split; [|split]].
  - destruct a. unfold set_clock_reads. cbn. f_equal. lia.
  - reflexivity.
  - reflexivity.
  - repeat constructor.
Qed.

Lemma numbered_tasks_fresh (first reads : nat) (parsed : list (string * string)) :
  Forall (fun task => Task.result task = None /\ Task.completed_at task = None /\
                      Task.metadata task = ∅ /\ Task.status task = TaskStatus.PENDING)
         (numbered_tasks env first reads parsed).
Proof.
  unfold numbered_tasks. apply Forall_forall. intros task Hin.
  apply elem_of_lookup_imap_1 in Hin as (i & td & -> & _). repeat split.
Qed.

Lemma parse_subtasks_fresh (response : string) (a : Agent) :
  fst (Planning._parse_subtasks env response a) <> [] /\
  Forall fresh_task (fst (Planning._parse_subtasks env response a)) /\
  requests (snd (Planning._parse_subtasks env response a)) = requests a /\
  current_workflow (snd (Planning._parse_subtasks env response a)) = current_workflow a /\
  fs (snd (Planning._parse_subtasks env response a)) = fs a.
Proof.
  unfold Planning._parse_subtasks. rewrite parse_lines_spec. cbn [app].
  destruct (omap _ _) as [|td parsed].
  - cbn [numbered_tasks imap length]. rewrite set_clock_reads_same.
    unfold Planning._get_default_review_tasks, Planning.new_task, now.
    cbn [fst snd]. split; [discriminate|]. split; [|repeat split].
    repeat (constructor; [unfold fresh_task; cbn; repeat split; auto|]). constructor.
  - cbn [fst snd]. split; [discriminate|]. split; [|repeat split].
    eapply Forall_impl; [apply numbered_tasks_fresh|].
    intros task (H1 & H2 & H3 & H4). unfold fresh_task. auto.
Qed.

Lemma decompose_task_fresh (main_task : string) (a : Agent) :
  fst (Planning.decompose_task env main_task a) <> [] /\
  Forall fresh_task (fst (Planning.decompose_task env main_task a)) /\
  requests (snd (Planning.decompose_task env main_task a))
    = requests a ++ [mk_request (Planning.decompose_prompt main_task) 4096].
Proof.
  unfold Planning.decompose_task.
  assert (Hreq : requests (snd (generate env (Planning.decompose_prompt main_task) 4096 a))
                 = requests a ++ [mk_request (Planning.decompose_prompt main_task) 4096]).
  { unfold generate. destruct (generate_content env _ _) as [t|msg];
      [destruct (PyStr.nonempty t)|]; reflexivity. }
  destruct (generate env _ 4096 a) as [[response|e] a1]; cbn [fst snd] in *.
  - pose proof (parse_subtasks_fresh response a1) as (Hne & Hfresh & Hr & _).
    split; [exact Hne|]. split; [exact Hfresh|]. now rewrite Hr.
  - pose proof (default_tasks_spec a1) as (Hsnd & Htitles & _).
    split; [intros Heq; rewrite Heq in Htitles; discriminate|].
    split; [|now rewrite Hsnd].
    unfold Planning._get_default_review_tasks, Planning.new_task, now.
    cbn [fst snd].
    repeat (constructor; [unfold fresh_task; cbn; repeat split; auto|]). constructor.
Qed.

(** X13. [decompose_task] sends one request, with the planning prompt,
    and always returns a plan: the list is never empty, every task of it
    is as the constructor leaves it (PENDING or WAITING_USER, no result,
    no completion time, no metadata), and when the request fails the
    plan is the five default tasks, from collecting to writing. *)
Theorem decompose_task_plan (main_task : string) (a : Agent) :
  fst (Planning.decompose_task env main_task a) <> [] /\
  Forall fresh_task (fst (Planning.decompose_task env main_task a)) /\
  requests (snd (Planning.decompose_task env main_task a))
    = requests a ++ [mk_request (Planning.decompose_prompt main_task) 4096] /\
  (returned (fst (generate env (Planning.decompose_prompt main_task) 4096 a)) = false ->
   Task.title <$> fst (Planning.decompose_task env main_task a)
     = ["Collect Relevant Papers"; "Upload Papers"; "Analyze Papers"; "Create Outline";
        "Write Literature Review"] /\
   TaskAgent.route <$> (Task.title <$> fst (Planning.decompose_task env main_task a))
     = [TaskAgent.Collect; TaskAgent.Upload; TaskAgent.Analyze; TaskAgent.Outline;
        TaskAgent.Write] /\
   Task.status <$> fst (Planning.decompose_task env main_task a)
     = [TaskStatus.PENDING; TaskStatus.WAITING_USER; TaskStatus.PENDING;
        TaskStatus.PENDING; TaskStatus.PENDING]).
Proof.
  destruct (decompose_task_fresh main_task a) as (Hne & Hfresh & Hreq).
  split; [exact Hne|]. split; [exact Hfresh|]. split; [exact Hreq|].
  unfold Planning.decompose_task.
  destruct (generate env _ 4096 a) as [[response|e] a1]; cbn [fst snd returned];
    [discriminate|].
  intros _. pose proof (default_tasks_spec a1) as (_ & Htitles & Hst & _).
  rewrite Htitles. split; [reflexivity|]. split; [vm_compute; reflexivity | exact Hst].
Qed.

Lemma fold_add_task (tasks : list Task.t) :
  forall w,
    wf_header (fold_left (fun w task => Workflow.add_task task w) tasks w) = wf_header w /\
    Workflow.tasks (fold_left (fun w task => Workflow.add_task task w) tasks w)
      = Workflow.tasks w ++ tasks.
Proof.
  induction tasks as [|task rest IH]; intros w; cbn [fold_left].
  - now rewrite app_nil_r.
  - destruct (IH (Workflow.add_task task w)) as [-> ->]. split; [reflexivity|].
    cbn. now rewrite <- app_assoc.
Qed.

(** X14. After [create_literature_review], whatever its outcome, the
    agent's current workflow has the title "Literature Review: "
    followed by the topic and the topic as description, which is what
    the handlers take as topic; its id is "workflow_" followed by the
    first value read from the clock and its creation time is the
    second value; its cursor is 0 and it has at least one task. *)
Theorem create_literature_review_workflow (topic : string) (a : Agent) :
  exists w,
    current_workflow (snd (Planning.create_literature_review env topic a)) = Some w /\
    Workflow.id w = "workflow_" +:+ strftime_compact (clock env (clock_reads a)) /\
    Workflow.title w = "Literature Review: " +:+ topic /\
    Workflow.description w = topic /\
    Workflow.created_at w = clock env (S (clock_reads a)) /\
    Workflow.current_task_index w = 0%Z /\
    length (Workflow.tasks w) <> 0.
Proof.
  unfold Planning.create_literature_review, Planning.create_workflow, now.
  cbn [fst snd clock_reads set_clock_reads].
  pose proof (decompose_task_fresh
                ("Write a comprehensive literature review on " +:+ topic)
                (set_current_workflow
                   (Some (Workflow.new
                            ("workflow_" +:+ strftime_compact (clock env (clock_reads a)))
                            ("Literature Review: " +:+ topic) topic
                            (clock env (S (clock_reads a)))))
                   (set_clock_reads (S (S (clock_reads a))) a))) as (Hne & _).
  destruct (Planning.decompose_task env _ _) as [tasks a1]. cbn [fst] in Hne.
  destruct (fold_add_task tasks
              (Workflow.new ("workflow_" +:+ strftime_compact (clock env (clock_reads a)))
                 ("Literature Review: " +:+ topic) topic (clock env (S (clock_reads a)))))
    as [Hh Ht].
  destruct (run_workflow_current env
              (fold_left (fun w task => Workflow.add_task task w) tasks
                 (Workflow.new ("workflow_" +:+ strftime_compact (clock env (clock_reads a)))
                    ("Literature Review: " +:+ topic) topic (clock env (S (clock_reads a)))))
              (set_current_workflow
                 (Some (fold_left (fun w task => Workflow.add_task task w) tasks
                          (Workflow.new
                             ("workflow_" +:+ strftime_compact (clock env (clock_reads a)))
                             ("Literature Review: " +:+ topic) topic
                             (clock env (S (clock_reads a)))))) a1))
    as (w' & Hw' & Hh' & Hlen).
  exists w'. split; [exact Hw'|].
  rewrite Hh in Hh'. unfold wf_header in Hh'. cbn in Hh'.
  injection Hh' as -> -> -> -> ->. repeat split.
  rewrite Hlen, Ht. cbn. now destruct tasks.
Qed.

Hypothesis offline : forall n r, returned (generate_content env n r) = false.

Lemma generate_offline (p : string) (m : Z) (a : Agent) :
  exists e, generate env p m a = (Raises e, set_requests (requests a ++ [mk_request p m]) a).
Proof.
  unfold generate. specialize (offline (length (requests a)) (mk_request p m)).
  destruct (generate_content env _ _) as [t|msg]; [discriminate|]. now exists msg.
Qed.

Lemma execute_collect_offline (task : Task.t) (a : Agent) :
  TaskAgent.route (Task.title task) = TaskAgent.Collect ->
  exists e r,
    TaskAgent.execute_task env task a =
      (false, (Task.set_result (Some ("Error: " +:+ e))
                 (Task.set_status TaskStatus.FAILED task),
               set_requests (requests a ++ [r]) a)).
Proof.
  intros Hroute. unfold TaskAgent.execute_task.
  change (Task.title (Task.set_status TaskStatus.IN_PROGRESS task)) with (Task.title task).
  rewrite Hroute. cbn [TaskAgent.run_handler].
  unfold TaskAgent._handle_paper_collection, se_bind, get_agent, h_generate.
  cbn [fst snd].
  match goal with |- context [generate env ?p ?m a] =>
    destruct (generate_offline p m a) as (e & ->); exists e, (mk_request p m) end.
  reflexivity.
Qed.

(** X15. When the model answers no request, [create_literature_review]
    returns false after two requests, the one of the planning and the
    one of the first task: the workflow holds the five default tasks,
    the first FAILED and the others as they were built; the workflow
    is not saved, nothing is printed and nothing is read. *)
Theorem create_literature_review_offline (topic : string) (a : Agent) :
  fst (Planning.create_literature_review env topic a) = Returns false /\
  (fun l : list Task.t => Task.status <$> l) <$> wf_tasks (snd (Planning.create_literature_review env topic a))
    = Some [TaskStatus.FAILED; TaskStatus.WAITING_USER; TaskStatus.PENDING;
            TaskStatus.PENDING; TaskStatus.PENDING] /\
  length (requests (snd (Planning.create_literature_review env topic a)))
    = length (requests a) + 2 /\
  fs (snd (Planning.create_literature_review env topic a)) = fs a /\
  stdout (snd (Planning.create_literature_review env topic a)) = stdout a /\
  stdin (snd (Planning.create_literature_review env topic a)) = stdin a.
Proof.
  unfold Planning.create_literature_review, Planning.create_workflow, now.
  cbn [fst snd clock_reads set_clock_reads].
  unfold Planning.decompose_task.
  match goal with |- context [generate env ?p ?m ?x] =>
    destruct (generate_offline p m x) as (e & ->) end.
  unfold Planning._get_default_review_tasks, Planning.new_task, now.
  cbn [fst snd clock_reads set_clock_reads set_requests fold_left].
  unfold TaskAgent.run_workflow.
  cbn [Workflow.tasks Workflow.add_task Workflow.set_tasks Workflow.new app].
  rewrite run_tasks_cons. unfold TaskAgent.visit.
  rewrite bool_decide_eq_false_2 by discriminate.
  match goal with |- context [TaskAgent.execute_task env ?t ?x] =>
    destruct (execute_collect_offline t x) as (e2 & r & ->); [reflexivity|] end.
  cbn [negb fst snd]. unfold TaskAgent.store_task.
  cbn. rewrite !length_app. cbn. repeat split; lia.
Qed.

End PlanningFacts.

(** ** Papers and their manager *)

Section PaperFacts.
Context `{U : Unicode}.

Lemma as_str_list_str_list (l : list string) :
  PaperJson.as_str_list (PaperJson.str_list l) = Some l.
Proof.
  unfold PaperJson.as_str_list, PaperJson.str_list.
  induction l as [|x l IH]; [reflexivity|].
  cbn [fmap list_fmap mapM]. cbn [fmap list_fmap] in IH. rewrite IH. reflexivity.
Qed.

Lemma paper_typed_obj_of (p : Paper.t) : PaperJson.typed (PaperJson.obj_of p) = Some p.
Proof.
  destruct p as [title authors year abstract keywords filepath url summary kf metadata].
  unfold PaperJson.typed, PaperJson.obj_of.
  cbn [PaperJson.o_title PaperJson.o_authors PaperJson.o_year PaperJson.o_abstract
       PaperJson.o_keywords PaperJson.o_filepath PaperJson.o_url PaperJson.o_summary
       PaperJson.o_key_findings PaperJson.o_metadata
       Paper.title Paper.authors Paper.year Paper.abstract Paper.keywords
       Paper.filepath Paper.url Paper.summary Paper.key_findings Paper.metadata].
  rewrite !as_str_list_str_list.
  destruct year, abstract, filepath, url, summary; reflexivity.
Qed.

Lemma paper_from_dict_to_dict (o : PaperJson.obj) :
  PaperJson.from_dict (JDict (PaperJson.to_dict o)) = Returns o.
Proof. destruct o. reflexivity. Qed.

Lemma papers_from_json_to_dict (l : list PaperJson.obj) :
  PaperStore.papers_from_json ((fun paper => JDict (PaperJson.to_dict paper)) <$> l)
  = Returns l.
Proof.
  induction l as [|o l IH]; [reflexivity|].
  cbn [fmap list_fmap PaperStore.papers_from_json].
  rewrite paper_from_dict_to_dict. cbn [fmap list_fmap] in IH. now rewrite IH.
Qed.

(** X16. The record of a paper has exactly the ten fields, [from_dict]
    on it builds the instance it was made from, attribute for attribute,
    whatever the attributes hold, and a paper of the annotated types is
    recovered from its instance. *)
Theorem paper_round_trip (o : PaperJson.obj) (p : Paper.t) :
  PaperJson.from_dict (JDict (PaperJson.to_dict o)) = Returns o /\
  PaperJson.typed (PaperJson.obj_of p) = Some p /\
  dom (PaperJson.to_dict o) = list_to_set PaperJson.fields.
Proof.
  split; [apply paper_from_dict_to_dict|]. split; [apply paper_typed_obj_of|].
  unfold PaperJson.to_dict, PaperJson.fields. rewrite !dom_insert_L, dom_empty_L.
  cbn [list_to_set]. reflexivity.
Qed.

(** X17. [Paper.from_dict] returns exactly on a dictionary that has a
    title and no key besides the ten fields; every other value raises
    TypeError. It checks no value: the title is whatever the record
    holds, and a missing year, list of authors or metadata gets its
    default. *)
Theorem paper_from_dict_accepts (data : json) :
  (returned (PaperJson.from_dict data) = true <->
   exists d, data = JDict d /\
             dom d ⊆ list_to_set (C := gset string) PaperJson.fields /\
             is_Some (d !! "title")) /\
  (forall e, PaperJson.from_dict data = Raises e -> e = TypeError) /\
  (forall d o, data = JDict d -> PaperJson.from_dict data = Returns o ->
     d !! "title" = Some (PaperJson.o_title o) /\
     PaperJson.o_year o = default JNull (d !! "year") /\
     PaperJson.o_authors o = default (JList []) (d !! "authors") /\
     PaperJson.o_metadata o = default (JDict ∅) (d !! "metadata")).
Proof.
  split; [|split].
  - split.
    + destruct data as [| | | | |d]; try discriminate. unfold PaperJson.from_dict, PaperJson.init.
      case_bool_decide as Hdom; [|discriminate].
      destruct (d !! "title") as [t|] eqn:Ht; [|discriminate].
      intros _. exists d. rewrite Ht. eauto.
    + intros (d & -> & Hdom & [t Ht]). unfold PaperJson.from_dict, PaperJson.init.
      rewrite bool_decide_eq_true_2 by exact Hdom. now rewrite Ht.
  - intros e. destruct data as [| | | | |d]; try (now intros [= <-]).
    unfold PaperJson.from_dict, PaperJson.init.
    case_bool_decide; [|now intros [= <-]].
    destruct (d !! "title"); [discriminate | now intros [= <-]].
  - intros d o -> . unfold PaperJson.from_dict, PaperJson.init.
    case_bool_decide; [|discriminate].
    destruct (d !! "title") as [t|]; [|discriminate].
    intros [= <-]. repeat split; reflexivity.
Qed.

Lemma add_paper_state (paper : PaperJson.obj) (self : PaperStore.t) :
  PaperStore.papers (PaperStore.add_paper paper self) = PaperStore.papers self ++ [paper] /\
  PaperStore.papers_dir (PaperStore.add_paper paper self) = PaperStore.papers_dir self /\
  denied (PaperStore.fs (PaperStore.add_paper paper self)) = denied (PaperStore.fs self) /\
  files (PaperStore.fs (PaperStore.add_paper paper self)) =
    (if bool_decide (PaperStore.metadata_file self ∈ denied (PaperStore.fs self))
     then files (PaperStore.fs self)
     else <[PaperStore.metadata_file self :=
              JsonDoc (PaperStore.papers_json (PaperStore.papers self ++ [paper]))]>
            (files (PaperStore.fs self))).
Proof.
  destruct self as [dir ps f].
  unfold PaperStore.add_paper, PaperStore._save_metadata, write_json,
    PaperStore.metadata_file, PaperStore.set_papers.
  cbn [PaperStore.fs PaperStore.papers PaperStore.papers_dir].
  case_bool_decide; cbn; repeat split; reflexivity.
Qed.

(** X18. [add_paper] always adds the paper in memory, last in the list.
    The metadata file holds the new list when it can be written and is
    left as it was otherwise, without any exception: memory and file
    then differ. [export_metadata] of the same list to the same path
    raises OSError in that case. *)
Theorem add_paper_keeps_memory (paper : PaperJson.obj) (self : PaperStore.t) :
  PaperStore.papers (PaperStore.add_paper paper self) = PaperStore.papers self ++ [paper] /\
  files (PaperStore.fs (PaperStore.add_paper paper self)) =
    (if bool_decide (PaperStore.metadata_file self ∈ denied (PaperStore.fs self))
     then files (PaperStore.fs self)
     else <[PaperStore.metadata_file self :=
              JsonDoc (PaperStore.papers_json (PaperStore.papers self ++ [paper]))]>
            (files (PaperStore.fs self))) /\
  fst (PaperStore.export_metadata (PaperStore.metadata_file self)
         (PaperStore.set_papers (PaperStore.papers self ++ [paper]) self)) =
    (if bool_decide (PaperStore.metadata_file self ∈ denied (PaperStore.fs self))
     then Raises OSError else Returns tt).
Proof.
  destruct (add_paper_state paper self) as (Hp & _ & _ & Hf).
  split; [exact Hp|]. split; [exact Hf|]. clear Hp Hf.
  destruct self as [dir ps f].
  unfold PaperStore.export_metadata, write_json, PaperStore.metadata_file,
    PaperStore.set_papers.
  cbn [PaperStore.fs PaperStore.papers PaperStore.papers_dir].
  case_bool_decide; reflexivity.
Qed.

Lemma save_metadata_writable (self : PaperStore.t) :
  PaperStore.metadata_file self ∉ denied (PaperStore.fs self) ->
  PaperStore._save_metadata self =
    PaperStore.set_fs
      (mk_FS (<[PaperStore.metadata_file self :=
                  JsonDoc (PaperStore.papers_json (PaperStore.papers self))]>
                (files (PaperStore.fs self)))
             (denied (PaperStore.fs self))) self.
Proof.
  intros H. unfold PaperStore._save_metadata, write_json.
  now rewrite bool_decide_eq_false_2 by exact H.
Qed.

Lemma load_saved (self : PaperStore.t) :
  PaperStore.metadata_file self ∉ denied (PaperStore.fs self) ->
  PaperStore._load_metadata
    (PaperStore.set_papers [] (PaperStore._save_metadata self))
  = PaperStore._save_metadata self.
Proof.
  intros H. rewrite save_metadata_writable by exact H.
  destruct self as [dir ps f]. unfold PaperStore._load_metadata, PaperStore.read_papers,
    read_json, PaperStore.metadata_file, PaperStore.set_fs, PaperStore.set_papers.
  cbn [PaperStore.fs PaperStore.papers PaperStore.papers_dir files].
  rewrite lookup_insert_eq. unfold PaperStore.papers_json. cbn [Workflow.iterate].
  now rewrite papers_from_json_to_dict.
Qed.

(** X19. When the metadata file can be written, a manager created on
    the same directory after [add_paper] is the manager that
    [add_paper] left: it loads the papers that were in memory, the added
    one last. *)
Theorem store_reload (paper : PaperJson.obj) (self : PaperStore.t) :
  PaperStore.metadata_file self ∉ denied (PaperStore.fs self) ->
  PaperStore.init (PaperStore.papers_dir self)
    (PaperStore.fs (PaperStore.add_paper paper self))
  = PaperStore.add_paper paper self.
Proof.
  intros H. unfold PaperStore.init, PaperStore.add_paper.
  set (s1 := PaperStore.set_papers (PaperStore.papers self ++ [paper]) self).
  assert (H1 : PaperStore.metadata_file s1 ∉ denied (PaperStore.fs s1)) by exact H.
  rewrite <- (load_saved s1 H1) at 2. f_equal.
  rewrite save_metadata_writable by exact H1. reflexivity.
Qed.

Lemma papers_from_json_bad (l : list json) :
  Exists (fun x => returned (PaperJson.from_dict x) = false) l ->
  returned (PaperStore.papers_from_json l) = false.
Proof.
  induction 1 as [x l Hx | x l _ IH]; cbn [PaperStore.papers_from_json].
  - now destruct (PaperJson.from_dict x).
  - destruct (PaperJson.from_dict x); [|reflexivity].
    now destruct (PaperStore.papers_from_json l).
Qed.

(** X20. One record that [Paper.from_dict] rejects discards them all:
    when the metadata file holds a list with such a record, the new
    manager has no paper, and nothing is raised. *)
Theorem load_metadata_all_or_nothing (dir : string) (f : FS) (l : list json) :
  files f !! path_join dir "papers_metadata.json" = Some (JsonDoc (JList l)) ->
  Exists (fun x => returned (PaperJson.from_dict x) = false) l ->
  PaperStore.papers (PaperStore.init dir f) = [].
Proof.
  intros Hfile Hbad. apply papers_from_json_bad in Hbad.
  unfold PaperStore.init, PaperStore._load_metadata, PaperStore.read_papers, read_json,
    PaperStore.metadata_file.
  cbn [PaperStore.fs PaperStore.papers_dir]. rewrite Hfile. cbn [Workflow.iterate].
  now destruct (PaperStore.papers_from_json l).
Qed.

Lemma lower_char_idem (c : ascii) : PyStr.lower_char (PyStr.lower_char c) = PyStr.lower_char c.
Proof. destruct c as [[] [] [] [] [] [] [] []]; reflexivity. Qed.

Lemma lower_upper_char (c : ascii) : PyStr.lower_char (PyStr.upper_char c) = PyStr.lower_char c.
Proof. destruct c as [[] [] [] [] [] [] [] []]; reflexivity. Qed.

Lemma lower_idem (s : string) : PyStr.lower (PyStr.lower s) = PyStr.lower s.
Proof.
  induction s as [|c s IH]; [reflexivity|].
  cbn [PyStr.lower PyStr.map_chars] in *. now rewrite lower_char_idem, IH.
Qed.

Lemma lower_upper (s : string) : PyStr.lower (PyStr.upper s) = PyStr.lower s.
Proof.
  induction s as [|c s IH]; [reflexivity|].
  cbn [PyStr.lower PyStr.upper PyStr.map_chars] in *. now rewrite lower_upper_char, IH.
Qed.

Lemma isascii_lower_char (c : ascii) :
  PyStrExt.is_ascii_char (PyStr.lower_char c) = PyStrExt.is_ascii_char c.
Proof. destruct c as [[] [] [] [] [] [] [] []]; reflexivity. Qed.

Lemma isascii_upper_char (c : ascii) :
  PyStrExt.is_ascii_char (PyStr.upper_char c) = PyStrExt.is_ascii_char c.
Proof. destruct c as [[] [] [] [] [] [] [] []]; reflexivity. Qed.

Lemma isascii_lower (s : string) : PyStrExt.isascii (PyStr.lower s) = PyStrExt.isascii s.
Proof.
  induction s as [|c s IH]; [reflexivity|].
  cbn [PyStr.lower PyStr.map_chars PyStrExt.isascii] in *.
  now rewrite isascii_lower_char, IH.
Qed.

Lemma isascii_upper (s : string) : PyStrExt.isascii (PyStr.upper s) = PyStrExt.isascii s.
Proof.
  induction s as [|c s IH]; [reflexivity|].
  cbn [PyStr.upper PyStr.map_chars PyStrExt.isascii] in *.
  now rewrite isascii_upper_char, IH.
Qed.

Lemma find_paper_lower (title title' : string) (l : list PaperJson.obj) :
  str_lower title = str_lower title' ->
  forall i, PaperStore.find_paper title l i = PaperStore.find_paper title' l i.
Proof.
  intros H. induction l as [|paper l IH]; intros i; [reflexivity|].
  cbn [PaperStore.find_paper]. rewrite H.
  destruct (PaperStore.title_lower paper); [|reflexivity].
  case_bool_decide; [reflexivity | apply IH].
Qed.

Lemma find_paper_spec (title : string) (l : list PaperJson.obj) :
  forall i,
    match PaperStore.find_paper title l i with
    | Returns (Some (j, paper)) =>
        exists pre post s,
          l = pre ++ paper :: post /\ j = i + length pre /\
          Forall (other_title title) pre /\
          PaperJson.o_title paper = JStr s /\ str_lower s = str_lower title
    | Returns None => Forall (other_title title) l
    | Raises _ =>
        exists pre paper post,
          l = pre ++ paper :: post /\ Forall (other_title title) pre /\
          PaperJson.as_str (PaperJson.o_title paper) = None
    end.
Proof.
  induction l as [|paper l IH]; intros i; cbn [PaperStore.find_paper]; [constructor|].
  unfold PaperStore.title_lower.
  destruct (PaperJson.o_title paper) as [| | |s| |] eqn:Ht;
    try (exists [], paper, l; repeat split; [constructor | now rewrite Ht]).
  case_bool_decide as Hs.
  - exists [], l, s. cbn [app length]. rewrite Nat.add_0_r.
    split; [reflexivity|]. split; [reflexivity|]. split; [constructor|].
    split; [reflexivity || exact Ht | exact Hs].
  - assert (Ho : other_title title paper) by (exists s; now split).
    specialize (IH (S i)).
    destruct (PaperStore.find_paper title l (S i)) as [[[j found]|]|e].
    + destruct IH as (pre & post & s' & -> & -> & Hpre & Hf & Hl).
      exists (paper :: pre), post, s'. cbn [app length].
      split; [reflexivity|]. split; [lia|]. split; [now constructor|]. now split.
    + now constructor.
    + destruct IH as (pre & bad & post & -> & Hpre & Hbad).
      exists (paper :: pre), bad, post.
      split; [reflexivity|]. split; [now constructor | exact Hbad].
Qed.

(** X21. [get_paper_by_title] returns the first paper of the list whose
    title is the given one, case ignored: every paper before it has
    another title. It returns nothing when every paper has another
    title, and it fails when it meets, before any match, a paper whose
    title is not a string. The case of an ASCII argument does not
    matter. *)
Theorem get_paper_by_title_first (title : string) (self : PaperStore.t) :
  match PaperStore.get_paper_by_title title self with
  | Returns (Some paper) =>
      exists pre post s,
        PaperStore.papers self = pre ++ paper :: post /\
        Forall (other_title title) pre /\
        PaperJson.o_title paper = JStr s /\ str_lower s = str_lower title
  | Returns None => Forall (other_title title) (PaperStore.papers self)
  | Raises _ =>
      exists pre paper post,
        PaperStore.papers self = pre ++ paper :: post /\
        Forall (other_title title) pre /\
        PaperJson.as_str (PaperJson.o_title paper) = None
  end /\
  (PyStrExt.isascii title = true ->
   PaperStore.get_paper_by_title (PyStr.upper title) self
     = PaperStore.get_paper_by_title title self /\
   PaperStore.get_paper_by_title (PyStr.lower title) self
     = PaperStore.get_paper_by_title title self).
Proof.
  unfold PaperStore.get_paper_by_title. split.
  - pose proof (find_paper_spec title (PaperStore.papers self) 0) as H.
    destruct (PaperStore.find_paper title (PaperStore.papers self) 0) as [[[j found]|]|e];
      cbn [fmap option_fmap option_map snd]; [|exact H|exact H].
    destruct H as (pre & post & s & H1 & _ & H2 & H3 & H4). exists pre, post, s. auto.
  - intros Hascii. split.
    + rewrite (find_paper_lower (PyStr.upper title) title); [reflexivity|].
      rewrite !str_lower_ascii by now rewrite ?isascii_upper.
      apply lower_upper.
    + rewrite (find_paper_lower (PyStr.lower title) title); [reflexivity|].
      rewrite !str_lower_ascii by now rewrite ?isascii_lower.
      apply lower_idem.
Qed.

Lemma update_typed_spec (title summary : string) (kf : list string) (l : list Paper.t) :
  PyStrExt.isascii title = true ->
  Forall (fun p => PyStrExt.isascii (Paper.title p) = true) l ->
  forall i,
    match PaperStore.find_paper title (PaperJson.obj_of <$> l) i with
    | Returns (Some (j, paper)) =>
        exists k p,
          j = i + k /\ l !! k = Some p /\ paper = PaperJson.obj_of p /\
          PyStr.lower (Paper.title p) = PyStr.lower title /\
          PaperManager.update_paper_summary title summary kf l
            = <[k := with_summary summary kf p]> l
    | Returns None => PaperManager.update_paper_summary title summary kf l = l
    | Raises _ => False
    end.
Proof.
  intros Htitle Hall.
  induction Hall as [|p l Hp Hall IH]; intros i; [reflexivity|].
  cbn [fmap list_fmap PaperStore.find_paper PaperManager.update_paper_summary].
  unfold PaperStore.title_lower.
  change (PaperJson.o_title (PaperJson.obj_of p)) with (JStr (Paper.title p)).
  cbv iota. rewrite (str_lower_ascii _ Hp), (str_lower_ascii _ Htitle).
  case_bool_decide as Hs.
  - exists 0, p. rewrite Nat.add_0_r.
    split; [reflexivity|]. split; [reflexivity|]. split; [reflexivity|].
    split; [exact Hs|]. now destruct kf.
  - specialize (IH (S i)). cbn [fmap list_fmap] in IH.
    destruct (PaperStore.find_paper title _ (S i)) as [[[j found]|]|e].
    + destruct IH as (k & q & -> & Hk & -> & Hq & Hu).
      exists (S k), q. rewrite Hu.
      split; [lia|]. split; [exact Hk|]. split; [reflexivity|]. split; [exact Hq|].
      reflexivity.
    + now rewrite IH.
    + exact IH.
Qed.

Lemma update_titles (title summary : string) (kf : list string) (l : list Paper.t) :
  Paper.title <$> PaperManager.update_paper_summary title summary kf l = Paper.title <$> l.
Proof.
  induction l as [|p l IH]; [reflexivity|].
  cbn [PaperManager.update_paper_summary]. case_bool_decide.
  - now destruct kf.
  - cbn [fmap list_fmap] in *. now rewrite IH.
Qed.

(** X22. On papers of the annotated types, with ASCII titles,
    [update_paper_summary] never fails, and the list it leaves is the
    one that the analysis handler is modelled with: the first paper with
    that title gets the summary, and the key findings when some are
    given; titles, order and number of papers are kept. When no paper
    has the title nothing changes, and nothing is written. *)
Theorem update_paper_summary_refines (title summary : string) (kf : list string)
    (dir : string) (l : list Paper.t) (f : FS) :
  PyStrExt.isascii title = true ->
  Forall (fun p => PyStrExt.isascii (Paper.title p) = true) l ->
  fst (PaperStore.update_paper_summary title summary kf
         (PaperStore.mk dir (PaperJson.obj_of <$> l) f)) = Returns tt /\
  PaperStore.papers
    (snd (PaperStore.update_paper_summary title summary kf
            (PaperStore.mk dir (PaperJson.obj_of <$> l) f)))
    = PaperJson.obj_of <$> PaperManager.update_paper_summary title summary kf l /\
  Paper.title <$> PaperManager.update_paper_summary title summary kf l = Paper.title <$> l /\
  (Forall (fun p => PyStr.lower (Paper.title p) <> PyStr.lower title) l ->
   snd (PaperStore.update_paper_summary title summary kf
          (PaperStore.mk dir (PaperJson.obj_of <$> l) f))
     = PaperStore.mk dir (PaperJson.obj_of <$> l) f).
Proof.
  intros Htitle Hascii.
  unfold PaperStore.update_paper_summary. cbn [PaperStore.papers].
  pose proof (update_typed_spec title summary kf l Htitle Hascii 0) as H.
  destruct (PaperStore.find_paper title _ 0) as [[[j found]|]|e]; [| |contradiction].
  - destruct H as (k & p & -> & Hk & -> & Hp & Hu). cbn [fst snd Nat.add].
    split; [reflexivity|]. split; [|split; [apply update_titles|]].
    + unfold PaperStore._save_metadata.
      destruct (write_json _ _ _) as [[u|e] f']; cbn [PaperStore.papers PaperStore.set_fs
        PaperStore.set_papers]; rewrite Hu, list_fmap_insert; f_equal;
        destruct p, kf; reflexivity.
    + intros Hall. rewrite Forall_lookup in Hall. now specialize (Hall k p Hk).
  - cbn [fst snd]. split; [reflexivity|]. split; [now rewrite H|].
    split; [apply update_titles|]. reflexivity.
Qed.

Lemma add_papers_state (papers_info : list (gmap string json)) :
  forall self,
    PaperStore.papers (PaperStore.add_papers papers_info self)
      = PaperStore.papers self ++ (PaperStore.paper_of_info <$> papers_info) /\
    PaperStore.papers_dir (PaperStore.add_papers papers_info self)
      = PaperStore.papers_dir self /\
    denied (PaperStore.fs (PaperStore.add_papers papers_info self))
      = denied (PaperStore.fs self) /\
    files (PaperStore.fs (PaperStore.add_papers papers_info self)) =
      (if bool_decide (PaperStore.metadata_file self ∈ denied (PaperStore.fs self))
       then files (PaperStore.fs self)
       else match papers_info with
            | [] => files (PaperStore.fs self)
            | _ :: _ =>
                <[PaperStore.metadata_file self :=
                    JsonDoc (PaperStore.papers_json
                               (PaperStore.papers self
                                ++ (PaperStore.paper_of_info <$> papers_info)))]>
                  (files (PaperStore.fs self))
            end).
Proof.
  induction papers_info as [|info rest IH]; intros self.
  - cbn. rewrite app_nil_r. repeat split. now case_bool_decide.
  - unfold PaperStore.add_papers in *. cbn [fold_left fmap list_fmap].
    destruct (add_paper_state (PaperStore.paper_of_info info) self) as (Hp & Hd & Hden & Hf).
    destruct (IH (PaperStore.add_paper (PaperStore.paper_of_info info) self))
      as (Hp' & Hd' & Hden' & Hf').
    assert (Hm : PaperStore.metadata_file
                   (PaperStore.add_paper (PaperStore.paper_of_info info) self)
                 = PaperStore.metadata_file self)
      by (unfold PaperStore.metadata_file; now rewrite Hd).
    split; [now rewrite Hp', Hp, <- app_assoc|]. split; [now rewrite Hd', Hd|].
    split; [now rewrite Hden', Hden|].
    rewrite Hf', Hm, Hden, Hf, Hp, <- app_assoc.
    destruct (decide (PaperStore.metadata_file self ∈ denied (PaperStore.fs self)))
      as [Hin|Hout].
    + rewrite !(bool_decide_eq_true_2 _ Hin). reflexivity.
    + rewrite !(bool_decide_eq_false_2 _ Hout).
      destruct rest; [reflexivity|]. now rewrite insert_insert_eq.
Qed.

(** X23. [add_papers] adds one paper per entry, in order, after the
    papers already there. A paper takes its title, authors, year,
    abstract, keywords, path and url from the entry and nothing else:
    its summary, key findings and metadata are empty whatever the entry
    holds. When the metadata file can be written it ends with the whole
    list; when it cannot, the files are untouched. *)
Theorem add_papers_appends (papers_info : list (gmap string json)) (self : PaperStore.t) :
  PaperStore.papers (PaperStore.add_papers papers_info self)
    = PaperStore.papers self ++ (PaperStore.paper_of_info <$> papers_info) /\
  Forall (fun paper =>
            PaperJson.o_summary paper = JNull /\
            PaperJson.o_key_findings paper = JList [] /\
            PaperJson.o_metadata paper = JDict ∅)
         (PaperStore.paper_of_info <$> papers_info) /\
  (PaperStore.metadata_file self ∉ denied (PaperStore.fs self) ->
   papers_info <> [] ->
   files (PaperStore.fs (PaperStore.add_papers papers_info self)) =
     <[PaperStore.metadata_file self :=
         JsonDoc (PaperStore.papers_json
                    (PaperStore.papers self ++ (PaperStore.paper_of_info <$> papers_info)))]>
       (files (PaperStore.fs self))) /\
  (PaperStore.metadata_file self ∈ denied (PaperStore.fs self) ->
   PaperStore.fs (PaperStore.add_papers papers_info self) = PaperStore.fs self).
Proof.
  destruct (add_papers_state papers_info self) as (Hp & _ & Hden & Hf).
  split; [exact Hp|]. split; [|split].
  - apply Forall_fmap, Forall_forall. intros info _. repeat split.
  - intros Hw Hne. rewrite Hf, bool_decide_eq_false_2 by exact Hw.
    now destruct papers_info.
  - intros Hd. rewrite bool_decide_eq_true_2 in Hf by exact Hd.
    destruct (PaperStore.fs (PaperStore.add_papers papers_info self)),
      (PaperStore.fs self). cbn in *. now subst.
Qed.

Lemma prefix_append_r (x s t : string) :
  String.prefix x s = true -> String.prefix x (s +:+ t) = true.
Proof.
  revert s. induction x as [|c x IH]; intros s H; [now destruct (s +:+ t)|].
  destruct s as [|c' s]; [discriminate|].
  change (String c' s +:+ t) with (String c' (s +:+ t)).
  cbn [String.prefix] in *. destruct (ascii_dec c c'); [now apply IH | discriminate].
Qed.

Lemma contains_append_r (x s t : string) :
  PyStr.contains x s = true -> PyStr.contains x (s +:+ t) = true.
Proof.
  induction s as [|c s IH]; intros H.
  - cbn [PyStr.contains] in H. rewrite orb_false_r in H.
    destruct x; [|discriminate]. now destruct t.
  - change (String c s +:+ t) with (String c (s +:+ t)).
    cbn [PyStr.contains] in *. apply orb_true_iff in H as [H|H].
    + change (String c (s +:+ t)) with (String c s +:+ t).
      now rewrite (prefix_append_r _ _ _ H).
    + rewrite (IH H). apply orb_true_r.
Qed.

Lemma prefix_append_same (a x y : string) :
  String.prefix x y = true -> String.prefix (a +:+ x) (a +:+ y) = true.
Proof.
  intros H. induction a as [|c a IH]; [exact H|].
  change (String c a +:+ x) with (String c (a +:+ x)).
  change (String c a +:+ y) with (String c (a +:+ y)).
  cbn [String.prefix]. now destruct (ascii_dec c c).
Qed.

Lemma paper_sections_title (known : list Paper.t) :
  forall k i p,
    known !! i = Some p ->
    PyStr.contains ("## " +:+ pretty (k + i) +:+ ". " +:+ Paper.title p +:+ PyStr.nl)
                   (PaperManager.paper_sections k known) = true.
Proof.
  induction known as [|q known IH]; intros k i p Hi; [discriminate|].
  cbn [PaperManager.paper_sections]. destruct i as [|i].
  - injection Hi as ->. rewrite Nat.add_0_r. apply contains_append_r.
    unfold PaperManager.paper_section. apply contains_prefix.
    do 4 apply prefix_append_same. apply prefix_append.
  - apply contains_append_l. rewrite Nat.add_succ_r, <- Nat.add_succ_l. now apply IH.
Qed.

(** X24. The summary of a non-empty list of papers starts with the
    heading "# Papers Summary" and holds, for the paper at each
    position, the heading with its number, counted from 1, and its
    title. *)
Theorem papers_summary_lists_titles (known : list Paper.t) (i : nat) (p : Paper.t) :
  known !! i = Some p ->
  PyStr.contains ("## " +:+ pretty (S i) +:+ ". " +:+ Paper.title p +:+ PyStr.nl)
                 (PaperManager.generate_papers_summary known) = true /\
  PyStr.startswith ("# Papers Summary" +:+ PyStr.nl +:+ PyStr.nl)
                   (PaperManager.generate_papers_summary known) = true.
Proof.
  intros Hi. unfold PaperManager.generate_papers_summary.
  destruct known as [|q known]; [discriminate|]. split.
  - apply contains_append_l, contains_append_l, contains_append_l.
    now apply (paper_sections_title (q :: known) 1 i p).
  - unfold PyStr.startswith. do 2 apply prefix_append_same. apply prefix_append.
Qed.

End PaperFacts.

(** ** Papers with the same title *)

Section ShadowFacts.
Context `{DT : Datetime}.
Variable env : Env.

Lemma update_lookup_title (title summary : string) (kf : list string) (l : list Paper.t)
    (i : nat) (p : Paper.t) :
  l !! i = Some p ->
  exists p', PaperManager.update_paper_summary title summary kf l !! i = Some p' /\
             Paper.title p' = Paper.title p.
Proof.
  intros Hi. pose proof (update_titles title summary kf l) as Ht.
  apply (f_equal (fun x => x !! i)) in Ht. rewrite !list_lookup_fmap, Hi in Ht.
  destruct (PaperManager.update_paper_summary title summary kf l !! i) as [p'|];
    [|discriminate].
  exists p'. split; [reflexivity|]. cbn in Ht. congruence.
Qed.

Lemma update_keeps_shadowed (title summary : string) (kf : list string)
    (l : list Paper.t) (j : nat) (q : Paper.t) :
  shadowed l j q -> shadowed (PaperManager.update_paper_summary title summary kf l) j q.
Proof.
  intros (Hj & i & p & Hlt & Hi & Heq). split.
  - revert i j Hlt Hi Hj. induction l as [|x l IH]; intros i j Hlt Hi Hj; [discriminate|].
    cbn [PaperManager.update_paper_summary]. case_bool_decide as Hx.
    + destruct j as [|j]; [lia | exact Hj].
    + destruct j as [|j]; [lia|]. cbn. destruct i as [|i].
      * cbn in Hi. injection Hi as ->.
        assert (Hq : PyStr.lower (Paper.title q) <> PyStr.lower title) by congruence.
        clear -Hj Hq. revert j Hj. induction l as [|y l IH]; intros j Hj; [discriminate|].
        cbn [PaperManager.update_paper_summary]. case_bool_decide as Hy.
        -- destruct j as [|j]; [|exact Hj]. cbn in Hj. injection Hj as ->. contradiction.
        -- destruct j as [|j]; [exact Hj|]. cbn. apply IH. exact Hj.
      * apply (IH i j); [lia | exact Hi | exact Hj].
  - destruct (update_lookup_title title summary kf l i p Hi) as (p' & Hp' & Ht).
    exists i, p'. split; [exact Hlt|]. split; [exact Hp'|]. now rewrite Ht.
Qed.

Lemma analyze_papers_shadowed (remaining : list Paper.t) (j : nat) (q : Paper.t) :
  forall acc task a,
    shadowed (papers a) j q ->
    shadowed (papers (snd (snd (TaskAgent.analyze_papers env remaining acc (task, a))))) j q.
Proof.
  induction remaining as [|paper rest IH]; intros acc task a Hs; [exact Hs|].
  cbn [TaskAgent.analyze_papers].
  unfold se_bind at 1. unfold se_try, se_bind, h_generate, generate, modify_agent,
    se_modify, se_ret. cbn [fst snd].
  destruct (generate_content env (length (requests a))
              (mk_request (TaskAgent.analysis_prompt paper) 4096)) as [text|msg];
    [destruct (PyStr.nonempty text)|].
  all: cbn [fst snd]; apply IH; cbn [papers set_papers set_requests].
  - now apply update_keeps_shadowed.
  - exact Hs.
  - exact Hs.
Qed.

(** X28. A paper that comes after a paper with the same title, case
    ignored, is never updated by the analysis handler: the update made
    for it goes to the earlier paper, and it keeps the summary and the
    key findings it had, whatever the model answers. *)
Theorem analysis_skips_shadowed_paper (task : Task.t) (a : Agent)
    (i j : nat) (p q : Paper.t) :
  i < j ->
  papers a !! i = Some p ->
  papers a !! j = Some q ->
  PyStr.lower (Paper.title p) = PyStr.lower (Paper.title q) ->
  papers (snd (snd (TaskAgent._handle_paper_analysis env (task, a)))) !! j = Some q.
Proof.
  intros Hlt Hi Hj Heq.
  assert (Hs : shadowed (papers a) j q) by (split; [exact Hj | now exists i, p]).
  rewrite handle_paper_analysis_unfold.
  destruct (papers a) as [|x l] eqn:Hp; [discriminate|]. rewrite <- Hp in *.
  pose proof (analyze_papers_shadowed (papers a) j q [] task a Hs) as [H _].
  destruct (TaskAgent.analyze_papers env _ _ _) as [[sections|e] [task' a']]; exact H.
Qed.

End ShadowFacts.
(** ** What a run reads and what it leaves of the papers

    The only call of [input] is in the waiting branch of [run_workflow],
    lines 443-454, and the only assignments to a paper are those of
    [update_paper_summary], [paper.py] lines 132-140, which the analysis
    handler calls. *)

Section InputFacts.
Context `{DT : Datetime}.
Variable env : Env.

Lemma visit_stdin (task task' : Task.t) (a a' : Agent) :
  TaskAgent.visit env task a = (Returns true, (task', a')) ->
  stdin a' =
    if bool_decide (Task.status task = TaskStatus.WAITING_USER)
    then drop 1 (stdin a) else stdin a.
Proof.
  unfold TaskAgent.visit. case_bool_decide as Hw.
  - destruct (stdin a) as [|line more] eqn:Hin.
    + unfold TaskAgent.acknowledge, TaskAgent.input. cbn [print set_stdout stdin].
      rewrite Hin. discriminate.
    + destruct (acknowledge_ok env task a line more Hin) as (a2 & -> & _ & _ & _ & _ & Hs & _).
      intros [= _ <-]. exact Hs.
  - pose proof (execute_task_stdin env task a) as Hs.
    destruct (TaskAgent.execute_task env task a) as [[|] [t1 a1]]; cbn [negb snd] in *;
      [|discriminate].
    intros [= _ <-]. rewrite <- Hs. apply print_result_frame.
Qed.

Lemma run_tasks_stdin (todo : list Task.t) :
  forall i a,
    fst (TaskAgent.run_tasks env todo i a) = Returns true ->
    stdin (snd (TaskAgent.run_tasks env todo i a)) = drop (waiting_tasks todo) (stdin a) /\
    waiting_tasks todo <= length (stdin a).
Proof.
  induction todo as [|task rest IH]; intros i a; [split; [reflexivity | cbn; lia]|].
  rewrite run_tasks_cons.
  destruct (TaskAgent.visit env task a) as [[[|]|e] [task' a']] eqn:Hv;
    cbn [fst snd]; try discriminate.
  intros Hrun. destruct (IH _ _ Hrun) as [Hs Hle]. rewrite Hs. clear Hs.
  rewrite (proj1 (proj2 (proj2 (proj2 (store_task_frame i task' a'))))) in *.
  rewrite (visit_stdin _ _ _ _ Hv) in *. unfold waiting_tasks in *. cbn [List.filter].
  case_bool_decide; cbn [length]; [|now split].
  rewrite drop_drop. split; [reflexivity|].
  rewrite length_drop in Hle. destruct (stdin a) as [|line more] eqn:Hin; [|cbn in *; lia].
  exfalso. revert Hv. unfold TaskAgent.visit. rewrite bool_decide_eq_true_2 by assumption.
  unfold TaskAgent.acknowledge, TaskAgent.input. cbn [print set_stdout stdin].
  rewrite Hin. discriminate.
Qed.

(** X29. A run that returns true has read one line of input for each
    task of the workflow that was WAITING_USER, and no other: the lines
    left are the lines before the run without the first
    [waiting_tasks], and there were at least that many. *)
Theorem run_workflow_reads_input (w : Workflow.t) (a : Agent) :
  fst (TaskAgent.run_workflow env w a) = Returns true ->
  stdin (snd (TaskAgent.run_workflow env w a))
    = drop (waiting_tasks (Workflow.tasks w)) (stdin a) /\
  waiting_tasks (Workflow.tasks w) <= length (stdin a).
Proof.
  rewrite run_workflow_unfold.
  pose proof (run_tasks_stdin (Workflow.tasks w) 0 (set_current_workflow (Some w) a)) as Hs.
  destruct (TaskAgent.run_tasks env (Workflow.tasks w) 0 (set_current_workflow (Some w) a))
    as [[[|]|e] a1]; cbn [fst snd] in *; try discriminate.
  destruct (Hs eq_refl) as [Hd Hle]. clear Hs.
  destruct (current_workflow a1) as [w1|]; [|now split].
  case_bool_decide; [discriminate|]. now split.
Qed.

End InputFacts.

Section IdentityFacts.
Context `{DT : Datetime}.
Variable env : Env.

Lemma update_identity (title summary : string) (key_findings : list string) (l : list Paper.t) :
  paper_identity <$> PaperManager.update_paper_summary title summary key_findings l
  = paper_identity <$> l.
Proof.
  induction l as [|p l IH]; [reflexivity|]. cbn [PaperManager.update_paper_summary].
  case_bool_decide; [|now rewrite !fmap_cons, IH].
  rewrite !fmap_cons. f_equal. now destruct key_findings.
Qed.

Lemma keeps_identities_analyze (remaining : list Paper.t) :
  forall acc, keeps identities (TaskAgent.analyze_papers env remaining acc).
Proof.
  induction remaining as [|paper rest IH]; intros acc; cbn [TaskAgent.analyze_papers].
  - apply keeps_ret.
  - apply keeps_bind; [|intros; apply IH].
    apply keeps_try; [|intros; apply keeps_ret].
    apply keeps_bind; [apply keeps_generate; reflexivity|]. intros analysis.
    apply keeps_bind; [|intros; apply keeps_ret].
    apply keeps_modify_agent. intros t a. apply update_identity.
Qed.

Lemma run_handler_identities (h : TaskAgent.handler) :
  keeps identities (TaskAgent.run_handler env h).
Proof.
  destruct h; cbn [TaskAgent.run_handler].
  - unfold TaskAgent._handle_paper_collection.
    apply keeps_bind; [apply keeps_get_agent|]. intros a.
    apply keeps_bind; [apply keeps_generate; reflexivity|]. intros response.
    apply keeps_bind; [apply keeps_set_task_metadata; reflexivity|]. intros _. apply keeps_ret.
  - unfold TaskAgent._handle_paper_upload.
    apply keeps_bind; [|intros _; apply keeps_ret].
    apply keeps_modify_task. reflexivity.
  - unfold TaskAgent._handle_paper_analysis.
    apply keeps_bind; [apply keeps_get_agent|]. intros a.
    destruct (papers a); [apply keeps_ret|].
    apply keeps_bind; [apply keeps_identities_analyze|]. intros results.
    apply keeps_bind; [apply keeps_set_task_metadata; reflexivity|]. intros _. apply keeps_ret.
  - unfold TaskAgent._handle_outline_creation.
    apply keeps_bind; [apply keeps_get_agent|]. intros a.
    apply keeps_bind; [apply keeps_generate; reflexivity|]. intros outline.
    apply keeps_bind.
    + apply keeps_modify_agent. intros t a0.
      now destruct (current_workflow a0).
    + intros _. apply keeps_bind; [apply keeps_set_task_metadata; reflexivity|]. intros _.
      apply keeps_ret.
  - unfold TaskAgent._handle_writing.
    apply keeps_bind; [apply keeps_get_task|]. intros task.
    apply keeps_bind; [apply keeps_get_agent|]. intros a.
    apply keeps_bind; [apply keeps_generate; reflexivity|]. intros review.
    apply keeps_bind; [apply keeps_now; reflexivity|]. intros d.
    apply keeps_bind; [apply keeps_lift|]. intros files.
    apply keeps_bind; [apply keeps_set_task_metadata; reflexivity|]. intros _.
    apply keeps_bind; [apply keeps_set_task_metadata; reflexivity|]. intros _. apply keeps_ret.
  - unfold TaskAgent._handle_generic_task.
    apply keeps_bind; [apply keeps_get_task|]. intros task. apply keeps_generate; reflexivity.
Qed.

Lemma execute_task_identities (task : Task.t) (a : Agent) :
  paper_identity <$> papers (snd (snd (TaskAgent.execute_task env task a)))
  = paper_identity <$> papers a.
Proof.
  unfold TaskAgent.execute_task.
  pose proof (run_handler_identities
                (TaskAgent.route (Task.title (Task.set_status TaskStatus.IN_PROGRESS task)))
                (Task.set_status TaskStatus.IN_PROGRESS task, a)) as Hk.
  unfold identities in Hk.
  destruct (TaskAgent.run_handler env _ _) as [[r|e] [task1 a1]]; cbn [snd] in *; exact Hk.
Qed.

Lemma visit_identities (task : Task.t) (a : Agent) :
  paper_identity <$> papers (snd (snd (TaskAgent.visit env task a)))
  = paper_identity <$> papers a.
Proof.
  unfold TaskAgent.visit. case_bool_decide.
  - unfold TaskAgent.acknowledge, TaskAgent.input. cbn [print set_stdout stdin].
    now destruct (stdin a).
  - pose proof (execute_task_identities task a) as Hs.
    destruct (TaskAgent.execute_task env task a) as [[|] [t1 a1]]; cbn [negb snd] in *;
      [|exact Hs].
    now rewrite (proj1 (proj2 (proj2 (proj2 (print_result_frame t1 a1))))).
Qed.

Lemma run_tasks_identities (todo : list Task.t) :
  forall i a,
    paper_identity <$> papers (snd (TaskAgent.run_tasks env todo i a))
    = paper_identity <$> papers a.
Proof.
  induction todo as [|task rest IH]; intros i a; [reflexivity|].
  rewrite run_tasks_cons. pose proof (visit_identities task a) as Hv.
  destruct (TaskAgent.visit env task a) as [[[|]|e] [task' a']]; cbn [fst snd] in *;
    rewrite ?IH, (proj1 (proj2 (proj2 (store_task_frame i task' a')))); exact Hv.
Qed.

(** X30. Whatever its outcome, a run of a workflow leaves the papers
    of the agent in place: as many, in the same order, each with its
    title, authors, year, abstract, keywords, file path, url and
    metadata. Only [summary] and [key_findings] can differ. *)
Theorem run_workflow_paper_identity (w : Workflow.t) (a : Agent) :
  paper_identity <$> papers (snd (TaskAgent.run_workflow env w a))
  = paper_identity <$> papers a.
Proof.
  rewrite run_workflow_unfold.
  pose proof (run_tasks_identities (Workflow.tasks w) 0 (set_current_workflow (Some w) a)) as Hs.
  destruct (TaskAgent.run_tasks env (Workflow.tasks w) 0 (set_current_workflow (Some w) a))
    as [[[|]|e] a1]; cbn [fst snd] in *; try exact Hs.
  destruct (current_workflow a1) as [w1|]; [|exact Hs].
  case_bool_decide; exact Hs.
Qed.

End IdentityFacts.


(** ** The converters of documents *)

Section DocumentFacts.





End DocumentFacts.

(** ** The properties on the examples

    The texts of the examples are ASCII. *)

#[local] Existing Instance AsciiText.unicode.

(** Two steps on the workflow of the examples *)
Lemma next_task_walk_witness :
  Workflow.current_task_index Example.workflow = 0%Z /\
  Workflow.get_current_task
    (Nat.iter 2 (fun w => snd (Workflow.next_task w)) Example.workflow)
    = Workflow.tasks Example.workflow !! (2 `min` (length (Workflow.tasks Example.workflow) - 1)).
Proof.
  assert (H : Workflow.current_task_index Example.workflow = 0%Z) by reflexivity.
  exact (conj H (proj1 (proj2 (next_task_walk Example.workflow 2 H)))).
Defined.

(** The run of the examples with a model that answers *)
Lemma run_workflow_success_witness :
  fst (TaskAgent.run_workflow Example.env_ok Example.workflow Example.agent) = Returns true /\
  exists w',
    current_workflow
      (snd (TaskAgent.run_workflow Example.env_ok Example.workflow Example.agent)) = Some w' /\
    Workflow.is_complete w' = true.
Proof.
  assert (H : fst (TaskAgent.run_workflow Example.env_ok Example.workflow Example.agent)
              = Returns true) by (vm_compute; reflexivity).
  split; [exact H|].
  destruct (run_workflow_success Example.env_ok Example.workflow Example.agent H)
    as (w' & Hw & _ & _ & Hc).
  exists w'. exact (conj Hw Hc).
Defined.

(** The same run with a model that fails on the writing task *)
Lemma run_workflow_stops_at_failure_witness :
  fst (TaskAgent.run_workflow Example.env_second_fails Example.workflow Example.agent)
    = Returns false /\
  exists w',
    current_workflow
      (snd (TaskAgent.run_workflow Example.env_second_fails Example.workflow Example.agent))
      = Some w' /\
    Workflow.is_complete w' = false.
Proof.
  assert (H : fst (TaskAgent.run_workflow Example.env_second_fails Example.workflow
                     Example.agent) = Returns false)
    by (vm_compute; reflexivity).
  split; [exact H|].
  destruct (run_workflow_stops_at_failure Example.env_second_fails Example.workflow
              Example.agent H)
    as (w' & _ & _ & _ & _ & _ & Hw & _ & _ & _ & _ & _ & Hc).
  exists w'. exact (conj Hw Hc).
Defined.

(** The run of the examples by an agent with nothing to read *)
Lemma waiting_task_eof_witness :
  (Workflow.tasks Example.workflow
     = [Example.task_a] ++ Example.task_b :: [Example.task_c; Example.task_d] /\
   fst (run_prefix Example.env_ok Example.workflow Example2.agent_silent [Example.task_a])
     = Returns true /\
   Task.status Example.task_b = TaskStatus.WAITING_USER /\
   stdin (snd (run_prefix Example.env_ok Example.workflow Example2.agent_silent
                 [Example.task_a])) = []) /\
  fst (TaskAgent.run_workflow Example.env_ok Example.workflow Example2.agent_silent)
    = Raises EOFError.
Proof.
  assert (H1 : Workflow.tasks Example.workflow
               = [Example.task_a] ++ Example.task_b :: [Example.task_c; Example.task_d])
    by reflexivity.
  assert (H2 : fst (run_prefix Example.env_ok Example.workflow Example2.agent_silent
                      [Example.task_a]) = Returns true)
    by (vm_compute; reflexivity).
  assert (H3 : Task.status Example.task_b = TaskStatus.WAITING_USER) by reflexivity.
  assert (H4 : stdin (snd (run_prefix Example.env_ok Example.workflow Example2.agent_silent
                             [Example.task_a])) = [])
    by (vm_compute; reflexivity).
  exact (conj (conj H1 (conj H2 (conj H3 H4)))
           (proj1 (waiting_task_eof Example.env_ok Example.workflow Example2.agent_silent
                     [Example.task_a] Example.task_b [Example.task_c; Example.task_d]
                     H1 H2 H3 H4))).
Defined.

(** The collecting task without the model *)
Lemma failed_execution_keeps_task_witness :
  fst (TaskAgent.execute_task Example2.env_offline Example.task_a Example.agent) = false /\
  exists e,
    fst (snd (TaskAgent.execute_task Example2.env_offline Example.task_a Example.agent))
      = Task.set_result (Some ("Error: " +:+ e))
          (Task.set_status TaskStatus.FAILED Example.task_a).
Proof.
  assert (H : fst (TaskAgent.execute_task Example2.env_offline Example.task_a Example.agent)
              = false) by (vm_compute; reflexivity).
  split; [exact H|].
  destruct (failed_execution_keeps_task Example2.env_offline Example.task_a Example.agent H)
    as (e & _ & He).
  exists e. exact He.
Defined.

(** The outline task in the running workflow *)
Lemma outline_reaches_writing_witness :
  fst (TaskAgent._handle_outline_creation Example.env_ok
         (Example2.task_outline, Example2.agent_running)) = Returns Example.answer /\
  PyStr.nonempty Example.answer = true.
Proof.
  assert (H : fst (TaskAgent._handle_outline_creation Example.env_ok
                     (Example2.task_outline, Example2.agent_running))
              = Returns Example.answer) by (vm_compute; reflexivity).
  exact (conj H (proj2 (proj2 (outline_reaches_writing Example.env_ok
                                 Example2.task_outline Example2.agent_running
                                 Example.answer H)))).
Defined.

(** The record of the examples read twice *)
Lemma from_dict_twice_witness :
  returned (fst (Task.from_dict Example.t0 Example.record)) = true /\
  fst (Task.from_dict Example.t0 (snd (Task.from_dict Example.t0 Example.record)))
    = Raises TypeError.
Proof.
  assert (H : returned (fst (Task.from_dict Example.t0 Example.record)) = true)
    by (vm_compute; reflexivity).
  exact (conj H (proj1 (from_dict_twice Example.t0 Example.record H))).
Defined.

(** A line of a plan *)
Lemma subtask_of_line_numbered_witness :
  (str_strip ("1" +:+ ". " +:+ "Collect Papers" +:+ ": " +:+ "Find relevant papers")
     = "1" +:+ ". " +:+ "Collect Papers" +:+ ": " +:+ "Find relevant papers" /\
   head_isdigit ("1" +:+ ". " +:+ "Collect Papers" +:+ ": " +:+ "Find relevant papers")
     = true /\
   PyStr.contains ": " ("1" +:+ ". " +:+ "Collect Papers") = false /\
   PyStr.contains ". " "1" = false /\
   PyStr.contains ") " "Collect Papers" = false) /\
  Planning.subtask_of_line
    ("1" +:+ ". " +:+ "Collect Papers" +:+ ": " +:+ "Find relevant papers")
    = Some ("Collect Papers", "Find relevant papers").
Proof.
  assert (H1 : str_strip ("1" +:+ ". " +:+ "Collect Papers" +:+ ": "
                          +:+ "Find relevant papers")
               = "1" +:+ ". " +:+ "Collect Papers" +:+ ": " +:+ "Find relevant papers")
    by (vm_compute; reflexivity).
  assert (H2 : head_isdigit ("1" +:+ ". " +:+ "Collect Papers" +:+ ": "
                             +:+ "Find relevant papers") = true)
    by (vm_compute; reflexivity).
  assert (H3 : PyStr.contains ": " ("1" +:+ ". " +:+ "Collect Papers") = false)
    by (vm_compute; reflexivity).
  assert (H4 : PyStr.contains ". " "1" = false) by (vm_compute; reflexivity).
  assert (H5 : PyStr.contains ") " "Collect Papers" = false) by (vm_compute; reflexivity).
  exact (conj (conj H1 (conj H2 (conj H3 (conj H4 H5))))
           (subtask_of_line_numbered "1" "Collect Papers" "Find relevant papers"
              H1 H2 H3 H4 H5)).
Defined.

(** The first paper of the examples gets a summary *)
Lemma update_paper_summary_refines_witness :
  (PyStrExt.isascii "deep learning in medical imaging" = true /\
   Forall (fun p => PyStrExt.isascii (Paper.title p) = true)
          [Example.paper_1; Example.paper_2]) /\
  PaperStore.papers
    (snd (PaperStore.update_paper_summary "deep learning in medical imaging" "A survey." []
            (PaperStore.mk "output/papers"
               (PaperJson.obj_of <$> [Example.paper_1; Example.paper_2]) (mk_FS ∅ ∅))))
    = PaperJson.obj_of <$>
        PaperManager.update_paper_summary "deep learning in medical imaging" "A survey." []
          [Example.paper_1; Example.paper_2].
Proof.
  assert (H1 : PyStrExt.isascii "deep learning in medical imaging" = true)
    by (vm_compute; reflexivity).
  assert (H2 : Forall (fun p => PyStrExt.isascii (Paper.title p) = true)
                      [Example.paper_1; Example.paper_2])
    by (repeat (constructor; [vm_compute; reflexivity|]); constructor).
  exact (conj (conj H1 H2)
           (proj1 (proj2
              (update_paper_summary_refines "deep learning in medical imaging" "A survey."
                 [] "output/papers" [Example.paper_1; Example.paper_2] (mk_FS ∅ ∅)
                 H1 H2)))).
Defined.

(** The title of the first paper of the examples, in capitals or not *)
Lemma get_paper_by_title_first_witness :
  PyStrExt.isascii "Deep Learning in Medical Imaging" = true /\
  PaperStore.get_paper_by_title (PyStr.upper "Deep Learning in Medical Imaging")
    (PaperStore.mk "output/papers"
       (PaperJson.obj_of <$> [Example.paper_1; Example.paper_2]) (mk_FS ∅ ∅))
  = PaperStore.get_paper_by_title "Deep Learning in Medical Imaging"
      (PaperStore.mk "output/papers"
         (PaperJson.obj_of <$> [Example.paper_1; Example.paper_2]) (mk_FS ∅ ∅)).
Proof.
  assert (H : PyStrExt.isascii "Deep Learning in Medical Imaging" = true)
    by (vm_compute; reflexivity).
  exact (conj H
           (proj1 (proj2 (get_paper_by_title_first "Deep Learning in Medical Imaging"
                            (PaperStore.mk "output/papers"
                               (PaperJson.obj_of <$> [Example.paper_1; Example.paper_2])
                               (mk_FS ∅ ∅))) H))).
Defined.

(** A literature review without the model *)
Lemma create_literature_review_offline_witness :
  (forall n r, returned (generate_content Example2.env_offline n r) = false) /\
  fst (Planning.create_literature_review Example2.env_offline "ML in Healthcare"
         Example.agent) = Returns false.
Proof.
  assert (H : forall n r, returned (generate_content Example2.env_offline n r) = false)
    by (intros n r; reflexivity).
  exact (conj H (proj1 (create_literature_review_offline Example2.env_offline H
                          "ML in Healthcare" Example.agent))).
Defined.

(** A first paper in an empty directory *)
Lemma store_reload_witness :
  (PaperStore.metadata_file Example2.store ∉ denied (PaperStore.fs Example2.store)) /\
  PaperStore.init (PaperStore.papers_dir Example2.store)
    (PaperStore.fs (PaperStore.add_paper (PaperJson.obj_of Example.paper_1) Example2.store))
  = PaperStore.add_paper (PaperJson.obj_of Example.paper_1) Example2.store.
Proof.
  assert (H : PaperStore.metadata_file Example2.store ∉ denied (PaperStore.fs Example2.store))
    by (cbn; apply not_elem_of_empty).
  exact (conj H (store_reload (PaperJson.obj_of Example.paper_1) Example2.store H)).
Defined.

(** A metadata file whose second record has no title *)
Lemma load_metadata_all_or_nothing_witness :
  (files Example2.fs_bad_record !! path_join "output/papers" "papers_metadata.json"
     = Some (JsonDoc (JList Example2.records)) /\
   Exists (fun x => returned (PaperJson.from_dict x) = false) Example2.records) /\
  PaperStore.papers (PaperStore.init "output/papers" Example2.fs_bad_record) = [].
Proof.
  assert (H1 : files Example2.fs_bad_record !! path_join "output/papers" "papers_metadata.json"
               = Some (JsonDoc (JList Example2.records))) by reflexivity.
  assert (H2 : Exists (fun x => returned (PaperJson.from_dict x) = false) Example2.records)
    by (apply Exists_cons_tl, Exists_cons_hd; reflexivity).
  exact (conj (conj H1 H2)
           (load_metadata_all_or_nothing "output/papers" Example2.fs_bad_record
              Example2.records H1 H2)).
Defined.

(** The second paper of the examples *)
Lemma papers_summary_lists_titles_witness :
  [Example.paper_1; Example.paper_2] !! 1 = Some Example.paper_2 /\
  PyStr.contains ("## " +:+ pretty 2 +:+ ". " +:+ Paper.title Example.paper_2 +:+ PyStr.nl)
    (PaperManager.generate_papers_summary [Example.paper_1; Example.paper_2]) = true.
Proof.
  assert (H : [Example.paper_1; Example.paper_2] !! 1 = Some Example.paper_2)
    by reflexivity.
  exact (conj H (proj1 (papers_summary_lists_titles [Example.paper_1; Example.paper_2] 1
                          Example.paper_2 H))).
Defined.


(** The writing task of the examples *)
Lemma writing_handler_files_witness :
  returned (fst (TaskAgent._handle_writing Example.env_ok (Example.task_c, Example.agent)))
    = true /\
  exists r,
    requests (snd (snd (TaskAgent._handle_writing Example.env_ok
                          (Example.task_c, Example.agent))))
      = requests Example.agent ++ [r] /\
    max_output_tokens r = 4096%Z.
Proof.
  assert (H : returned (fst (TaskAgent._handle_writing Example.env_ok
                               (Example.task_c, Example.agent))) = true)
    by (vm_compute; reflexivity).
  split; [exact H|].
  destruct (writing_handler_files Example.env_ok Example.task_c Example.agent H)
    as (review & r & Hr & Hm & _).
  exists r. exact (conj Hr Hm).
Defined.

(** Two papers with one title *)
Lemma analysis_skips_shadowed_paper_witness :
  (0 < 1 /\
   papers Example2.agent_duplicates !! 0 = Some Example.paper_1 /\
   papers Example2.agent_duplicates !! 1 = Some Example2.paper_1_again /\
   PyStr.lower (Paper.title Example.paper_1)
     = PyStr.lower (Paper.title Example2.paper_1_again)) /\
  papers (snd (snd (TaskAgent._handle_paper_analysis Example.env_ok
                      (Example.task_c, Example2.agent_duplicates)))) !! 1
    = Some Example2.paper_1_again.
Proof.
  assert (H1 : 0 < 1) by lia.
  assert (H2 : papers Example2.agent_duplicates !! 0 = Some Example.paper_1) by reflexivity.
  assert (H3 : papers Example2.agent_duplicates !! 1 = Some Example2.paper_1_again)
    by reflexivity.
  assert (H4 : PyStr.lower (Paper.title Example.paper_1)
               = PyStr.lower (Paper.title Example2.paper_1_again))
    by (vm_compute; reflexivity).
  exact (conj (conj H1 (conj H2 (conj H3 H4)))
           (analysis_skips_shadowed_paper Example.env_ok Example.task_c
              Example2.agent_duplicates 0 1 Example.paper_1 Example2.paper_1_again
              H1 H2 H3 H4)).
Defined.

(** The run of the examples reads its one acknowledgement. *)
Lemma run_workflow_reads_input_witness :
  fst (TaskAgent.run_workflow Example.env_ok Example.workflow Example.agent) = Returns true /\
  stdin (snd (TaskAgent.run_workflow Example.env_ok Example.workflow Example.agent))
    = drop (waiting_tasks (Workflow.tasks Example.workflow)) (stdin Example.agent).
Proof.
  assert (H : fst (TaskAgent.run_workflow Example.env_ok Example.workflow Example.agent)
              = Returns true) by (vm_compute; reflexivity).
  split; [exact H|].
  exact (proj1 (run_workflow_reads_input Example.env_ok Example.workflow Example.agent H)).
Defined.
